(** * Cardiac valve geometry generator: a shallow embedding

    The development follows [examples/cardiac_valve/generate_valve_geometry.py]
    (the generator and the three file writers) and
    [examples/cardiac_valve/visualize_geometry.py] (the three file readers and
    the property calculator).

    Further down it follows what the other functions of these two scripts
    compute (the markers and the colour scale of [plot_single_geometry], the
    stiffness ratio of [compare_severities]) and the scripts that consume the
    files or stand beside them: the vertex reader, the leaflet motion and the
    frame timing of [create_animation.py] (the reader is also that of
    [mini_simulation_demo.py]) and the classifier of [analyze_results.py].

    Python integers are [Z].  Python floats are kept behind the interface
    [PyFloat], which lists exactly the float operations the two scripts use;
    it has two instances further down: the real numbers (the geometry as it is
    meant) and IEEE-754 binary64 (the values that are written to and read from
    the files).  Exceptions are values of [exn], carried by [result]. *)

From Stdlib Require Import ZArith String Ascii List Bool Lia.
From Stdlib Require Import Reals Lra.
From Corelib Require Import SpecFloat.
Import ListNotations.
Open Scope Z_scope.

(** ** Exceptions and the error monad *)

Inductive exn : Type :=
| KeyError (key : string)
| ZeroDivisionError
| IndexError
| ValueError.

Inductive result (A : Type) : Type :=
| Ok (a : A)
| Raise (e : exn).
Arguments Ok {A} a.
Arguments Raise {A} e.

Definition bind {A B : Type} (m : result A) (k : A -> result B) : result B :=
  match m with
  | Ok a => k a
  | Raise e => Raise e
  end.

Declare Scope py_scope.
Delimit Scope py_scope with py.
Notation "x <- m ;; k" := (bind m (fun x => k))
  (at level 61, m at next level, right associativity) : py_scope.
Notation "' pat <- m ;; k" := (bind m (fun x => match x with pat => k end))
  (at level 61, pat pattern, m at next level, right associativity) : py_scope.
Open Scope py_scope.

(** [for x in xs: body], threading the loop's state; an exception raised by
    the body leaves the loop at once. *)
Fixpoint for_in {A S : Type} (xs : list A) (body : A -> S -> result S) (s : S)
  : result S :=
  match xs with
  | [] => Ok s
  | x :: xs' => s' <- body x s ;; for_in xs' body s'
  end.

(** ** [range]

    [range(start, stop, step)] for a positive [step]: CPython computes the
    length as [(stop - start + step - 1) // step] when [start < stop] and [0]
    otherwise, and the k-th element as [start + k * step]. *)
Definition range_len (start stop step : Z) : nat :=
  if start <? stop then Z.to_nat ((stop - start + step - 1) / step) else 0%nat.

Definition py_range (start stop step : Z) : list Z :=
  map (fun k => start + Z.of_nat k * step) (seq 0 (range_len start stop step)).

(** [range(stop)]. *)
Definition range (stop : Z) : list Z := py_range 0 stop 1.

(** ** Floats *)

Class PyFloat (F : Type) : Type := {
  (** an [int] operand promoted to [float] in mixed arithmetic *)
  of_int : Z -> F;
  (** the decimal literal [m * 10^e]: [5.0e2] is [literal 5 2], [0.95] is
      [literal 95 (-2)] *)
  literal : Z -> Z -> F;
  fadd : F -> F -> F;
  fsub : F -> F -> F;
  fmul : F -> F -> F;
  (** [x / y] on floats; the scripts divide by the constant 3 and by counts
      of non-empty arrays only *)
  fdiv : F -> F -> F;
  (** [i / j] on two ints with [j <> 0] (true division) *)
  int_truediv : Z -> Z -> F;
  (** [x ** k] for an int exponent *)
  fpow : F -> Z -> F;
  np_sin : F -> F;
  np_cos : F -> F;
  np_pi : F;
  np_sqrt : F -> F;
  (** [max] / [min] of two array elements, as [np.max] / [np.min] fold them *)
  fmax : F -> F -> F;
  fmin : F -> F -> F
}.

(** [i / j] on ints: raises on a zero divisor. *)
Definition truediv {F} {PF : PyFloat F} (i j : Z) : result F :=
  if j =? 0 then Raise ZeroDivisionError else Ok (int_truediv i j).

(** ** The generator's data *)

(** One entry of [severity_params]: the inner dict, whose four keys are fixed. *)
Record params (F : Type) : Type := mk_params {
  spring_stiffness : F;
  beam_rigidity : F;
  leaflet_length_factor : F;
  mobility : F
}.
Arguments mk_params {F}.
Arguments spring_stiffness {F}.
Arguments beam_rigidity {F}.
Arguments leaflet_length_factor {F}.
Arguments mobility {F}.

(** [[idx1, idx2, stiffness, damping]] *)
Record spring (F : Type) : Type := mk_spring {
  s_idx1 : Z;
  s_idx2 : Z;
  s_stiffness : F;
  s_damping : F
}.
Arguments mk_spring {F}.
Arguments s_idx1 {F}.
Arguments s_idx2 {F}.
Arguments s_stiffness {F}.
Arguments s_damping {F}.

(** [[idx1, idx2, idx3, rigidity]] *)
Record beam (F : Type) : Type := mk_beam {
  b_idx1 : Z;
  b_idx2 : Z;
  b_idx3 : Z;
  b_rigidity : F
}.
Arguments mk_beam {F}.
Arguments b_idx1 {F}.
Arguments b_idx2 {F}.
Arguments b_idx3 {F}.
Arguments b_rigidity {F}.

(** The three lists the generator appends to.  A vertex's index is its
    position in [vertices]. *)
Record model (F : Type) : Type := mk_model {
  vertices : list (F * F);
  springs : list (spring F);
  beams : list (beam F)
}.
Arguments mk_model {F}.
Arguments vertices {F}.
Arguments springs {F}.
Arguments beams {F}.

(** A dict with string keys, in insertion order; a missing key raises
    [KeyError]. *)
Fixpoint dict_get {V : Type} (d : list (string * V)) (key : string) : result V :=
  match d with
  | [] => Raise (KeyError key)
  | (k, v) :: d' => if String.eqb k key then Ok v else dict_get d' key
  end.

Section Generator.
Context {F : Type} {PF : PyFloat F}.

Definition severity_params : list (string * params F) :=
  [ ("healthy"%string,
     mk_params (literal 5 2) (literal 1 (-2)) (literal 1 0) (literal 1 0));
    ("mild"%string,
     mk_params (literal 8 2) (literal 2 (-2)) (literal 95 (-2)) (literal 9 (-1)));
    ("moderate"%string,
     mk_params (literal 15 2) (literal 5 (-2)) (literal 85 (-2)) (literal 7 (-1)));
    ("severe"%string,
     mk_params (literal 3 3) (literal 1 (-1)) (literal 7 (-1)) (literal 4 (-1))) ].

Definition n_leaflets : Z := 3.

(** [theta_center = leaflet_idx * (2 * np.pi / n_leaflets)] *)
Definition theta_center (leaflet_idx : Z) : F :=
  fmul (of_int leaflet_idx) (fdiv (fmul (of_int 2) np_pi) (of_int n_leaflets)).

(** [leaflet_arc = (2 * np.pi / n_leaflets) * 0.8] *)
Definition leaflet_arc : F :=
  fmul (fdiv (fmul (of_int 2) np_pi) (of_int n_leaflets)) (literal 8 (-1)).

(** [curvature = 0.3 * (1 - t**2) * params['mobility']] *)
Definition curvature (p : params F) (t : F) : F :=
  fmul (fmul (literal 3 (-1)) (fsub (of_int 1) (fpow t 2))) (mobility p).

(** The angular deflection [curvature * np.sin(np.pi * t)] added to
    [theta_center] at line 102. *)
Definition deflection (p : params F) (t : F) : F :=
  fmul (curvature p t) (np_sin (fmul np_pi t)).

(** The body of the inner loop at lines 93-107, from [t] on. *)
Definition vertex_at (annulus_radius leaflet_length : F) (p : params F)
    (theta_c : F) (t : F) : F * F :=
  let r := fadd annulus_radius (fmul leaflet_length t) in
  let theta := fadd theta_c (deflection p t) in
  let x := fmul r (np_cos theta) in
  let y := fmul r (np_sin theta) in
  (x, y).

(** The inner loop at lines 93-107 for one leaflet.  [arc] is the value bound
    to [leaflet_arc] at line 89: it is in scope of the loop and the loop does
    not read it. *)
Definition leaflet_points (n_points_per_leaflet : Z)
    (annulus_radius leaflet_length : F) (p : params F) (theta_c arc : F)
    (vs : list (F * F)) : result (list (F * F)) :=
  for_in (range n_points_per_leaflet)
    (fun i vs =>
       t <- truediv i (n_points_per_leaflet - 1) ;;
       Ok (vs ++ [vertex_at annulus_radius leaflet_length p theta_c t]))
    vs.

(** Lines 113-122: the longitudinal springs. *)
Definition longitudinal_springs (n_points_per_leaflet : Z) (p : params F)
    (ss : list (spring F)) : result (list (spring F)) :=
  for_in (range n_leaflets)
    (fun leaflet_idx ss =>
       let base_idx := leaflet_idx * n_points_per_leaflet in
       for_in (range (n_points_per_leaflet - 1))
         (fun i ss =>
            let idx1 := base_idx + i in
            let idx2 := base_idx + i + 1 in
            let stiffness := spring_stiffness p in
            let damping := literal 0 0 in
            Ok (ss ++ [mk_spring idx1 idx2 stiffness damping]))
         ss)
    ss.

(** Lines 125-134: the beams. *)
Definition beam_elements (n_points_per_leaflet : Z) (p : params F)
    (bs : list (beam F)) : result (list (beam F)) :=
  for_in (range n_leaflets)
    (fun leaflet_idx bs =>
       let base_idx := leaflet_idx * n_points_per_leaflet in
       for_in (range (n_points_per_leaflet - 2))
         (fun i bs =>
            let idx1 := base_idx + i in
            let idx2 := base_idx + i + 1 in
            let idx3 := base_idx + i + 2 in
            let rigidity := beam_rigidity p in
            Ok (bs ++ [mk_beam idx1 idx2 idx3 rigidity]))
         bs)
    bs.

(** Lines 137-147: the cross springs. *)
Definition cross_springs (n_points_per_leaflet : Z) (p : params F)
    (ss : list (spring F)) : result (list (spring F)) :=
  for_in (range n_leaflets)
    (fun leaflet_idx ss =>
       let base_idx := leaflet_idx * n_points_per_leaflet in
       let skip := Z.max 1 (n_points_per_leaflet / 8) in
       for_in (py_range 0 (n_points_per_leaflet - skip - 1) skip)
         (fun i ss =>
            let idx1 := base_idx + i in
            let idx2 := base_idx + i + skip in
            let stiffness := fmul (spring_stiffness p) (literal 5 (-1)) in
            let damping := literal 0 0 in
            Ok (ss ++ [mk_spring idx1 idx2 stiffness damping]))
         ss)
    ss.

(** [generate_aortic_valve]; the result is the tuple
    [(vertices, springs, beams, params)], with [vertices] the rows that
    [np.array] packs. *)
Definition generate_aortic_valve (n_points_per_leaflet : Z)
    (annulus_radius leaflet_length : F) (severity : string)
  : result (model F * params F) :=
  p <- dict_get severity_params severity ;;
  let leaflet_length := fmul leaflet_length (leaflet_length_factor p) in
  vs <- for_in (range n_leaflets)
          (fun leaflet_idx vs =>
             let theta_c := theta_center leaflet_idx in
             let arc := leaflet_arc in
             leaflet_points n_points_per_leaflet annulus_radius leaflet_length
               p theta_c arc vs)
          [] ;;
  ss <- longitudinal_springs n_points_per_leaflet p [] ;;
  bs <- beam_elements n_points_per_leaflet p [] ;;
  ss <- cross_springs n_points_per_leaflet p ss ;;
  Ok (mk_model vs ss bs, p).

End Generator.

(** ** Per-leaflet layout

    What one leaflet contributes to each list, written as comprehensions; the
    theorems below show that the loops of [generate_aortic_valve] build
    exactly these, in this order. *)
Section Layout.
Context {F : Type} {PF : PyFloat F}.

Definition leaflet_vertices (n : Z) (annulus_radius leaflet_length : F)
    (p : params F) (k : Z) : list (F * F) :=
  map (fun i => vertex_at annulus_radius leaflet_length p (theta_center k)
                  (int_truediv i (n - 1)))
      (range n).

Definition leaflet_longitudinal (n : Z) (p : params F) (k : Z) : list (spring F) :=
  map (fun i => mk_spring (k * n + i) (k * n + i + 1) (spring_stiffness p)
                  (literal 0 0))
      (range (n - 1)).

Definition leaflet_beams (n : Z) (p : params F) (k : Z) : list (beam F) :=
  map (fun i => mk_beam (k * n + i) (k * n + i + 1) (k * n + i + 2)
                  (beam_rigidity p))
      (range (n - 2)).

Definition cross_skip (n : Z) : Z := Z.max 1 (n / 8).

Definition leaflet_cross (n : Z) (p : params F) (k : Z) : list (spring F) :=
  map (fun i => mk_spring (k * n + i) (k * n + i + cross_skip n)
                  (fmul (spring_stiffness p) (literal 5 (-1))) (literal 0 0))
      (py_range 0 (n - cross_skip n - 1) (cross_skip n)).

End Layout.

(** The skip rule in the specification's words: [i] starts at 0 and steps by
    [skip] while [i + skip < n - 1].  [fuel] bounds the number of steps. *)
Fixpoint skip_rule (fuel : nat) (i skip n : Z) : list Z :=
  match fuel with
  | O => []
  | S fuel' =>
      if i + skip <? n - 1 then i :: skip_rule fuel' (i + skip) skip n else []
  end.

Definition recognized (severity : string) : Prop :=
  In severity ["healthy"; "mild"; "moderate"; "severe"]%string.

(** Block [k] of an index space cut into blocks of [n]. *)
Definition in_block (n k idx : Z) : Prop := k * n <= idx < (k + 1) * n.

(** An element lies in leaflet block [k]: its endpoints are distinct (a
    spring) or consecutive (a beam) and all in the block. *)
Definition spring_in_block {F} (n k : Z) (s : spring F) : Prop :=
  s_idx1 s <> s_idx2 s /\ in_block n k (s_idx1 s) /\ in_block n k (s_idx2 s).

Definition beam_in_block {F} (n k : Z) (b : beam F) : Prop :=
  b_idx2 b = b_idx1 b + 1 /\ b_idx3 b = b_idx1 b + 2 /\
  in_block n k (b_idx1 b) /\ in_block n k (b_idx2 b) /\ in_block n k (b_idx3 b).

(** ** Text: the pieces of Python's [str] the files go through

    The files are ASCII; a string is its sequence of characters. *)

(** [c.isspace()]: tab to carriage return, the four separators, space. *)
Definition is_space (c : ascii) : bool :=
  let n := nat_of_ascii c in
  ((9 <=? n)%nat && (n <=? 13)%nat) || ((28 <=? n)%nat && (n <=? 32)%nat).

Definition is_digit (c : ascii) : bool :=
  let n := nat_of_ascii c in (48 <=? n)%nat && (n <=? 57)%nat.

Definition digit_char (d : Z) : ascii := ascii_of_nat (48 + Z.to_nat d).

Definition digit_val (c : ascii) : Z := Z.of_nat (nat_of_ascii c) - 48.

(** The [w] low decimal digits of [z], most significant first. *)
Fixpoint fixed_digits (w : nat) (z : Z) : string :=
  match w with
  | O => EmptyString
  | S w' => String (digit_char ((z / 10 ^ Z.of_nat w') mod 10)) (fixed_digits w' z)
  end.

(** The value of a string of decimal digits, read left to right from [acc]. *)
Fixpoint digits_value (s : string) (acc : Z) : Z :=
  match s with
  | EmptyString => acc
  | String c s' => digits_value s' (10 * acc + digit_val c)
  end.

Fixpoint ndigits_aux (fuel : nat) (z : Z) : nat :=
  match fuel with
  | O => O
  | S fuel' => if z <=? 0 then O else S (ndigits_aux fuel' (z / 10))
  end.

(** The number of decimal digits of [z > 0] (and 0 for [z <= 0]); the fuel is
    the number of binary digits, which is enough. *)
Definition ndigits (z : Z) : nat := ndigits_aux (S (Z.to_nat (Z.log2 z))) z.

(** [str(z)] for an int. *)
Definition py_str (z : Z) : string :=
  if z =? 0 then "0"%string
  else if z <? 0 then String "-" (fixed_digits (ndigits (- z)) (- z))
  else fixed_digits (ndigits z) z.

Fixpoint spaces (k : nat) : string :=
  match k with
  | O => EmptyString
  | S k' => String " " (spaces k')
  end.

(** [format(z, '6d')]: right-aligned in a field of width 6. *)
Definition format_6d (z : Z) : string :=
  let s := py_str z in (spaces (6 - String.length s) ++ s)%string.

Fixpoint lstrip (s : string) : string :=
  match s with
  | EmptyString => EmptyString
  | String c s' => if is_space c then lstrip s' else s
  end.

Fixpoint rstrip (s : string) : string :=
  match s with
  | EmptyString => EmptyString
  | String c s' =>
      match rstrip s' with
      | EmptyString => if is_space c then EmptyString else String c EmptyString
      | r => String c r
      end
  end.

(** [s.strip()] *)
Definition strip (s : string) : string := rstrip (lstrip s).

(** [s.split()]: the maximal runs of non-blank characters; [cur] is the run
    being read. *)
Fixpoint split_aux (s : string) (cur : string) : list string :=
  match s with
  | EmptyString => match cur with EmptyString => [] | _ => [cur] end
  | String c s' =>
      if is_space c
      then match cur with
           | EmptyString => split_aux s' EmptyString
           | _ => cur :: split_aux s' EmptyString
           end
      else split_aux s' (cur ++ String c EmptyString)
  end.

Definition split (s : string) : list string := split_aux s EmptyString.

(** [f.readline()] on the text still to be read: the line with its newline,
    and the rest; the empty string at the end of the file. *)
Fixpoint readline (f : string) : string * string :=
  match f with
  | EmptyString => (EmptyString, EmptyString)
  | String c f' =>
      if Ascii.eqb c "010" then (String c EmptyString, f')
      else let '(l, rest) := readline f' in (String c l, rest)
  end.

(** No character of [s] is a blank. *)
Fixpoint no_space (s : string) : bool :=
  match s with
  | EmptyString => true
  | String c s' => negb (is_space c) && no_space s'
  end.

(** Every character of [s] is a blank. *)
Fixpoint all_space (s : string) : bool :=
  match s with
  | EmptyString => true
  | String c s' => is_space c && all_space s'
  end.

Fixpoint all_digits (s : string) : bool :=
  match s with
  | EmptyString => true
  | String c s' => is_digit c && all_digits s'
  end.

(** No character of [s] is a newline. *)
Fixpoint no_newline (s : string) : bool :=
  match s with
  | EmptyString => true
  | String c s' => negb (Ascii.eqb c "010") && no_newline s'
  end.

(** An optional leading sign: whether it is a minus, and the rest. *)
Definition split_sign (s : string) : bool * string :=
  match s with
  | String "-" t => (true, t)
  | String "+" t => (false, t)
  | _ => (false, s)
  end.

(** [int(s)] for a string: blanks around, an optional sign, digits (the
    underscore grouping Python also accepts is left out). *)
Definition py_int (s : string) : result Z :=
  let '(neg, t) := split_sign (strip s) in
  match t with
  | EmptyString => Raise ValueError
  | _ => if all_digits t
         then Ok (if neg then - digits_value t 0 else digits_value t 0)
         else Raise ValueError
  end.

(** [line[k]] on a list: [IndexError] past the end. *)
Definition item {A} (l : list A) (k : nat) : result A :=
  match nth_error l k with
  | Some a => Ok a
  | None => Raise IndexError
  end.

(** What the files need of a float: [format(x, 'e')] and [float(s)]. *)
Class FloatText (F : Type) : Type := {
  format_e : F -> string;
  py_float : string -> result F
}.

(** ** numpy arrays, as far as the scripts use them: a vector or a matrix
    with its number of columns. *)
Inductive ndarray (F : Type) : Type :=
| Array1D (xs : list F)
| Array2D (ncols : nat) (rows : list (list F)).
Arguments Array1D {F} xs.
Arguments Array2D {F} ncols rows.

(** [np.array(rows)] on a list of equally long rows; the empty list gives the
    empty vector. *)
Definition np_array {F} (rows : list (list F)) : ndarray F :=
  match rows with
  | [] => Array1D []
  | r :: _ => Array2D (length r) rows
  end.

Definition tab : string := String "009" EmptyString.
Definition newline : string := String "010" EmptyString.

(** ** The file writers ([generate_valve_geometry.py], lines 152-176)

    A file opened for writing is the text written so far; each writer returns
    the text of the finished file.  The writers iterate over the rows of
    their argument, here the list of rows. *)
Section Writers.
Context {F : Type} {FT : FloatText F}.

(** [f.write(s)] *)
Definition write (f : string) (s : string) : string := (f ++ s)%string.

Definition vertex_line (v : F * F) : string :=
  (format_e (fst v) ++ tab ++ format_e (snd v) ++ newline)%string.

Definition spring_line (s : spring F) : string :=
  (format_6d (s_idx1 s) ++ " " ++ format_6d (s_idx2 s) ++ " " ++
   format_e (s_stiffness s) ++ " " ++ format_e (s_damping s) ++ newline)%string.

Definition beam_line (b : beam F) : string :=
  (format_6d (b_idx1 b) ++ " " ++ format_6d (b_idx2 b) ++ " " ++
   format_6d (b_idx3 b) ++ " " ++ format_e (b_rigidity b) ++ newline)%string.

Definition write_vertex_file (vertices : list (F * F)) : string :=
  let f := write EmptyString (py_str (Z.of_nat (length vertices)) ++ newline) in
  fold_left (fun f v => write f (vertex_line v)) vertices f.

Definition write_spring_file (springs : list (spring F)) : string :=
  let f := write EmptyString (py_str (Z.of_nat (length springs)) ++ newline) in
  fold_left (fun f s => write f (spring_line s)) springs f.

Definition write_beam_file (beams : list (beam F)) : string :=
  let f := write EmptyString (py_str (Z.of_nat (length beams)) ++ newline) in
  fold_left (fun f b => write f (beam_line b)) beams f.

End Writers.

(** The text made of the given lines, in order. *)
Definition lines_text (ls : list string) : string :=
  fold_right String.append EmptyString ls.

(** ** The file readers ([visualize_geometry.py], lines 25-56)

    A file opened for reading is the text still to be read. *)
Section Readers.
Context {F : Type} {PF : PyFloat F} {FT : FloatText F}.

(** How [np.array] stores a parsed row: the ints become floats. *)
Definition spring_row (s : spring F) : list F :=
  [of_int (s_idx1 s); of_int (s_idx2 s); s_stiffness s; s_damping s].

Definition beam_row (b : beam F) : list F :=
  [of_int (b_idx1 b); of_int (b_idx2 b); of_int (b_idx3 b); b_rigidity b].

(** [np.zeros((n_vertices, 2))] raises on a negative count; row [i] is then
    assigned in the [i]-th iteration, so the filled matrix is the rows in
    reading order. *)
Definition read_vertex_file (f : string) : result (ndarray F) :=
  let '(l, f) := readline f in
  n_vertices <- py_int (strip l) ;;
  if n_vertices <? 0 then Raise ValueError else
  st <- for_in (range n_vertices)
          (fun i (st : list (list F) * string) =>
             let '(rows, f) := st in
             let '(l, f) := readline f in
             let line := split (strip l) in
             a <- item line 0 ;;
             x <- py_float a ;;
             b <- item line 1 ;;
             y <- py_float b ;;
             Ok (rows ++ [[x; y]], f))
          ([], f) ;;
  Ok (Array2D 2 (fst st)).

(** Lines 39-44 of [read_spring_file]: the list [springs] of parsed rows. *)
Definition read_spring_rows (f : string) : result (list (spring F)) :=
  let '(l, f) := readline f in
  n_springs <- py_int (strip l) ;;
  st <- for_in (range n_springs)
          (fun i (st : list (spring F) * string) =>
             let '(springs, f) := st in
             let '(l, f) := readline f in
             let line := split (strip l) in
             a <- item line 0 ;;
             idx1 <- py_int a ;;
             b <- item line 1 ;;
             idx2 <- py_int b ;;
             c <- item line 2 ;;
             stiffness <- py_float c ;;
             d <- item line 3 ;;
             damping <- py_float d ;;
             Ok (springs ++ [mk_spring idx1 idx2 stiffness damping], f))
          ([], f) ;;
  Ok (fst st).

(** [read_spring_file]: the rows, packed by [np.array]. *)
Definition read_spring_file (f : string) : result (ndarray F) :=
  springs <- read_spring_rows f ;;
  Ok (np_array (map spring_row springs)).

(** Lines 50-55 of [read_beam_file]: the list [beams] of parsed rows. *)
Definition read_beam_rows (f : string) : result (list (beam F)) :=
  let '(l, f) := readline f in
  n_beams <- py_int (strip l) ;;
  st <- for_in (range n_beams)
          (fun i (st : list (beam F) * string) =>
             let '(beams, f) := st in
             let '(l, f) := readline f in
             let line := split (strip l) in
             a <- item line 0 ;;
             idx1 <- py_int a ;;
             b <- item line 1 ;;
             idx2 <- py_int b ;;
             c <- item line 2 ;;
             idx3 <- py_int c ;;
             d <- item line 3 ;;
             rigidity <- py_float d ;;
             Ok (beams ++ [mk_beam idx1 idx2 idx3 rigidity], f))
          ([], f) ;;
  Ok (fst st).

(** [read_beam_file]: the rows, packed by [np.array]. *)
Definition read_beam_file (f : string) : result (ndarray F) :=
  beams <- read_beam_rows f ;;
  Ok (np_array (map beam_row beams)).

End Readers.

(** ** The property calculator ([visualize_geometry.py], lines 59-96) *)

Record properties (F : Type) : Type := mk_properties {
  center : list F;
  min_radius : F;
  max_radius : F;
  radial_extent : F;
  orifice_area : F;
  avg_stiffness : F;
  max_stiffness : F;
  n_vertices : Z;
  n_springs : Z
}.
Arguments mk_properties {F}.
Arguments center {F}.
Arguments min_radius {F}.
Arguments max_radius {F}.
Arguments radial_extent {F}.
Arguments orifice_area {F}.
Arguments avg_stiffness {F}.
Arguments max_stiffness {F}.
Arguments n_vertices {F}.
Arguments n_springs {F}.

Section Properties.
Context {F : Type} {PF : PyFloat F}.

(** The sum of a vector, added left to right (numpy adds in blocks; under
    exact arithmetic the order is immaterial). *)
Definition np_sum (xs : list F) : F := fold_left fadd xs (of_int 0).

(** [np.mean] of a vector: the sum over the count; on the empty vector numpy
    warns and returns the quotient 0/0. *)
Definition np_mean (xs : list F) : F :=
  fdiv (np_sum xs) (of_int (Z.of_nat (length xs))).

(** [np.max] / [np.min] of a vector: no identity, so the empty vector raises. *)
Definition np_max (xs : list F) : result F :=
  match xs with
  | [] => Raise ValueError
  | x :: xs' => Ok (fold_left fmax xs' x)
  end.

Definition np_min (xs : list F) : result F :=
  match xs with
  | [] => Raise ValueError
  | x :: xs' => Ok (fold_left fmin xs' x)
  end.

(** [a[:, k]]: a vector has no second axis. *)
Definition column (a : ndarray F) (k : nat) : result (list F) :=
  match a with
  | Array1D _ => Raise IndexError
  | Array2D ncols rows =>
      if (k <? ncols)%nat then Ok (map (fun r => nth k r (of_int 0)) rows)
      else Raise IndexError
  end.

(** [len(a)] *)
Definition np_len (a : ndarray F) : Z :=
  match a with
  | Array1D xs => Z.of_nat (length xs)
  | Array2D _ rows => Z.of_nat (length rows)
  end.

(** One entry of [np.linalg.norm(vertices - center, axis=1)]. *)
Definition row_norm (row c : list F) : F :=
  np_sqrt (np_sum (map (fun d => fmul d d)
                       (map (fun rc => fsub (fst rc) (snd rc)) (combine row c)))).

(** [convex_hull] stands for [scipy.spatial.ConvexHull(vertices).volume]:
    [None] when the constructor raises (the bare [except] catches it).  On a
    vector, [np.linalg.norm(..., axis=1)] raises (numpy's [AxisError], a
    [ValueError]): there is no axis 1.  The array [angles] is computed and
    never used; computing it indexes columns 1 and 0 of [vertices] and
    entries 1 and 0 of [center]. *)
Definition calculate_geometric_properties
    (convex_hull : list (list F) -> option F)
    (vertices springs : ndarray F) : result (properties F) :=
  match vertices with
  | Array1D _ => Raise ValueError
  | Array2D ncols rows =>
      let center :=
        map (fun k => np_mean (map (fun r => nth k r (of_int 0)) rows))
            (seq 0 ncols) in
      let radii := map (fun r => row_norm r center) rows in
      min_radius <- np_min radii ;;
      max_radius <- np_max radii ;;
      let orifice_area :=
        match convex_hull rows with
        | Some area => area
        | None => fmul np_pi (fpow min_radius 2)
        end in
      _ <- column vertices 1 ;;
      _ <- item center 1 ;;
      _ <- column vertices 0 ;;
      _ <- item center 0 ;;
      k <- column springs 2 ;;
      let avg_stiffness := np_mean k in
      k <- column springs 2 ;;
      max_stiffness <- np_max k ;;
      Ok (mk_properties center min_radius max_radius
            (fsub max_radius min_radius) orifice_area avg_stiffness
            max_stiffness (np_len vertices) (np_len springs))
  end.

End Properties.

(** ** The real-number instance

    The arithmetic as it is meant: every operation exact. *)
#[export] Instance R_float : PyFloat R := {
  of_int := IZR;
  literal := fun m e => (IZR m * powerRZ 10 e)%R;
  fadd := Rplus;
  fsub := Rminus;
  fmul := Rmult;
  fdiv := Rdiv;
  int_truediv := fun i j => (IZR i / IZR j)%R;
  fpow := powerRZ;
  np_sin := sin;
  np_cos := cos;
  np_pi := PI;
  np_sqrt := sqrt;
  fmax := Rmax;
  fmin := Rmin
}.

(** ** The binary64 instance

    A Python float is an IEEE-754 binary64 value: [spec_float] with precision
    53 and exponent bound 1024, computed on by the reference operations of
    the standard library.  [pow], [sin] and [cos] come from the C library and
    are not correctly rounded, so the instance takes them as arguments. *)

Definition prec : Z := 53.
Definition emax : Z := 1024.

(** The binary64 nearest (ties to even) to the quotient [a / b] of two
    positive integers, with sign [s]. *)
Definition b64_quotient (s : bool) (a b : Z) : spec_float :=
  let '(q, e, l) := SFdiv_core_binary prec emax a 0 b 0 in
  binary_round_aux prec emax s q e l.

(** The binary64 nearest to the decimal [m * 10^e10] ([m >= 0]) with sign [s]:
    what the lexer makes of a float literal and [float()] of a decimal
    string; both are correctly rounded. *)
Definition float_of_decimal (s : bool) (m e10 : Z) : spec_float :=
  if m <=? 0 then S754_zero s
  else if 0 <=? e10 then binary_round prec emax s (Z.to_pos (m * 10 ^ e10)) 0
  else b64_quotient s m (10 ^ (- e10)).

(** [i / j] on ints is correctly rounded. *)
Definition b64_int_truediv (i j : Z) : spec_float :=
  let s := xorb (i <? 0) (j <? 0) in
  if i =? 0 then S754_zero s else b64_quotient s (Z.abs i) (Z.abs j).

(** [np.max] propagates a nan; so does [np.min]. *)
Definition b64_max (x y : spec_float) : spec_float :=
  match SFcompare x y with
  | None => S754_nan
  | Some Lt => y
  | Some _ => x
  end.

Definition b64_min (x y : spec_float) : spec_float :=
  match SFcompare x y with
  | None => S754_nan
  | Some Gt => y
  | Some _ => x
  end.

Definition b64 (pow : spec_float -> Z -> spec_float)
    (sin cos : spec_float -> spec_float) : PyFloat spec_float := {|
  of_int := fun z => binary_normalize prec emax z 0 false;
  literal := float_of_decimal false;
  fadd := SFadd prec emax;
  fsub := SFsub prec emax;
  fmul := SFmul prec emax;
  fdiv := SFdiv prec emax;
  int_truediv := b64_int_truediv;
  fpow := pow;
  np_sin := sin;
  np_cos := cos;
  np_pi := float_of_decimal false 3141592653589793 (-15);
  np_sqrt := SFsqrt prec emax;
  fmax := b64_max;
  fmin := b64_min
|}.

(** [1.0] *)
Definition b64_one : spec_float := S754_finite false 4503599627370496 (-52).

(** Neither a nan nor an infinity. *)
Definition finite_or_zero (x : spec_float) : Prop :=
  match x with
  | S754_zero _ | S754_finite _ _ _ => True
  | _ => False
  end.

(** *** [format(x, 'e')]

    The exact value of a finite float is the rational [m * 2^e]; Python
    prints it correctly rounded (ties to even) to seven significant digits. *)

(** The decimal exponent of the positive rational [num / den]: the [p] with
    [10^p <= num / den < 10^(p+1)]. *)
Definition decimal_exponent (num den : Z) : Z :=
  if den <=? num then Z.of_nat (ndigits (num / den)) - 1
  else - Z.of_nat (ndigits ((den - 1) / num)).

(** [num / den] rounded to the nearest integer, ties to even. *)
Definition round_half_even (num den : Z) : Z :=
  let q := num / den in
  match 2 * (num mod den) ?= den with
  | Lt => q
  | Gt => q + 1
  | Eq => if Z.even q then q else q + 1
  end.

(** [num / den > 0] to seven significant digits: [(q, p)] stands for
    [q * 10^(p - 6)], with [10^6 <= q < 10^7]. *)
Definition sci7 (num den : Z) : Z * Z :=
  let p := decimal_exponent num den in
  let q := if p <=? 6 then round_half_even (num * 10 ^ (6 - p)) den
           else round_half_even num (den * 10 ^ (p - 6)) in
  if q =? 10 ^ 7 then (10 ^ 6, p + 1) else (q, p).

(** The sign and at least two digits. *)
Definition exponent_text (p : Z) : string :=
  String (if p <? 0 then "-"%char else "+"%char)
    (fixed_digits (Nat.max 2 (ndigits (Z.abs p))) (Z.abs p)).

Definition sign_text (s : bool) : string :=
  if s then "-"%string else EmptyString.

(** The absolute value [m * 2^e] of a finite float as a fraction of two
    positive integers. *)
Definition exact_fraction (m : positive) (e : Z) : Z * Z :=
  if 0 <=? e then (Z.pos m * 2 ^ e, 1) else (Z.pos m, 2 ^ (- e)).

(** The decimal a float is written as: its sign, seven digits and decimal
    exponent; [None] for a nan or an infinity. *)
Definition decimal_of_float (x : spec_float) : option (bool * Z * Z) :=
  match x with
  | S754_nan => None
  | S754_infinity _ => None
  | S754_zero s => Some (s, 0, 0)
  | S754_finite s m e =>
      let '(num, den) := exact_fraction m e in
      let '(q, p) := sci7 num den in
      Some (s, q, p)
  end.

(** [q * 10^(p - 6)] is within half a unit of its last digit of [num / den]. *)
Definition within_half_unit (num den q p : Z) : Prop :=
  if p <=? 6 then 2 * Z.abs (q * den - num * 10 ^ (6 - p)) <= den
  else 2 * Z.abs (q * (den * 10 ^ (p - 6)) - num) <= den * 10 ^ (p - 6).

(** What is written for [x] is [x] to the precision of seven significant
    digits: a finite [x] is written as a seven-digit decimal of its sign,
    within half a unit of the seventh digit of its value. *)
Definition written_to_seven_digits (x : spec_float) : Prop :=
  match x with
  | S754_finite s m e =>
      exists q p,
        decimal_of_float x = Some (s, q, p) /\
        10 ^ 6 <= q < 10 ^ 7 /\
        within_half_unit (fst (exact_fraction m e)) (snd (exact_fraction m e)) q p
  | S754_zero s => decimal_of_float x = Some (s, 0, 0)
  | _ => decimal_of_float x = None
  end.

(** [d.dddddde+XX] for the decimal [q * 10^(p - 6)]. *)
Definition scientific_text (s : bool) (q p : Z) : string :=
  (sign_text s ++
   String (digit_char (q / 10 ^ 6)) ("." ++ fixed_digits 6 q) ++
   "e" ++ exponent_text p)%string.

Definition b64_format_e (x : spec_float) : string :=
  match decimal_of_float x with
  | Some (s, q, p) => scientific_text s q p
  | None =>
      match x with
      | S754_infinity s => (sign_text s ++ "inf")%string
      | _ => "nan"%string
      end
  end.

(** *** [float(s)] *)

(** The longest prefix of digits, and what follows it. *)
Fixpoint span_digits (s : string) : string * string :=
  match s with
  | EmptyString => (EmptyString, EmptyString)
  | String c s' =>
      if is_digit c
      then let '(d, r) := span_digits s' in (String c d, r)
      else (EmptyString, s)
  end.

Definition lower (c : ascii) : ascii :=
  let n := nat_of_ascii c in
  if (65 <=? n)%nat && (n <=? 90)%nat then ascii_of_nat (n + 32) else c.

Fixpoint lower_string (s : string) : string :=
  match s with
  | EmptyString => EmptyString
  | String c s' => String (lower c) (lower_string s')
  end.

(** What may follow the mantissa: nothing, or [e] / [E], an optional sign and
    at least one digit. *)
Definition parse_exponent (s : string) : result Z :=
  match s with
  | EmptyString => Ok 0
  | String c t =>
      if Ascii.eqb (lower c) "e" then
        let '(neg, ds) := split_sign t in
        match ds with
        | EmptyString => Raise ValueError
        | _ => if all_digits ds
               then Ok (if neg then - digits_value ds 0 else digits_value ds 0)
               else Raise ValueError
        end
      else Raise ValueError
  end.

(** [float(s)] for a string: blanks around, an optional sign, then [inf],
    [infinity] or [nan] in any case, or digits with an optional point and an
    optional exponent, at least one digit in the mantissa (the underscore
    grouping Python also accepts is left out). *)
Definition b64_py_float (s : string) : result spec_float :=
  let '(neg, t) := split_sign (strip s) in
  let w := lower_string t in
  if (String.eqb w "inf" || String.eqb w "infinity")%bool then Ok (S754_infinity neg)
  else if String.eqb w "nan" then Ok S754_nan
  else
    let '(ip, r) := span_digits t in
    let '(fp, r) := match r with
                    | String "." u => span_digits u
                    | _ => (EmptyString, r)
                    end in
    match (ip ++ fp)%string with
    | EmptyString => Raise ValueError
    | ds => e <- parse_exponent r ;;
            Ok (float_of_decimal neg (digits_value ds 0)
                  (e - Z.of_nat (String.length fp)))
    end.

#[export] Instance b64_text : FloatText spec_float := {
  format_e := b64_format_e;
  py_float := b64_py_float
}.

(** The value read back for a float that was written with [format_e]: the
    binary64 nearest to the seven-digit decimal in the file. *)
Definition reread (x : spec_float) : spec_float :=
  match decimal_of_float x with
  | Some (s, q, p) => float_of_decimal s q (p - 6)
  | None => x
  end.

(** ** Connectivity *)

(** The endpoints of an element, without its material constant. *)
Definition spring_ends {F} (s : spring F) : Z * Z := (s_idx1 s, s_idx2 s).

Definition beam_ends {F} (b : beam F) : Z * Z * Z :=
  (b_idx1 b, b_idx2 b, b_idx3 b).

(** ** Arrays of a generated model, and the comparison of two valves *)

(** The rows of [np.array(vertices)] (line 109 of the generator): one
    two-entry row per vertex. *)
Definition vertex_rows {F} (vs : list (F * F)) : list (list F) :=
  map (fun v => [fst v; snd v]) vs.

(** [compare_severities], line 242: the ratio printed as the stiffness
    increase from the healthy to the severe valve. *)
Definition stiffness_increase {F} {PF : PyFloat F}
    (healthy severe : properties F) : F :=
  fdiv (avg_stiffness severe) (avg_stiffness healthy).

(** The share of the full stiffness in the average: the longitudinal springs
    count fully, the cross springs by half. *)
Definition stiffness_weight (n : Z) : R :=
  ((INR (Z.to_nat (3 * (n - 1)))
    + INR (Z.to_nat (3 * ((n - 2) / cross_skip n))) / 2)
   / INR (Z.to_nat (3 * (n - 1)) + Z.to_nat (3 * ((n - 2) / cross_skip n))))%R.

(** ** The vertex reader of the demos ([create_animation.py], lines 22-30;
    [mini_simulation_demo.py], lines 23-31, is the same text)

    [int] and [split] are applied to the line as read, and the row is
    assigned at once. *)
Module create_animation.
Section Reader.
Context {F : Type} {FT : FloatText F}.

Definition read_vertex_file (f : string) : result (ndarray F) :=
  let '(l, f) := readline f in
  n <- py_int l ;;
  if n <? 0 then Raise ValueError else
  st <- for_in (range n)
          (fun i (st : list (list F) * string) =>
             let '(verts, f) := st in
             let '(l, f) := readline f in
             let line := split l in
             a <- item line 0 ;;
             x <- py_float a ;;
             b <- item line 1 ;;
             y <- py_float b ;;
             Ok (verts ++ [[x; y]], f))
          ([], f) ;;
  Ok (Array2D 2 (fst st)).

End Reader.
End create_animation.

(** ** [plot_single_geometry] ([visualize_geometry.py], lines 99-155): what
    it computes before it draws *)

(** An index on the first axis of an array of [len] rows: a negative index
    counts from the end, and outside [-len, len) numpy raises. *)
Definition np_index (len i : Z) : result nat :=
  if (i <? - len) || (len <=? i) then Raise IndexError
  else Ok (Z.to_nat (if i <? 0 then i + len else i)).

Section Plot.
Context {F : Type} {PF : PyFloat F}.

(** [a[indices, k]] for a list of row indices and a column. *)
Definition take_column (a : ndarray F) (indices : list Z) (k : nat)
  : result (list F) :=
  match a with
  | Array1D _ => Raise IndexError
  | Array2D ncols rows =>
      if (k <? ncols)%nat
      then for_in indices
             (fun i xs =>
                j <- np_index (Z.of_nat (length rows)) i ;;
                row <- item rows j ;;
                Ok (xs ++ [nth k row (of_int 0)]))
             []
      else Raise IndexError
  end.

(** Lines 126-134: the coordinates of the annulus markers and of the tip
    markers, [((bx, by), (tx, ty))]. *)
Definition highlighted_points (vertices : ndarray F)
  : result ((list F * list F) * (list F * list F)) :=
  let n_per_leaflet := np_len vertices / 3 in
  let base_indices := [0; n_per_leaflet; 2 * n_per_leaflet] in
  bx <- take_column vertices base_indices 0 ;;
  by_ <- take_column vertices base_indices 1 ;;
  let tip_indices :=
    [n_per_leaflet - 1; 2 * n_per_leaflet - 1; np_len vertices - 1] in
  tx <- take_column vertices tip_indices 0 ;;
  ty <- take_column vertices tip_indices 1 ;;
  Ok ((bx, by_), (tx, ty)).

(** Lines 105-106: the stiffness of every spring scaled for the colour map,
    computed only when there is a spring (no value otherwise). *)
Definition stiffness_norm (springs : ndarray F) : result (list F) :=
  if 0 <? np_len springs then
    k <- column springs 2 ;;
    k1 <- column springs 2 ;;
    lo <- np_min k1 ;;
    k2 <- column springs 2 ;;
    hi <- np_max k2 ;;
    k3 <- column springs 2 ;;
    lo' <- np_min k3 ;;
    Ok (map (fun x => fdiv (fsub x lo) (fadd (fsub hi lo') (literal 1 (-10)))) k)
  else Ok [].

End Plot.

(** ** Comparisons of floats

    [x < y] and [x > y]; both are false when an operand is a nan. *)
Class PyOrder (F : Type) : Type := {
  flt : F -> F -> bool;
  fgt : F -> F -> bool
}.

(** ** The severity classifier ([analyze_results.py], lines 94-111) *)

Section Classifier.
Context {F : Type} {PF : PyFloat F} {PO : PyOrder F}.

Definition calculate_clinical_severity (mean_gradient peak_velocity eoa : F)
  : string :=
  if fgt mean_gradient (of_int 40) || fgt peak_velocity (of_int 400)
     || flt eoa (literal 1 0)
  then "SEVERE"
  else if fgt mean_gradient (of_int 25) || fgt peak_velocity (of_int 300)
          || flt eoa (literal 15 (-1))
  then "MODERATE"
  else if fgt mean_gradient (of_int 10) || fgt peak_velocity (of_int 200)
          || flt eoa (literal 2 0)
  then "MILD"
  else "NORMAL".

End Classifier.

(** A number for each class, the greater the worse: 3 for [SEVERE], the
    class tested first, down to 0 for [NORMAL]. *)
Definition severity_rank (label : string) : Z :=
  if String.eqb label "SEVERE" then 3
  else if String.eqb label "MODERATE" then 2
  else if String.eqb label "MILD" then 1
  else 0.

(** ** The leaflet motion of the animation ([create_animation.py], lines
    33-71) *)

Record opening_params (F : Type) : Type := mk_opening_params {
  max_opening : F;
  stiffness : F
}.
Arguments mk_opening_params {F}.
Arguments max_opening {F}.
Arguments stiffness {F}.

Section Deformation.
Context {F : Type} {PF : PyFloat F} {PO : PyOrder F}.

Definition deformation_params : list (string * opening_params F) :=
  [ ("healthy"%string, mk_opening_params (literal 95 (-2)) (literal 1 0));
    ("severe"%string, mk_opening_params (literal 5 (-1)) (literal 3 0)) ].

(** Lines 47-52: the opening at a time of the cycle. *)
Definition opening_at (params : opening_params F) (time_in_cycle : F) : F :=
  if flt time_in_cycle (literal 3 (-1))
  then
    let opening_fraction :=
      np_sin (fdiv (fmul np_pi time_in_cycle) (literal 3 (-1))) in
    fmul (max_opening params) opening_fraction
  else literal 5 (-2).

(** [simulate_valve_deformation]; the result is the tuple
    [(deformed_verts, opening)].  Subtracting the two-entry [center] needs
    two columns (or one, which is stretched: the column index 1 then fails);
    [angles] is computed and not used; the maximum of no radii raises. *)
Definition simulate_valve_deformation (base_verts : ndarray F)
    (time_in_cycle : F) (severity : string) : result (ndarray F * F) :=
  params <- dict_get deformation_params severity ;;
  let opening := opening_at params time_in_cycle in
  match base_verts with
  | Array1D _ => Raise ValueError
  | Array2D ncols rows =>
      match ncols with
      | 2%nat =>
          let center := [of_int 0; of_int 0] in
          let radii := map (fun r => row_norm r center) rows in
          radii_max <- np_max radii ;;
          let radial_displacement :=
            map (fun radius =>
                   fmul (fmul opening
                           (fsub (of_int 1) (fdiv radius radii_max)))
                        (literal 3 (-1)))
                radii in
          let deformed_verts :=
            map (fun rd : list F * F =>
                   let '(row, d) := rd in
                   [fmul (nth 0 row (of_int 0)) (fsub (of_int 1) d);
                    fmul (nth 1 row (of_int 0)) (fsub (of_int 1) d)])
                (combine rows radial_displacement) in
          Ok (Array2D 2 deformed_verts, opening)
      | 1%nat => Raise IndexError
      | _ => Raise ValueError
      end
  end.

End Deformation.

#[export] Instance R_order : PyOrder R := {
  flt := fun x y => if Rlt_dec x y then true else false;
  fgt := fun x y => if Rlt_dec y x then true else false
}.

#[export] Instance b64_order : PyOrder spec_float := {
  flt := SFltb;
  fgt := fun x y => SFltb y x
}.

Section Frame.
Context {F : Type} {PF : PyFloat F} {PO : PyOrder F}.

(** [create_frame] ([create_animation.py], lines 111-131), up to the phase:
    the time of the frame, the two deformed valves with their openings, and
    the phase.  The flow fields computed in between depend on the time and
    the severity only and are left out; the drawing follows. *)
Definition create_frame (frame_num : Z) (healthy_verts severe_verts : ndarray F)
    (total_frames : Z) (cycle_duration : F)
  : result (F * (ndarray F * F) * (ndarray F * F) * string) :=
  q <- truediv frame_num total_frames ;;
  let time_in_cycle := fmul q cycle_duration in
  healthy <- simulate_valve_deformation healthy_verts time_in_cycle "healthy" ;;
  severe <- simulate_valve_deformation severe_verts time_in_cycle "severe" ;;
  let phase :=
    if flt time_in_cycle (literal 3 (-1)) then "SYSTOLE"%string
    else "DIASTOLE"%string in
  Ok (time_in_cycle, healthy, severe, phase).

End Frame.

(* ================================================================= *)
(** * Proofs *)

(** ** Loops *)

Lemma for_in_ext {A S} (xs : list A) (f g : A -> S -> result S) (s : S) :
  (forall x s, In x xs -> f x s = g x s) ->
  for_in xs f s = for_in xs g s.
Proof.
  revert s; induction xs as [|x xs IH]; intros s Hfg; simpl; [reflexivity|].
  rewrite (Hfg x s) by (left; reflexivity).
  destruct (g x s); simpl; [|reflexivity].
  apply IH; intros; apply Hfg; right; assumption.
Qed.

(** A loop whose body appends one element per iteration. *)
Lemma for_in_append {A B} (xs : list A) (f : A -> B) (s : list B) :
  for_in xs (fun x s => Ok (s ++ [f x])) s = Ok (s ++ map f xs).
Proof.
  revert s; induction xs as [|x xs IH]; intros s; simpl.
  - now rewrite app_nil_r.
  - rewrite IH, <- app_assoc; reflexivity.
Qed.

(** A loop whose body appends a block per iteration. *)
Lemma for_in_blocks {A B} (ks : list A) (body : A -> list B -> result (list B))
    (g : A -> list B) (s : list B) :
  (forall k s, In k ks -> body k s = Ok (s ++ g k)) ->
  for_in ks body s = Ok (s ++ flat_map g ks).
Proof.
  revert s; induction ks as [|k ks IH]; intros s Hb; simpl.
  - now rewrite app_nil_r.
  - rewrite Hb by (left; reflexivity); simpl.
    rewrite IH by (intros; apply Hb; right; assumption).
    now rewrite app_assoc.
Qed.

(** ** Ranges *)

Lemma range_len_step1 (stop : Z) : range_len 0 stop 1 = Z.to_nat stop.
Proof.
  unfold range_len. destruct (Z.ltb_spec 0 stop).
  - f_equal. rewrite Z.div_1_r. lia.
  - lia.
Qed.

Lemma length_py_range (start stop step : Z) :
  length (py_range start stop step) = range_len start stop step.
Proof. unfold py_range. now rewrite length_map, length_seq. Qed.

Lemma length_range (stop : Z) : length (range stop) = Z.to_nat stop.
Proof. unfold range. now rewrite length_py_range, range_len_step1. Qed.

Lemma in_py_range (start stop step i : Z) :
  0 < step ->
  In i (py_range start stop step) <->
  exists j, 0 <= j /\ i = start + j * step /\ i < stop.
Proof.
  intros Hstep. unfold py_range, range_len. rewrite in_map_iff. split.
  - intros (k & <- & Hk). apply in_seq in Hk. exists (Z.of_nat k).
    destruct (Z.ltb_spec start stop) as [Hlt|Hge]; [|simpl in Hk; lia].
    split; [lia|]. split; [reflexivity|].
    assert (Hq : Z.of_nat k < (stop - start + step - 1) / step) by lia.
    assert (Hq' : Z.of_nat k + 1 <= (stop - start + step - 1) / step) by lia.
    assert (step * (Z.of_nat k + 1) <= stop - start + step - 1).
    { etransitivity; [apply Z.mul_le_mono_nonneg_l; [lia|exact Hq']|].
      apply Z.mul_div_le; lia. }
    nia.
  - intros (j & Hj & -> & Hlt). exists (Z.to_nat j). split; [f_equal; lia|].
    apply in_seq.
    assert (Hss : start < stop) by nia.
    destruct (Z.ltb_spec start stop); [|lia].
    split; [lia|]. simpl.
    assert (j + 1 <= (stop - start + step - 1) / step); [|lia].
    apply Z.div_le_lower_bound; nia.
Qed.

Lemma in_range (stop i : Z) : In i (range stop) <-> 0 <= i < stop.
Proof.
  unfold range. rewrite in_py_range by lia. split.
  - intros (j & ? & -> & ?); lia.
  - intros [? ?]. exists i; lia.
Qed.

Lemma range_3 : range 3 = [0; 1; 2].
Proof. reflexivity. Qed.

(** ** The severity table *)

Section GeneratorFacts.
Context {F : Type} {PF : PyFloat F}.

Lemma dict_get_recognized (severity : string) :
  recognized severity ->
  exists p, dict_get severity_params severity = Ok p.
Proof.
  unfold recognized. simpl.
  intros [<-|[<-|[<-|[<-|[]]]]]; eexists; reflexivity.
Qed.

Lemma dict_get_unrecognized (label : string) :
  ~ recognized label ->
  dict_get severity_params label = Raise (KeyError label).
Proof.
  unfold recognized, severity_params. cbn [dict_get In]. intros Hn.
  repeat match goal with
  | |- context [String.eqb ?a label] =>
      destruct (String.eqb_spec a label); [exfalso; apply Hn; tauto|]
  end.
  reflexivity.
Qed.

(** ** The loops of the generator as comprehensions *)

Lemma leaflet_points_ok (n : Z) (r len : F) (p : params F) (theta arc : F)
    (vs : list (F * F)) :
  n <> 1 ->
  leaflet_points n r len p theta arc vs =
  Ok (vs ++ map (fun i => vertex_at r len p theta (int_truediv i (n - 1)))
                (range n)).
Proof.
  intros Hn. unfold leaflet_points.
  rewrite <- for_in_append. apply for_in_ext. intros i s _.
  unfold truediv. destruct (Z.eqb_spec (n - 1) 0); [lia|reflexivity].
Qed.

Lemma leaflet_points_one (r len : F) (p : params F) (theta arc : F)
    (vs : list (F * F)) :
  leaflet_points 1 r len p theta arc vs = Raise ZeroDivisionError.
Proof. reflexivity. Qed.

Lemma longitudinal_springs_ok (n : Z) (p : params F) (ss : list (spring F)) :
  longitudinal_springs n p ss =
  Ok (ss ++ flat_map (leaflet_longitudinal n p) (range n_leaflets)).
Proof.
  unfold longitudinal_springs. apply for_in_blocks. intros k s _.
  apply for_in_append.
Qed.

Lemma beam_elements_ok (n : Z) (p : params F) (bs : list (beam F)) :
  beam_elements n p bs =
  Ok (bs ++ flat_map (leaflet_beams n p) (range n_leaflets)).
Proof.
  unfold beam_elements. apply for_in_blocks. intros k s _.
  apply for_in_append.
Qed.

Lemma cross_springs_ok (n : Z) (p : params F) (ss : list (spring F)) :
  cross_springs n p ss =
  Ok (ss ++ flat_map (leaflet_cross n p) (range n_leaflets)).
Proof.
  unfold cross_springs. apply for_in_blocks. intros k s _.
  apply for_in_append.
Qed.

(** The whole generator, for every resolution but 1. *)
Lemma generate_layout (n : Z) (r len : F) (severity : string) (p : params F) :
  dict_get severity_params severity = Ok p ->
  n <> 1 ->
  generate_aortic_valve n r len severity =
  Ok (mk_model
        (flat_map (leaflet_vertices n r (fmul len (leaflet_length_factor p)) p)
                  (range n_leaflets))
        (flat_map (leaflet_longitudinal n p) (range n_leaflets) ++
         flat_map (leaflet_cross n p) (range n_leaflets))
        (flat_map (leaflet_beams n p) (range n_leaflets)),
      p).
Proof.
  intros Hp Hn. unfold generate_aortic_valve. rewrite Hp. cbn [bind].
  rewrite (for_in_blocks _ _
             (leaflet_vertices n r (fmul len (leaflet_length_factor p)) p))
    by (intros; apply leaflet_points_ok; assumption).
  cbn [bind]. rewrite longitudinal_springs_ok. cbn [bind].
  rewrite beam_elements_ok. cbn [bind]. rewrite cross_springs_ok.
  reflexivity.
Qed.

Lemma flat_map_range_3 {B} (g : Z -> list B) :
  flat_map g (range n_leaflets) = g 0 ++ g 1 ++ g 2.
Proof. unfold n_leaflets. rewrite range_3. simpl. now rewrite app_nil_r. Qed.

Lemma length_leaflet_vertices n r len (p : params F) k :
  length (leaflet_vertices n r len p k) = Z.to_nat n.
Proof. unfold leaflet_vertices. now rewrite length_map, length_range. Qed.

Lemma length_leaflet_longitudinal n (p : params F) k :
  length (leaflet_longitudinal n p k) = Z.to_nat (n - 1).
Proof. unfold leaflet_longitudinal. now rewrite length_map, length_range. Qed.

Lemma length_leaflet_beams n (p : params F) k :
  length (leaflet_beams n p k) = Z.to_nat (n - 2).
Proof. unfold leaflet_beams. now rewrite length_map, length_range. Qed.

End GeneratorFacts.

(** ** More on ranges *)

Lemma nth_error_range (n i : Z) :
  0 <= i < n -> nth_error (range n) (Z.to_nat i) = Some i.
Proof.
  intros Hi. unfold range, py_range. rewrite range_len_step1.
  rewrite nth_error_map, nth_error_seq.
  destruct (Nat.ltb_spec (Z.to_nat i) (Z.to_nat n)); [|lia].
  simpl. f_equal. lia.
Qed.

Lemma py_range_nil (start stop step : Z) :
  stop <= start -> py_range start stop step = [].
Proof.
  intros Hle. unfold py_range, range_len.
  destruct (Z.ltb_spec start stop); [lia|reflexivity].
Qed.

Lemma py_range_cons (start stop step : Z) :
  0 < step -> start < stop ->
  py_range start stop step = start :: py_range (start + step) stop step.
Proof.
  intros Hstep Hlt. unfold py_range, range_len.
  destruct (Z.ltb_spec start stop); [|lia].
  assert (Hq : (stop - start + step - 1) / step
               = (stop - (start + step) + step - 1) / step + 1).
  { rewrite <- Z.div_add by lia. f_equal. lia. }
  assert (Hlen : Z.to_nat ((stop - start + step - 1) / step) =
                 S (if start + step <? stop
                    then Z.to_nat ((stop - (start + step) + step - 1) / step)
                    else 0%nat)).
  { rewrite Hq. destruct (Z.ltb_spec (start + step) stop).
    - assert (0 <= (stop - (start + step) + step - 1) / step)
        by (apply Z.div_pos; lia).
      lia.
    - assert ((stop - (start + step) + step - 1) / step = 0)
        by (apply Z.div_small; lia).
      lia. }
  rewrite Hlen. cbn [seq map]. f_equal; [lia|].
  rewrite <- seq_shift, map_map. apply map_ext. intros k. lia.
Qed.

(** The loop bounds of the cross springs are the specification's skip rule. *)
Lemma skip_rule_py_range (skip n : Z) (fuel : nat) (i : Z) :
  0 < skip ->
  (Z.to_nat (n - skip - 1 - i) <= fuel)%nat ->
  skip_rule fuel i skip n = py_range i (n - skip - 1) skip.
Proof.
  intros Hskip. revert i. induction fuel as [|fuel IH]; intros i Hfuel.
  - simpl. rewrite py_range_nil by lia. reflexivity.
  - simpl. destruct (Z.ltb_spec (i + skip) (n - 1)).
    + rewrite py_range_cons by lia. f_equal. apply IH. lia.
    + rewrite py_range_nil by lia. reflexivity.
Qed.

Lemma cross_skip_pos (n : Z) : 0 < cross_skip n.
Proof. unfold cross_skip. lia. Qed.

Lemma cross_range_len (n : Z) :
  2 <= n ->
  range_len 0 (n - cross_skip n - 1) (cross_skip n)
  = Z.to_nat ((n - 2) / cross_skip n).
Proof.
  intros Hn. pose proof (cross_skip_pos n) as Hs. unfold range_len.
  destruct (Z.ltb_spec 0 (n - cross_skip n - 1)).
  - do 2 f_equal. lia.
  - rewrite Z.div_small by lia. reflexivity.
Qed.

(** Indexing into three blocks of [n] laid end to end. *)
Lemma nth_error_three_blocks {A} (blk : Z -> list A) (n k i : Z) :
  (forall j, length (blk j) = Z.to_nat n) ->
  0 <= k < 3 -> 0 <= i < n ->
  nth_error (blk 0 ++ blk 1 ++ blk 2) (Z.to_nat (k * n + i))
  = nth_error (blk k) (Z.to_nat i).
Proof.
  intros Hlen Hk Hi.
  assert (Hk3 : k = 0 \/ k = 1 \/ k = 2) by lia.
  destruct Hk3 as [-> | [-> | ->]].
  - rewrite nth_error_app1 by (rewrite Hlen; lia). f_equal; lia.
  - rewrite nth_error_app2 by (rewrite Hlen; lia).
    rewrite nth_error_app1 by (rewrite !Hlen; lia).
    f_equal; rewrite Hlen; lia.
  - rewrite nth_error_app2 by (rewrite Hlen; lia).
    rewrite nth_error_app2 by (rewrite !Hlen; lia).
    f_equal; rewrite !Hlen; lia.
Qed.

Section Topology.
Context {F : Type} {PF : PyFloat F}.

Lemma length_leaflet_cross n (p : params F) k :
  2 <= n ->
  length (leaflet_cross n p k) = Z.to_nat ((n - 2) / cross_skip n).
Proof.
  intros Hn. unfold leaflet_cross.
  now rewrite length_map, length_py_range, cross_range_len.
Qed.

Lemma nth_error_leaflet_vertices n r len (p : params F) k i :
  0 <= i < n ->
  nth_error (leaflet_vertices n r len p k) (Z.to_nat i) =
  Some (vertex_at r len p (theta_center k) (int_truediv i (n - 1))).
Proof.
  intros Hi. unfold leaflet_vertices.
  now rewrite nth_error_map, nth_error_range.
Qed.

(** C2: for every recognized severity and every resolution [n >= 2] the
    generator returns exactly [3 * n] vertices; the list positions
    [0 .. 3n-1] are exactly the indices that hold a vertex; the list is the
    three leaflet blocks one after the other, each of [n] vertices; and
    index [k * n + i] holds point [i] of leaflet [k]. *)
Theorem vertex_count_and_blocks (severity : string) (n : Z) (r len : F) :
  recognized severity -> 2 <= n ->
  exists M p,
    generate_aortic_valve n r len severity = Ok (M, p) /\
    length (vertices M) = Z.to_nat (3 * n) /\
    (forall j : nat,
       (j < Z.to_nat (3 * n))%nat <-> exists v, nth_error (vertices M) j = Some v) /\
    vertices M =
      leaflet_vertices n r (fmul len (leaflet_length_factor p)) p 0 ++
      leaflet_vertices n r (fmul len (leaflet_length_factor p)) p 1 ++
      leaflet_vertices n r (fmul len (leaflet_length_factor p)) p 2 /\
    (forall k,
       length (leaflet_vertices n r (fmul len (leaflet_length_factor p)) p k)
       = Z.to_nat n) /\
    (forall k i, 0 <= k < 3 -> 0 <= i < n ->
       nth_error (vertices M) (Z.to_nat (k * n + i)) =
       Some (vertex_at r (fmul len (leaflet_length_factor p)) p
               (theta_center k) (int_truediv i (n - 1)))).
Proof.
  intros Hsev Hn. destruct (dict_get_recognized _ Hsev) as [p Hp].
  eexists _, p. split; [apply generate_layout; [exact Hp|lia]|].
  cbn [vertices]. rewrite flat_map_range_3.
  set (blk := leaflet_vertices n r (fmul len (leaflet_length_factor p)) p).
  assert (Hlen : forall k, length (blk k) = Z.to_nat n)
    by (intro; apply length_leaflet_vertices).
  assert (Htot : length (blk 0 ++ blk 1 ++ blk 2) = Z.to_nat (3 * n))
    by (rewrite !length_app, !Hlen; lia).
  split; [exact Htot|]. split; [|split; [reflexivity|split; [exact Hlen|]]].
  - intros j. rewrite <- Htot, <- nth_error_Some.
    destruct (nth_error (blk 0 ++ blk 1 ++ blk 2) j) as [v|].
    + split; [intros _; now exists v|intros _; discriminate].
    + split; [intros Hc; now elim Hc|intros [v Hv]; discriminate].
  - intros k i Hk Hi. rewrite (nth_error_three_blocks blk) by assumption.
    apply nth_error_leaflet_vertices; assumption.
Qed.

(** C3: for every recognized severity and every resolution [n >= 2] the
    spring list is the three leaflets' longitudinal springs followed by the
    three leaflets' cross springs and the beam list is the three leaflets'
    beams, where each leaflet has [n - 1] longitudinal springs,
    [max 0 (n - 2)] beams, and one cross spring [(base + i, base + i + skip)]
    for each [i] of the skip rule ([skip = max 1 (n // 8)], [i] stepping by
    [skip] while [i + skip < n - 1]), that is [(n - 2) // skip] of them.  In
    particular the healthy valve at resolution 4, radius 1.0 and length 1.2
    has 12 vertices, 15 springs (9 longitudinal, then 6 cross, two per
    leaflet, from [i = 0] and [i = 1]) and 6 beams. *)
Theorem element_counts (severity : string) (n : Z) (r len : F) :
  recognized severity -> 2 <= n ->
  exists M p,
    generate_aortic_valve n r len severity = Ok (M, p) /\
    length (vertices M) = Z.to_nat (3 * n) /\
    springs M =
      (leaflet_longitudinal n p 0 ++ leaflet_longitudinal n p 1 ++
       leaflet_longitudinal n p 2) ++
      (leaflet_cross n p 0 ++ leaflet_cross n p 1 ++ leaflet_cross n p 2) /\
    beams M = leaflet_beams n p 0 ++ leaflet_beams n p 1 ++ leaflet_beams n p 2 /\
    (forall k,
       length (leaflet_longitudinal n p k) = Z.to_nat (n - 1) /\
       length (leaflet_beams n p k) = Z.to_nat (Z.max 0 (n - 2)) /\
       leaflet_cross n p k =
         map (fun i => mk_spring (k * n + i) (k * n + i + Z.max 1 (n / 8))
                         (fmul (spring_stiffness p) (literal 5 (-1)))
                         (literal 0 0))
             (skip_rule (Z.to_nat n) 0 (Z.max 1 (n / 8)) n) /\
       length (leaflet_cross n p k) = Z.to_nat ((n - 2) / Z.max 1 (n / 8))) /\
    length (springs M) =
      Z.to_nat (3 * (n - 1) + 3 * ((n - 2) / Z.max 1 (n / 8))) /\
    length (beams M) = Z.to_nat (3 * Z.max 0 (n - 2)) /\
    exists M4 p4,
      generate_aortic_valve 4 (literal 1 0) (literal 12 (-1)) "healthy"
      = Ok (M4, p4) /\
      length (vertices M4) = 12%nat /\
      length (springs M4) = 15%nat /\
      length (beams M4) = 6%nat /\
      firstn 9 (springs M4) =
        leaflet_longitudinal 4 p4 0 ++ leaflet_longitudinal 4 p4 1 ++
        leaflet_longitudinal 4 p4 2 /\
      skipn 9 (springs M4) =
        leaflet_cross 4 p4 0 ++ leaflet_cross 4 p4 1 ++ leaflet_cross 4 p4 2 /\
      length (skipn 9 (springs M4)) = 6%nat /\
      map (fun s => (s_idx1 s, s_idx2 s)) (leaflet_cross 4 p4 0) = [(0, 1); (1, 2)].
Proof.
  intros Hsev Hn. destruct (dict_get_recognized _ Hsev) as [p Hp].
  eexists _, p. split; [apply generate_layout; [exact Hp|lia]|].
  cbn [vertices springs beams]. rewrite !flat_map_range_3.
  assert (Hq : 0 <= (n - 2) / Z.max 1 (n / 8)) by (apply Z.div_pos; lia).
  assert (Hk : forall k,
       length (leaflet_longitudinal n p k) = Z.to_nat (n - 1) /\
       length (leaflet_beams n p k) = Z.to_nat (Z.max 0 (n - 2)) /\
       leaflet_cross n p k =
         map (fun i => mk_spring (k * n + i) (k * n + i + Z.max 1 (n / 8))
                         (fmul (spring_stiffness p) (literal 5 (-1)))
                         (literal 0 0))
             (skip_rule (Z.to_nat n) 0 (Z.max 1 (n / 8)) n) /\
       length (leaflet_cross n p k) = Z.to_nat ((n - 2) / Z.max 1 (n / 8))).
  { intros k. split; [apply length_leaflet_longitudinal|].
    split; [rewrite length_leaflet_beams; f_equal; lia|].
    split; [|apply length_leaflet_cross; assumption].
    unfold leaflet_cross, cross_skip.
    rewrite skip_rule_py_range by lia. reflexivity. }
  split; [rewrite !length_app, !length_leaflet_vertices; lia|].
  split; [reflexivity|]. split; [reflexivity|]. split; [exact Hk|].
  split; [|split].
  - rewrite !length_app.
    destruct (Hk 0) as [-> [_ [_ ->]]].
    destruct (Hk 1) as [-> [_ [_ ->]]].
    destruct (Hk 2) as [-> [_ [_ ->]]]. lia.
  - rewrite !length_app.
    destruct (Hk 0) as [_ [-> _]].
    destruct (Hk 1) as [_ [-> _]].
    destruct (Hk 2) as [_ [-> _]]. lia.
  - eexists _, _. split; [reflexivity|]. repeat split; reflexivity.
Qed.

End Topology.

Section Blocks.
Context {F : Type} {PF : PyFloat F}.

Lemma longitudinal_in_block n (p : params F) k :
  Forall (spring_in_block n k) (leaflet_longitudinal n p k).
Proof.
  unfold leaflet_longitudinal. rewrite Forall_map, Forall_forall.
  intros i Hi. apply in_range in Hi.
  unfold spring_in_block, in_block. cbn [s_idx1 s_idx2]. lia.
Qed.

Lemma cross_in_block n (p : params F) k :
  Forall (spring_in_block n k) (leaflet_cross n p k).
Proof.
  pose proof (cross_skip_pos n) as Hs.
  unfold leaflet_cross. rewrite Forall_map, Forall_forall.
  intros i Hi. apply in_py_range in Hi; [|assumption].
  destruct Hi as (j & Hj & -> & Hlt).
  unfold spring_in_block, in_block. cbn [s_idx1 s_idx2]. nia.
Qed.

Lemma beams_in_block n (p : params F) k :
  Forall (beam_in_block n k) (leaflet_beams n p k).
Proof.
  unfold leaflet_beams. rewrite Forall_map, Forall_forall.
  intros i Hi. apply in_range in Hi.
  unfold beam_in_block, in_block. cbn [b_idx1 b_idx2 b_idx3]. lia.
Qed.

Lemma Forall_blocks_3 {A} (P : Z -> A -> Prop) (g : Z -> list A) :
  (forall k, Forall (P k) (g k)) ->
  Forall (fun a => exists k, 0 <= k < 3 /\ P k a) (g 0 ++ g 1 ++ g 2).
Proof.
  intros Hg. rewrite !Forall_app. repeat split.
  - eapply Forall_impl; [|apply (Hg 0)]. intros a Ha. exists 0. split; [lia|exact Ha].
  - eapply Forall_impl; [|apply (Hg 1)]. intros a Ha. exists 1. split; [lia|exact Ha].
  - eapply Forall_impl; [|apply (Hg 2)]. intros a Ha. exists 2. split; [lia|exact Ha].
Qed.

(** C4: for every recognized severity and every resolution [n >= 2] (so for
    2 through 128), every spring of the model joins two distinct indices of
    one leaflet block and every beam joins three consecutive indices of one
    leaflet block; the elements generated for leaflet [k] lie in block [k];
    and every index referenced is a valid vertex index. *)
Theorem elements_stay_in_own_block (severity : string) (n : Z) (r len : F) :
  recognized severity -> 2 <= n ->
  exists M p,
    generate_aortic_valve n r len severity = Ok (M, p) /\
    Forall (fun s => exists k, 0 <= k < 3 /\ spring_in_block n k s) (springs M) /\
    Forall (fun b => exists k, 0 <= k < 3 /\ beam_in_block n k b) (beams M) /\
    (forall k,
       Forall (spring_in_block n k)
              (leaflet_longitudinal n p k ++ leaflet_cross n p k) /\
       Forall (beam_in_block n k) (leaflet_beams n p k)) /\
    Forall (fun s => 0 <= s_idx1 s < Z.of_nat (length (vertices M)) /\
                     0 <= s_idx2 s < Z.of_nat (length (vertices M)))
           (springs M) /\
    Forall (fun b => 0 <= b_idx1 b /\ b_idx3 b < Z.of_nat (length (vertices M)))
           (beams M).
Proof.
  intros Hsev Hn. destruct (dict_get_recognized _ Hsev) as [p Hp].
  eexists _, p. split; [apply generate_layout; [exact Hp|lia]|].
  cbn [vertices springs beams]. rewrite !flat_map_range_3.
  assert (HS : Forall (fun s : spring F => exists k, 0 <= k < 3 /\ spring_in_block n k s)
                 ((leaflet_longitudinal n p 0 ++ leaflet_longitudinal n p 1 ++
                   leaflet_longitudinal n p 2) ++
                  leaflet_cross n p 0 ++ leaflet_cross n p 1 ++ leaflet_cross n p 2)).
  { apply Forall_app. split.
    - apply (Forall_blocks_3 (spring_in_block n)). intro; apply longitudinal_in_block.
    - apply (Forall_blocks_3 (spring_in_block n)). intro; apply cross_in_block. }
  assert (HB : Forall (fun b : beam F => exists k, 0 <= k < 3 /\ beam_in_block n k b)
                 (leaflet_beams n p 0 ++ leaflet_beams n p 1 ++ leaflet_beams n p 2)).
  { apply (Forall_blocks_3 (beam_in_block n)). intro; apply beams_in_block. }
  assert (Hlen : Z.of_nat (length
            (leaflet_vertices n r (fmul len (leaflet_length_factor p)) p 0 ++
             leaflet_vertices n r (fmul len (leaflet_length_factor p)) p 1 ++
             leaflet_vertices n r (fmul len (leaflet_length_factor p)) p 2)) = 3 * n).
  { rewrite !length_app, !length_leaflet_vertices. lia. }
  rewrite Hlen.
  split; [exact HS|]. split; [exact HB|]. split; [|split].
  - intros k. split.
    + apply Forall_app. split; [apply longitudinal_in_block|apply cross_in_block].
    + apply beams_in_block.
  - eapply Forall_impl; [|exact HS].
    intros s (k & Hk & _ & H1 & H2). unfold in_block in *. nia.
  - eapply Forall_impl; [|exact HB].
    intros b (k & Hk & _ & _ & H1 & _ & H3). unfold in_block in *. nia.
Qed.

(** C7: a label outside the four recognized ones makes the lookup raise
    [KeyError] (the specification's [UnknownSeverity]), and the generator
    raises it before anything is built, whatever its other arguments; each
    recognized label yields its row of the table. *)
Theorem severity_lookup (label : string) :
  ~ recognized label ->
  dict_get severity_params label = Raise (KeyError label) /\
  (forall n r len,
     generate_aortic_valve n r len label = Raise (KeyError label)) /\
  dict_get severity_params "healthy" =
    Ok (mk_params (literal 5 2) (literal 1 (-2)) (literal 1 0) (literal 1 0)) /\
  dict_get severity_params "mild" =
    Ok (mk_params (literal 8 2) (literal 2 (-2)) (literal 95 (-2)) (literal 9 (-1))) /\
  dict_get severity_params "moderate" =
    Ok (mk_params (literal 15 2) (literal 5 (-2)) (literal 85 (-2)) (literal 7 (-1))) /\
  dict_get severity_params "severe" =
    Ok (mk_params (literal 3 3) (literal 1 (-1)) (literal 7 (-1)) (literal 4 (-1))).
Proof.
  intros Hn. pose proof (dict_get_unrecognized label Hn) as Hd.
  split; [exact Hd|]. split; [|repeat split; reflexivity].
  intros n r len. unfold generate_aortic_valve. rewrite Hd. reflexivity.
Qed.

(** The generator at resolution 1: the first division raises. *)
Lemma generate_one (r len : F) (severity : string) :
  recognized severity ->
  generate_aortic_valve 1 r len severity = Raise ZeroDivisionError.
Proof.
  intros Hsev. destruct (dict_get_recognized _ Hsev) as [p Hp].
  unfold generate_aortic_valve. rewrite Hp. reflexivity.
Qed.

(** The generator at a resolution of 0 or less: every loop is empty. *)
Lemma generate_nonpositive (n : Z) (r len : F) (severity : string) (p : params F) :
  dict_get severity_params severity = Ok p ->
  n <= 0 ->
  generate_aortic_valve n r len severity = Ok (mk_model [] [] [], p).
Proof.
  intros Hp Hn. rewrite (generate_layout n r len severity p Hp) by lia.
  rewrite !flat_map_range_3.
  unfold leaflet_vertices, leaflet_longitudinal, leaflet_beams, leaflet_cross, range.
  pose proof (cross_skip_pos n).
  rewrite !py_range_nil by lia. reflexivity.
Qed.

(** C6, as the code has it: at resolution 1 the generator raises
    [ZeroDivisionError] at the first point of the first leaflet, so no vertex
    list, partial or whole, is returned; at a resolution of 0 or less it
    raises nothing and returns the empty model. *)
Theorem low_resolution (n : Z) (r len : F) (severity : string) :
  recognized severity -> n < 2 ->
  (n = 1 ->
   (forall len' p theta arc vs,
      leaflet_points n r len' p theta arc vs = Raise ZeroDivisionError) /\
   generate_aortic_valve n r len severity = Raise ZeroDivisionError) /\
  (n <= 0 ->
   exists p, generate_aortic_valve n r len severity = Ok (mk_model [] [] [], p)).
Proof.
  intros Hsev Hn. split.
  - intros ->. split; [reflexivity|apply generate_one; assumption].
  - intros Hle. destruct (dict_get_recognized _ Hsev) as [p Hp].
    exists p. apply generate_nonpositive; assumption.
Qed.

End Blocks.

Section VertexFormula.
Context {F : Type} {PF : PyFloat F}.

(** C5: for every recognized severity and every resolution [n >= 2], the
    vertex at index [k * n + i] is [(r cos theta, r sin theta)] with
    [t = i / (n - 1)], [r = annulus_radius + effective_length * t] and
    [theta = k * (2 pi / 3) + 0.3 * (1 - t^2) * mobility * sin (pi t)]; the
    arc width bound at line 89 enters no coordinate: the points of a leaflet
    are the same whatever value stands for it. *)
Theorem vertices_ignore_arc_width (severity : string) (n : Z) (r len : F) :
  recognized severity -> 2 <= n ->
  exists M p,
    generate_aortic_valve n r len severity = Ok (M, p) /\
    (forall k i, 0 <= k < 3 -> 0 <= i < n ->
       nth_error (vertices M) (Z.to_nat (k * n + i)) =
       Some (let t := int_truediv i (n - 1) in
             let base_angle :=
               fmul (of_int k) (fdiv (fmul (of_int 2) np_pi) (of_int 3)) in
             let radius :=
               fadd r (fmul (fmul len (leaflet_length_factor p)) t) in
             let theta :=
               fadd base_angle
                 (fmul (fmul (fmul (literal 3 (-1)) (fsub (of_int 1) (fpow t 2)))
                             (mobility p))
                       (np_sin (fmul np_pi t))) in
             (fmul radius (np_cos theta), fmul radius (np_sin theta)))) /\
    (forall k arc vs,
       leaflet_points n r (fmul len (leaflet_length_factor p)) p
         (theta_center k) arc vs =
       leaflet_points n r (fmul len (leaflet_length_factor p)) p
         (theta_center k) leaflet_arc vs) /\
    (forall arc,
       for_in (range n_leaflets)
         (fun k vs =>
            leaflet_points n r (fmul len (leaflet_length_factor p)) p
              (theta_center k) arc vs) [] = Ok (vertices M)).
Proof.
  intros Hsev Hn. destruct (dict_get_recognized _ Hsev) as [p Hp].
  eexists _, p. split; [apply generate_layout; [exact Hp|lia]|].
  cbn [vertices]. split; [|split].
  - rewrite flat_map_range_3.
    set (blk := leaflet_vertices n r (fmul len (leaflet_length_factor p)) p).
    assert (Hlen : forall k, length (blk k) = Z.to_nat n)
      by (intro; apply length_leaflet_vertices).
    intros k i Hk Hi. rewrite (nth_error_three_blocks blk) by assumption.
    apply nth_error_leaflet_vertices; assumption.
  - reflexivity.
  - intros arc.
    rewrite (for_in_blocks _ _
               (leaflet_vertices n r (fmul len (leaflet_length_factor p)) p))
      by (intros k s _; apply leaflet_points_ok; lia).
    reflexivity.
Qed.

End VertexFormula.

Section SpringOrder.
Context {F : Type} {PF : PyFloat F} {FT : FloatText F}.

Lemma fold_write {A} (line : A -> string) (xs : list A) (f : string) :
  fold_left (fun f x => write f (line x)) xs f
  = (f ++ lines_text (map line xs))%string.
Proof.
  revert f. induction xs as [|x xs IH]; intros f; simpl.
  - clear. induction f; simpl; congruence.
  - rewrite IH. unfold write. clear.
    induction f; simpl; [reflexivity|congruence].
Qed.

Lemma write_spring_file_lines (ss : list (spring F)) :
  write_spring_file ss
  = ((py_str (Z.of_nat (length ss)) ++ newline) ++
     lines_text (map spring_line ss))%string.
Proof. unfold write_spring_file. rewrite fold_write. reflexivity. Qed.

Lemma lines_text_app (xs ys : list string) :
  lines_text (xs ++ ys) = (lines_text xs ++ lines_text ys)%string.
Proof.
  induction xs as [|x xs IH]; simpl; [reflexivity|].
  rewrite IH. clear. induction x; simpl; congruence.
Qed.

(** C10: for every recognized severity and every resolution [n >= 2], the
    first [3 * (n - 1)] springs are the longitudinal ones, leaflet by leaflet
    and along the chain within a leaflet, and the remaining ones are the
    cross springs, leaflet by leaflet in the order of the skip loop; the
    list is the same whatever the radius and the length; and the spring file
    holds one line per spring in this order after the count. *)
Theorem springs_longitudinal_then_cross (severity : string) (n : Z) (r len : F) :
  recognized severity -> 2 <= n ->
  exists M p,
    generate_aortic_valve n r len severity = Ok (M, p) /\
    firstn (Z.to_nat (3 * (n - 1))) (springs M) =
      leaflet_longitudinal n p 0 ++ leaflet_longitudinal n p 1 ++
      leaflet_longitudinal n p 2 /\
    skipn (Z.to_nat (3 * (n - 1))) (springs M) =
      leaflet_cross n p 0 ++ leaflet_cross n p 1 ++ leaflet_cross n p 2 /\
    (forall r' len',
       exists M', generate_aortic_valve n r' len' severity = Ok (M', p) /\
                  springs M' = springs M) /\
    write_spring_file (springs M) =
      ((py_str (Z.of_nat (length (springs M))) ++ newline) ++
       lines_text (map spring_line
                     (leaflet_longitudinal n p 0 ++ leaflet_longitudinal n p 1 ++
                      leaflet_longitudinal n p 2)) ++
       lines_text (map spring_line
                     (leaflet_cross n p 0 ++ leaflet_cross n p 1 ++
                      leaflet_cross n p 2)))%string.
Proof.
  intros Hsev Hn. destruct (dict_get_recognized _ Hsev) as [p Hp].
  eexists _, p. split; [apply generate_layout; [exact Hp|lia]|].
  cbn [springs]. rewrite !flat_map_range_3.
  set (lg := leaflet_longitudinal n p 0 ++ leaflet_longitudinal n p 1 ++
             leaflet_longitudinal n p 2).
  set (xs := leaflet_cross n p 0 ++ leaflet_cross n p 1 ++ leaflet_cross n p 2).
  assert (Hlg : length lg = Z.to_nat (3 * (n - 1))).
  { unfold lg. rewrite !length_app, !length_leaflet_longitudinal. lia. }
  rewrite <- Hlg. split; [|split; [|split]].
  - rewrite firstn_app, Nat.sub_diag, firstn_all. simpl. apply app_nil_r.
  - rewrite skipn_app, Nat.sub_diag, skipn_all. reflexivity.
  - intros r' len'. eexists. split; [apply generate_layout; [exact Hp|lia]|].
    cbn [springs]. rewrite !flat_map_range_3. reflexivity.
  - rewrite write_spring_file_lines, map_app, lines_text_app. reflexivity.
Qed.

End SpringOrder.

(** ** The geometry over the reals *)

Lemma generate_first_vertex {F : Type} {PF : PyFloat F} (severity : string)
    (n : Z) (r len : F) (p : params F) (k : Z) :
  dict_get severity_params severity = Ok p -> 2 <= n -> 0 <= k < 3 ->
  exists M,
    generate_aortic_valve n r len severity = Ok (M, p) /\
    nth_error (vertices M) (Z.to_nat (k * n)) =
    Some (vertex_at r (fmul len (leaflet_length_factor p)) p (theta_center k)
            (int_truediv 0 (n - 1))).
Proof.
  intros Hp Hn Hk. eexists. split; [apply generate_layout; [exact Hp|lia]|].
  cbn [vertices]. rewrite flat_map_range_3.
  set (blk := leaflet_vertices n r (fmul len (leaflet_length_factor p)) p).
  assert (Hlen : forall k, length (blk k) = Z.to_nat n)
    by (intro; apply length_leaflet_vertices).
  replace (k * n) with (k * n + 0) by lia.
  rewrite (nth_error_three_blocks blk) by (assumption || lia).
  apply (nth_error_leaflet_vertices n r _ p k 0). lia.
Qed.

Lemma R_truediv_zero (n : Z) : int_truediv (F:=R) 0 n = 0%R.
Proof. cbn. unfold Rdiv. apply Rmult_0_l. Qed.

Lemma R_truediv_one (n : Z) : n <> 0 -> int_truediv (F:=R) n n = 1%R.
Proof. intros Hn. cbn. apply Rdiv_diag. now apply not_0_IZR. Qed.

Lemma R_deflection_zero (p : params R) : deflection p 0%R = 0%R.
Proof.
  unfold deflection. cbn. rewrite Rmult_0_r, sin_0. apply Rmult_0_r.
Qed.

Lemma R_deflection_one (p : params R) : deflection p 1%R = 0%R.
Proof.
  unfold deflection, curvature. cbn. rewrite Rmult_1_r, sin_PI. apply Rmult_0_r.
Qed.

Lemma polar_distance (r theta : R) :
  (0 <= r)%R ->
  sqrt ((r * cos theta) * (r * cos theta) + (r * sin theta) * (r * sin theta)) = r.
Proof.
  intros Hr.
  replace ((r * cos theta) * (r * cos theta) + (r * sin theta) * (r * sin theta))%R
    with ((r * r) * (Rsqr (sin theta) + Rsqr (cos theta)))%R by (unfold Rsqr; ring).
  rewrite sin2_cos2, Rmult_1_r. now apply sqrt_square.
Qed.

(** C9: over the reals, for every leaflet [k], every recognized severity and
    every resolution [n >= 2], with a positive annulus radius [r]: the first
    vertex of block [k] (curve parameter [t = 0 / (n - 1) = 0]) is
    [(r cos base, r sin base)] for [base = k * (2 pi / 3)], at distance [r]
    from the origin; and the deflection [curvature * sin (pi t)] is 0 at
    [t = 0] and at [t = 1], the parameter of the last vertex of the block. *)
Theorem annulus_vertex_and_endpoints (severity : string) (n : Z) (r len : R)
    (k : Z) :
  recognized severity -> 2 <= n -> 0 <= k < 3 -> (0 < r)%R ->
  exists M p x y,
    generate_aortic_valve n r len severity = Ok (M, p) /\
    nth_error (vertices M) (Z.to_nat (k * n)) = Some (x, y) /\
    x = (r * cos (IZR k * (2 * PI / 3)))%R /\
    y = (r * sin (IZR k * (2 * PI / 3)))%R /\
    sqrt (x * x + y * y) = r /\
    int_truediv 0 (n - 1) = 0%R /\
    int_truediv (n - 1) (n - 1) = 1%R /\
    deflection p 0%R = 0%R /\
    deflection p 1%R = 0%R.
Proof.
  intros Hsev Hn Hk Hr. destruct (dict_get_recognized (F:=R) _ Hsev) as [p Hp].
  destruct (generate_first_vertex severity n r len p k Hp Hn Hk) as (M & Hgen & Hv).
  exists M, p, (r * cos (IZR k * (2 * PI / 3)))%R, (r * sin (IZR k * (2 * PI / 3)))%R.
  split; [exact Hgen|]. split.
  - rewrite Hv, R_truediv_zero. unfold vertex_at.
    rewrite R_deflection_zero. unfold theta_center, n_leaflets. cbn.
    rewrite Rmult_0_r, !Rplus_0_r. reflexivity.
  - split; [reflexivity|]. split; [reflexivity|].
    split; [apply polar_distance; lra|].
    split; [apply R_truediv_zero|]. split; [apply R_truediv_one; lia|].
    split; [apply R_deflection_zero|apply R_deflection_one].
Qed.

(** ** The endpoints in binary64 *)

(** [a / a] is exactly [1.0]. *)
Lemma b64_int_truediv_diag (a : Z) : 0 < a -> b64_int_truediv a a = b64_one.
Proof.
  intros Ha. unfold b64_int_truediv, b64_quotient, SFdiv_core_binary.
  destruct (Z.eqb_spec a 0); [lia|].
  rewrite xorb_nilpotent, Z.abs_eq by lia.
  replace (Zdigits2 a + 0 - (Zdigits2 a + 0)) with 0 by lia.
  change (Z.min (fexp prec emax 0) (0 - 0)) with (-53).
  change (0 - 0 - -53) with 53.
  cbv iota beta. rewrite Z.shiftl_mul_pow2 by lia.
  unfold Z.div. 
  pose proof (Z_div_mult (2 ^ 53) a ltac:(lia)) as Hq.
  pose proof (Z_mod_mult (2 ^ 53) a) as Hr.
  unfold Z.div, Z.modulo in Hq, Hr. rewrite (Z.mul_comm a).
  destruct (Z.div_eucl (2 ^ 53 * a) a) as [q r]. subst q r.
  unfold new_location. destruct (Z.even a); reflexivity.
Qed.

Section Binary64Endpoints.
Variable pow : spec_float -> Z -> spec_float.
Variables sin cos : spec_float -> spec_float.
Let B64 : PyFloat spec_float := b64 pow sin cos.
#[local] Existing Instance B64.
Hypothesis pow_zero : pow (S754_zero false) 2 = S754_zero false.
Hypothesis pow_one : pow b64_one 2 = b64_one.
Hypothesis sin_zero : sin (S754_zero false) = S754_zero false.
Hypothesis sin_pi_finite :
  exists s m e, sin (np_pi) = S754_finite s m e.

(** X1: in binary64 too the deflection vanishes at both ends of a leaflet, and
    the first vertex of a leaflet has polar coordinates [annulus_radius] and
    [theta_center] exactly.  For every [pow] with [pow(0, 2) = 0] and
    [pow(1, 2) = 1], every [sin] with [sin(0) = 0] and a finite [sin(pi)],
    every recognized severity and [n >= 2]: the deflection is [+0] at the
    first point (parameter [0 / (n-1)]) and a zero at the last (parameter
    [(n-1) / (n-1)]), and for a finite non-zero radius [r] and a finite
    length the first vertex of leaflet [k] is
    [(r * cos(theta_center), r * sin(theta_center))]. *)
Lemma b64_endpoints (severity : string) (p : params spec_float) (n k : Z)
    (sr : bool) (mr : positive) (er : Z) (len : spec_float) :
  dict_get (severity_params) severity = Ok p ->
  2 <= n -> 0 <= k < 3 ->
  finite_or_zero len ->
  deflection p (int_truediv 0 (n - 1)) = S754_zero false /\
  (exists s, deflection p (int_truediv (n - 1) (n - 1))
             = S754_zero s) /\
  vertex_at (S754_finite sr mr er) len p (theta_center k)
    (int_truediv 0 (n - 1))
  = (SFmul prec emax (S754_finite sr mr er) (cos (theta_center k)),
     SFmul prec emax (S754_finite sr mr er) (sin (theta_center k))).
Proof.
  intros Hp Hn Hk Hlen.
  assert (Ht0 : int_truediv 0 (n - 1) = S754_zero false).
  { cbn [int_truediv b64 B64]. unfold b64_int_truediv. cbn.
    destruct (Z.ltb_spec (n - 1) 0); [lia|reflexivity]. }
  assert (Ht1 : int_truediv (n - 1) (n - 1) = b64_one).
  { cbn [int_truediv b64 B64]. apply b64_int_truediv_diag. lia. }
  assert (Hp4 : In p [mk_params (literal 5 2) (literal 1 (-2)) (literal 1 0) (literal 1 0);
                      mk_params (literal 8 2) (literal 2 (-2)) (literal 95 (-2)) (literal 9 (-1));
                      mk_params (literal 15 2) (literal 5 (-2)) (literal 85 (-2)) (literal 7 (-1));
                      mk_params (literal 3 3) (literal 1 (-1)) (literal 7 (-1)) (literal 4 (-1))]).
  { revert Hp. unfold severity_params. cbn [dict_get literal b64 B64].
    repeat match goal with
    | |- (if String.eqb ?a severity then _ else _) = _ -> _ =>
        destruct (String.eqb a severity); [intros [= <-]; cbn [In]; tauto|]
    end.
    discriminate. }
  assert (Hd0 : deflection p (S754_zero false) = S754_zero false).
  { unfold deflection, curvature. cbn [fmul fsub fpow np_sin np_pi of_int literal b64 B64].
    rewrite pow_zero.
    change (SFmul prec emax (float_of_decimal false 3141592653589793 (-15)) (S754_zero false))
      with (S754_zero false).
    rewrite sin_zero.
    cbn [In] in Hp4. destruct Hp4 as [<-|[<-|[<-|[<-|[]]]]]; vm_compute; reflexivity. }
  rewrite Ht0, Ht1. split; [exact Hd0|]. split.
  - unfold deflection, curvature. cbn [fmul fsub fpow np_sin np_pi of_int literal b64 B64].
    rewrite pow_one.
    change (SFmul prec emax (float_of_decimal false 3141592653589793 (-15)) b64_one)
      with (float_of_decimal false 3141592653589793 (-15)).
    destruct sin_pi_finite as (s & m & e & Hs). cbn [np_pi b64 B64] in Hs. rewrite Hs.
    cbn [In] in Hp4. destruct Hp4 as [<-|[<-|[<-|[<-|[]]]]];
      exists s; destruct s; reflexivity.
  - unfold vertex_at. rewrite Hd0. cbn [fadd fmul np_cos np_sin b64 B64].
    assert (Hr : SFadd prec emax (S754_finite sr mr er)
                   (SFmul prec emax len (S754_zero false)) = S754_finite sr mr er).
    { destruct len; try contradiction; reflexivity. }
    rewrite Hr.
    assert (Hth : SFadd prec emax (theta_center k) (S754_zero false)
                  = theta_center k).
    { assert (Hk3 : k = 0 \/ k = 1 \/ k = 2) by lia.
      destruct Hk3 as [-> | [-> | ->]]; vm_compute; reflexivity. }
    rewrite Hth. reflexivity.
Qed.

End Binary64Endpoints.

(** ** The stiffness statistics over the reals *)

Lemma fold_left_Rmax (xs : list R) (x : R) :
  In (fold_left Rmax xs x) (x :: xs) /\
  Forall (fun k => (k <= fold_left Rmax xs x)%R) (x :: xs).
Proof.
  revert x. induction xs as [|y xs IH]; intros x; simpl.
  - split; [left; reflexivity|]. constructor; [apply Rle_refl|constructor].
  - destruct (IH (Rmax x y)) as [Hin Hall]. split.
    + destruct Hin as [Hin|Hin]; [|right; right; exact Hin].
      rewrite <- Hin. unfold Rmax. destruct (Rle_dec x y); [right; left|left]; reflexivity.
    + inversion Hall as [|m l Hm Hl]; subst.
      constructor; [|constructor; [|exact Hl]].
      * eapply Rle_trans; [apply Rmax_l|exact Hm].
      * eapply Rle_trans; [apply Rmax_r|exact Hm].
Qed.

Lemma fold_left_Rplus (xs : list R) (a : R) :
  fold_left Rplus xs a = (a + fold_right Rplus 0 xs)%R.
Proof.
  revert a. induction xs as [|x xs IH]; intros a; simpl; [ring|].
  rewrite IH. ring.
Qed.

Lemma R_np_mean (x : R) (xs : list R) :
  (np_mean (x :: xs) * INR (length (x :: xs)))%R = fold_right Rplus 0%R (x :: xs).
Proof.
  unfold np_mean, np_sum. cbn [fdiv fadd of_int R_float].
  rewrite fold_left_Rplus, <- INR_IZR_INZ, Rplus_0_l.
  unfold Rdiv. rewrite Rmult_assoc, Rinv_l, Rmult_1_r; [reflexivity|].
  apply not_0_INR. simpl. discriminate.
Qed.

(** With no spring the indexing [springs[:, 2]] or the maximum raises. *)
Lemma no_springs_raises {F : Type} {PF : PyFloat F}
    (hull : list (list F) -> option F) (vs ss : ndarray F) :
  np_len ss = 0 ->
  exists e, calculate_geometric_properties hull vs ss = Raise e.
Proof.
  intros Hlen. unfold calculate_geometric_properties.
  destruct vs as [xs|ncols rows]; [eexists; reflexivity|].
  repeat match goal with
  | |- exists e, bind ?m _ = Raise e =>
      let E := fresh in destruct m eqn:E; cbn [bind]; [|eexists; reflexivity]
  end.
  exfalso. destruct ss as [xs|c srows]; [discriminate|].
  destruct srows; [|simpl in Hlen; lia].
  cbn [column] in *. destruct (2 <? c)%nat; [|discriminate].
  match goal with
  | Hc : Ok _ = Ok ?l, Hm : np_max ?l = Ok _ |- _ =>
      injection Hc as <-; discriminate Hm
  end.
Qed.

Lemma item_map_seq {B} (f : nat -> B) (c k : nat) :
  (k < c)%nat -> item (map f (seq 0 c)) k = Ok (f k).
Proof.
  intros Hk. unfold item. rewrite nth_error_map, nth_error_seq.
  destruct (Nat.ltb_spec k c); [reflexivity|lia].
Qed.

(** C8, as the code has it: with an empty spring set the calculator raises
    (on [springs[:, 2]] for the empty vector the reader returns, on the
    maximum for an empty matrix) and reports nothing; with at least one
    vertex and at least one spring it returns, and the average stiffness is
    the sum of the stiffness column over the number of springs and the
    maximal stiffness is the greatest entry of that column. *)
Theorem stiffness_statistics (hull : list (list R) -> option R)
    (cv : nat) (v : list R) (vs : list (list R))
    (cs : nat) (s : list R) (ss : list (list R)) :
  (2 <= cv)%nat -> (3 <= cs)%nat ->
  (forall V S, np_len S = 0 ->
     exists e, calculate_geometric_properties hull V S = Raise e) /\
  exists P,
    calculate_geometric_properties hull (Array2D cv (v :: vs))
      (Array2D cs (s :: ss)) = Ok P /\
    let stiffness := map (fun row => nth 2 row 0%R) (s :: ss) in
    (avg_stiffness P * INR (length stiffness))%R = fold_right Rplus 0%R stiffness /\
    In (max_stiffness P) stiffness /\
    Forall (fun k => (k <= max_stiffness P)%R) stiffness.
Proof.
  intros Hcv Hcs. split; [intros V S; apply no_springs_raises|].
  unfold calculate_geometric_properties.
  cbn [map np_min np_max bind column].
  destruct (Nat.ltb_spec 1 cv); [|lia].
  destruct (Nat.ltb_spec 0 cv); [|lia].
  destruct (Nat.ltb_spec 2 cs); [|lia].
  rewrite !item_map_seq by lia. cbn [bind map np_max].
  eexists. split; [reflexivity|].
  cbn [avg_stiffness max_stiffness of_int fmax R_float].
  split; [apply R_np_mean|]. apply fold_left_Rmax.
Qed.

(** ** Digits *)

Lemma digit_cases (d : Z) :
  0 <= d <= 9 ->
  d = 0 \/ d = 1 \/ d = 2 \/ d = 3 \/ d = 4 \/ d = 5 \/ d = 6 \/ d = 7 \/
  d = 8 \/ d = 9.
Proof. lia. Qed.

Ltac each_digit d H :=
  destruct (digit_cases d H) as [-> | [-> | [-> | [-> | [-> | [-> | [-> | [-> | [-> | ->]]]]]]]]].

Lemma digit_val_char (d : Z) : 0 <= d <= 9 -> digit_val (digit_char d) = d.
Proof. intros Hd. each_digit d Hd; reflexivity. Qed.

Lemma is_digit_char (d : Z) : 0 <= d <= 9 -> is_digit (digit_char d) = true.
Proof. intros Hd. each_digit d Hd; reflexivity. Qed.

Lemma is_digit_not_space (c : ascii) : is_digit c = true -> is_space c = false.
Proof.
  unfold is_digit, is_space. intros Hc.
  apply andb_true_iff in Hc. destruct Hc as [H1 H2].
  apply Nat.leb_le in H1. apply Nat.leb_le in H2.
  apply orb_false_iff. split; apply andb_false_iff; right; apply Nat.leb_gt; lia.
Qed.

Lemma mod10_digit (z : Z) : 0 <= z mod 10 <= 9.
Proof. pose proof (Z.mod_pos_bound z 10). lia. Qed.

Lemma all_digits_fixed (w : nat) (z : Z) : all_digits (fixed_digits w z) = true.
Proof.
  induction w as [|w IH]; [reflexivity|]. cbn [fixed_digits all_digits].
  rewrite IH, is_digit_char by apply mod10_digit. reflexivity.
Qed.

Lemma length_fixed_digits (w : nat) (z : Z) :
  String.length (fixed_digits w z) = w.
Proof. induction w; cbn [fixed_digits String.length]; congruence. Qed.

Lemma digits_value_fixed (w : nat) (z acc : Z) :
  0 <= z ->
  digits_value (fixed_digits w z) acc = acc * 10 ^ Z.of_nat w + z mod 10 ^ Z.of_nat w.
Proof.
  intros Hz. revert acc. induction w as [|w IH]; intros acc.
  - cbn [fixed_digits digits_value Z.of_nat]. rewrite Z.pow_0_r, Z.mod_1_r. lia.
  - cbn [fixed_digits digits_value]. rewrite IH, digit_val_char by apply mod10_digit.
    rewrite Nat2Z.inj_succ, Z.pow_succ_r by lia.
    set (P := 10 ^ Z.of_nat w). assert (HP : 0 < P) by (apply Z.pow_pos_nonneg; lia).
    rewrite (Z.mul_comm 10 P), Z.rem_mul_r by lia.
    ring.
Qed.

(** ** The number of decimal digits *)

Lemma ndigits_aux_spec (fuel : nat) (z : Z) :
  0 < z -> z < 2 ^ Z.of_nat fuel ->
  10 ^ Z.of_nat (ndigits_aux fuel z) <= 10 * z /\
  z < 10 ^ Z.of_nat (ndigits_aux fuel z).
Proof.
  revert z. induction fuel as [|fuel IH]; intros z Hz Hlt.
  - cbn [Z.of_nat] in Hlt. rewrite Z.pow_0_r in Hlt. lia.
  - cbn [ndigits_aux]. destruct (Z.leb_spec z 0); [lia|].
    rewrite Nat2Z.inj_succ, Z.pow_succ_r by lia.
    rewrite Nat2Z.inj_succ, Z.pow_succ_r in Hlt by lia.
    pose proof (Z.div_mod z 10 ltac:(lia)) as Hdm.
    pose proof (Z.mod_pos_bound z 10 ltac:(lia)) as Hm.
    destruct (Z.eq_dec (z / 10) 0) as [H0|H0].
    + rewrite H0. destruct fuel; cbn [ndigits_aux Z.leb Z.compare Z.of_nat];
        rewrite Z.pow_0_r; lia.
    + assert (Hq : 0 < z / 10) by (pose proof (Z.div_pos z 10); lia).
      destruct (IH (z / 10) Hq ltac:(lia)) as [Hlo Hhi]. lia.
Qed.

Lemma ndigits_spec (z : Z) :
  0 < z ->
  10 ^ Z.of_nat (ndigits z) <= 10 * z /\ z < 10 ^ Z.of_nat (ndigits z).
Proof.
  intros Hz. unfold ndigits. apply ndigits_aux_spec; [assumption|].
  rewrite Nat2Z.inj_succ, Z2Nat.id by apply Z.log2_nonneg.
  apply Z.log2_spec. assumption.
Qed.

Lemma ndigits_pos (z : Z) : 0 < z -> (0 < ndigits z)%nat.
Proof.
  intros Hz. destruct (ndigits_spec z Hz) as [_ Hhi].
  destruct (ndigits z); [cbn [Z.of_nat] in Hhi; rewrite Z.pow_0_r in Hhi; lia|lia].
Qed.

(** ** Blanks, tokens and lines *)

Lemma no_space_app (s t : string) :
  no_space (s ++ t) = no_space s && no_space t.
Proof.
  induction s as [|c s IH]; cbn [String.append no_space]; [reflexivity|].
  rewrite IH. apply andb_assoc.
Qed.

Lemma all_digits_no_space (s : string) : all_digits s = true -> no_space s = true.
Proof.
  induction s as [|c s IH]; cbn [all_digits no_space]; [reflexivity|].
  intros Hd. apply andb_true_iff in Hd. destruct Hd as [Hc Hs].
  rewrite (is_digit_not_space c Hc), IH by assumption. reflexivity.
Qed.

Lemma append_nil_r (s : string) : (s ++ "")%string = s.
Proof. induction s; cbn [String.append]; congruence. Qed.

Lemma append_assoc (s t u : string) : ((s ++ t) ++ u)%string = (s ++ t ++ u)%string.
Proof. induction s; cbn [String.append]; congruence. Qed.

Lemma lstrip_no_space (s : string) : no_space s = true -> lstrip s = s.
Proof.
  destruct s as [|c s]; cbn [no_space lstrip]; [reflexivity|].
  intros Hs. apply andb_true_iff in Hs. destruct Hs as [Hc _].
  apply negb_true_iff in Hc. rewrite Hc. reflexivity.
Qed.

Lemma rstrip_no_space (s : string) : no_space s = true -> rstrip s = s.
Proof.
  induction s as [|c s IH]; cbn [no_space rstrip]; [reflexivity|].
  intros Hs. apply andb_true_iff in Hs. destruct Hs as [Hc Hs].
  apply negb_true_iff in Hc. rewrite (IH Hs), Hc. destruct s; reflexivity.
Qed.

Lemma strip_no_space (s : string) : no_space s = true -> strip s = s.
Proof.
  intros Hs. unfold strip. rewrite lstrip_no_space by assumption.
  apply rstrip_no_space. assumption.
Qed.

Lemma rstrip_empty (s : string) : rstrip s = EmptyString -> all_space s = true.
Proof.
  induction s as [|c s IH]; cbn [rstrip all_space]; [reflexivity|].
  destruct (rstrip s) eqn:E; [|discriminate].
  destruct (is_space c); [intros _; apply IH; reflexivity|discriminate].
Qed.

Lemma split_aux_all_space (s cur : string) :
  all_space s = true ->
  split_aux s cur = match cur with EmptyString => [] | _ => [cur] end.
Proof.
  revert cur. induction s as [|c s IH]; intros cur; cbn [all_space split_aux];
    [reflexivity|].
  intros Hs. apply andb_true_iff in Hs. destruct Hs as [Hc Hs].
  rewrite Hc. destruct cur; rewrite (IH _ Hs); reflexivity.
Qed.

Lemma append_not_empty (s : string) (c : ascii) :
  (s ++ String c EmptyString)%string <> EmptyString.
Proof. destruct s; discriminate. Qed.

Lemma split_aux_rstrip (s cur : string) :
  split_aux (rstrip s) cur = split_aux s cur.
Proof.
  revert cur. induction s as [|c s IH]; intros cur; [reflexivity|].
  cbn [rstrip]. case_eq (rstrip s); [intros E | intros a r E].
  - pose proof (rstrip_empty s E) as Hs.
    destruct (is_space c) eqn:Hc; cbn [split_aux]; rewrite Hc.
    + rewrite (split_aux_all_space s _ Hs). destruct cur; reflexivity.
    + rewrite (split_aux_all_space s _ Hs).
      destruct (cur ++ String c "")%string eqn:E'; [|reflexivity].
      now apply append_not_empty in E'.
  - rewrite <- E. cbn [split_aux].
    destruct (is_space c); [destruct cur|]; rewrite IH; reflexivity.
Qed.

Lemma split_lstrip (s : string) : split (lstrip s) = split s.
Proof.
  unfold split. induction s as [|c s IH]; [reflexivity|].
  cbn [lstrip split_aux]. destruct (is_space c) eqn:Hc; [exact IH|].
  cbn [split_aux]. rewrite Hc. reflexivity.
Qed.

(** Stripping a line before splitting it changes nothing. *)
Lemma split_strip (s : string) : split (strip s) = split s.
Proof.
  unfold strip, split at 1. rewrite split_aux_rstrip. apply split_lstrip.
Qed.

(** A token, then a blank. *)
Lemma split_aux_token (tok s cur : string) :
  no_space tok = true ->
  split_aux (tok ++ s) cur = split_aux s (cur ++ tok).
Proof.
  revert cur. induction tok as [|c tok IH]; intros cur Ht.
  - cbn [String.append]. now rewrite append_nil_r.
  - cbn [no_space] in Ht. apply andb_true_iff in Ht. destruct Ht as [Hc Ht].
    apply negb_true_iff in Hc. cbn [String.append split_aux]. rewrite Hc.
    rewrite IH by assumption. rewrite append_assoc. reflexivity.
Qed.

Lemma split_aux_spaces (k : nat) (s : string) :
  split_aux (spaces k ++ s) EmptyString = split_aux s EmptyString.
Proof. induction k as [|k IH]; [reflexivity|]. cbn. exact IH. Qed.

(** A token that is not empty, followed by a blank. *)
Lemma split_token_blank (tok : string) (c : ascii) (s : string) :
  no_space tok = true -> tok <> EmptyString -> is_space c = true ->
  split_aux (tok ++ String c s) EmptyString = tok :: split_aux s EmptyString.
Proof.
  intros Ht Hne Hc. rewrite split_aux_token by assumption.
  cbn [String.append split_aux]. rewrite Hc. destruct tok; [congruence|reflexivity].
Qed.

(** ** Lines *)

Lemma no_space_no_newline (s : string) : no_space s = true -> no_newline s = true.
Proof.
  induction s as [|c s IH]; cbn [no_space no_newline]; [reflexivity|].
  intros Hs. apply andb_true_iff in Hs. destruct Hs as [Hc Hs].
  rewrite (IH Hs), andb_true_r.
  destruct (Ascii.eqb_spec c "010") as [->|_]; [discriminate|reflexivity].
Qed.

Lemma no_newline_app (s t : string) :
  no_newline (s ++ t) = no_newline s && no_newline t.
Proof.
  induction s as [|c s IH]; cbn [String.append no_newline]; [reflexivity|].
  rewrite IH. apply andb_assoc.
Qed.

Lemma no_newline_spaces (k : nat) : no_newline (spaces k) = true.
Proof. induction k; [reflexivity|]. cbn [spaces no_newline]. rewrite IHk. reflexivity. Qed.

Lemma readline_line (l rest : string) :
  no_newline l = true ->
  readline (l ++ newline ++ rest) = ((l ++ newline)%string, rest).
Proof.
  induction l as [|c l IH]; intros Hl.
  - reflexivity.
  - cbn [no_newline] in Hl. apply andb_true_iff in Hl. destruct Hl as [Hc Hl].
    cbn [String.append readline].
    destruct (Ascii.eqb c "010"); [discriminate|].
    rewrite (IH Hl). reflexivity.
Qed.

(** ** Integers as text *)

Lemma split_sign_digit (c : ascii) (t : string) :
  is_digit c = true -> split_sign (String c t) = (false, String c t).
Proof.
  destruct c as [[] [] [] [] [] [] [] []]; try discriminate; reflexivity.
Qed.

Lemma fixed_digits_value (z : Z) :
  0 < z -> digits_value (fixed_digits (ndigits z) z) 0 = z.
Proof.
  intros Hz. rewrite digits_value_fixed by lia.
  destruct (ndigits_spec z Hz) as [_ Hhi].
  rewrite Z.mod_small by lia. lia.
Qed.

Lemma fixed_digits_cons (w : nat) (z : Z) :
  (0 < w)%nat ->
  exists c t, fixed_digits w z = String c t /\ is_digit c = true.
Proof.
  destruct w as [|w]; [lia|]. intros _. cbn [fixed_digits].
  eexists _, _. split; [reflexivity|]. apply is_digit_char, mod10_digit.
Qed.

Lemma no_space_py_str (z : Z) : no_space (py_str z) = true.
Proof.
  unfold py_str. destruct (z =? 0); [reflexivity|].
  destruct (z <? 0).
  - cbn [no_space]. rewrite all_digits_no_space by apply all_digits_fixed. reflexivity.
  - apply all_digits_no_space, all_digits_fixed.
Qed.

Lemma py_str_not_empty (z : Z) : py_str z <> EmptyString.
Proof.
  unfold py_str. destruct (Z.eqb_spec z 0); [discriminate|].
  destruct (Z.ltb_spec z 0); [discriminate|].
  destruct (fixed_digits_cons (ndigits z) z) as (c & t & -> & _); [|discriminate].
  apply ndigits_pos. lia.
Qed.

Lemma py_int_token (t : string) (v : Z) :
  forall c t', t = String c t' -> is_digit c = true -> all_digits t = true ->
  digits_value t 0 = v -> py_int t = Ok v.
Proof.
  intros c t' -> Hc Hd Hv. unfold py_int.
  rewrite strip_no_space by (apply all_digits_no_space; assumption).
  rewrite split_sign_digit by assumption. rewrite Hd, Hv. reflexivity.
Qed.

(** [int(str(z)) = z] *)
Lemma py_int_py_str (z : Z) : py_int (py_str z) = Ok z.
Proof.
  unfold py_str. destruct (Z.eqb_spec z 0) as [->|Hz0]; [reflexivity|].
  destruct (Z.ltb_spec z 0) as [Hneg|Hpos].
  - unfold py_int.
    rewrite strip_no_space
      by (cbn [no_space]; rewrite all_digits_no_space by apply all_digits_fixed;
          reflexivity).
    cbn [split_sign].
    destruct (fixed_digits_cons (ndigits (- z)) (- z)) as (c & t & E & _);
      [apply ndigits_pos; lia|].
    rewrite all_digits_fixed, fixed_digits_value by lia.
    rewrite E, Z.opp_involutive. reflexivity.
  - destruct (fixed_digits_cons (ndigits z) z) as (c & t & E & Hc);
      [apply ndigits_pos; lia|].
    eapply py_int_token; [exact E|exact Hc|apply all_digits_fixed|].
    apply fixed_digits_value. lia.
Qed.

Lemma no_newline_format_6d (z : Z) : no_newline (format_6d z) = true.
Proof.
  unfold format_6d. rewrite no_newline_app, no_newline_spaces.
  apply no_space_no_newline, no_space_py_str.
Qed.

(** ** Seven significant digits *)

Lemma pow10_pos (a : Z) : 0 <= a -> 0 < 10 ^ a.
Proof. intros Ha. apply Z.pow_pos_nonneg; lia. Qed.

(** The decimal exponent brackets the quotient. *)
Lemma decimal_exponent_spec (num den : Z) :
  0 < num -> 0 < den ->
  let p := decimal_exponent num den in
  (0 <= p /\ 10 ^ p * den <= num < 10 ^ (p + 1) * den) \/
  (p < 0 /\ den <= num * 10 ^ (- p) /\ num * 10 ^ (- p - 1) < den).
Proof.
  intros Hnum Hden. unfold decimal_exponent.
  destruct (Z.leb_spec den num) as [Hle|Hlt]; cbv zeta.
  - left.
    assert (Hq : 0 < num / den) by (apply Z.div_str_pos; lia).
    destruct (ndigits_spec _ Hq) as [Hlo Hhi].
    pose proof (ndigits_pos _ Hq) as Hnd.
    set (d := ndigits (num / den)) in *.
    replace (Z.of_nat d - 1 + 1) with (Z.of_nat d) by lia.
    replace (Z.of_nat d) with (Z.succ (Z.of_nat d - 1)) in Hlo by lia.
    rewrite Z.pow_succ_r in Hlo by lia.
    pose proof (Z.div_mod num den ltac:(lia)) as Hdm.
    pose proof (Z.mod_pos_bound num den ltac:(lia)) as Hm.
    split; [lia|]. split; nia.
  - right.
    assert (Hq : 0 < (den - 1) / num) by (apply Z.div_str_pos; lia).
    destruct (ndigits_spec _ Hq) as [Hlo Hhi].
    pose proof (ndigits_pos _ Hq) as Hnd.
    set (k := ndigits ((den - 1) / num)) in *.
    replace (- - Z.of_nat k) with (Z.of_nat k) by lia.
    replace (- - Z.of_nat k - 1) with (Z.of_nat k - 1) by lia.
    replace (Z.of_nat k) with (Z.succ (Z.of_nat k - 1)) in Hlo by lia.
    rewrite Z.pow_succ_r in Hlo by lia.
    pose proof (Z.div_mod (den - 1) num ltac:(lia)) as Hdm.
    pose proof (Z.mod_pos_bound (den - 1) num ltac:(lia)) as Hm.
    split; [lia|]. split; nia.
Qed.

Lemma round_half_even_bounds (num den : Z) :
  0 < den ->
  num / den <= round_half_even num den <= num / den + 1.
Proof.
  intros Hden. unfold round_half_even.
  destruct (2 * (num mod den) ?= den); [destruct (Z.even _)| |]; lia.
Qed.

Lemma sci7_digits (num den : Z) :
  0 < num -> 0 < den ->
  10 ^ 6 <= fst (sci7 num den) < 10 ^ 7.
Proof.
  intros Hnum Hden. unfold sci7.
  pose proof (decimal_exponent_spec num den Hnum Hden) as Hp. cbv zeta in Hp.
  set (p := decimal_exponent num den) in *.
  assert (Hq : forall n' d', 0 < d' -> 10 ^ 6 * d' <= n' < 10 ^ 7 * d' ->
             10 ^ 6 <= round_half_even n' d' <= 10 ^ 7).
  { intros n' d' Hd' [Hlo Hhi].
    pose proof (round_half_even_bounds n' d' Hd') as Hr.
    assert (10 ^ 6 <= n' / d') by (apply Z.div_le_lower_bound; lia).
    assert (n' / d' < 10 ^ 7) by (apply Z.div_lt_upper_bound; lia).
    lia. }
  assert (Hrange : 10 ^ 6 <=
            (if p <=? 6 then round_half_even (num * 10 ^ (6 - p)) den
             else round_half_even num (den * 10 ^ (p - 6))) <= 10 ^ 7).
  { destruct (Z.leb_spec p 6) as [Hp6|Hp6].
    - apply Hq; [assumption|].
      destruct Hp as [(Hp0 & Hlo & Hhi)|(Hp0 & Hlo & Hhi)].
      + assert (E6 : 10 ^ 6 = 10 ^ p * 10 ^ (6 - p))
          by (rewrite <- Z.pow_add_r by lia; f_equal; lia).
        assert (E7 : 10 ^ 7 = 10 ^ (p + 1) * 10 ^ (6 - p))
          by (rewrite <- Z.pow_add_r by lia; f_equal; lia).
        pose proof (pow10_pos (6 - p) ltac:(lia)).
        rewrite E6, E7. split; nia.
      + assert (E6 : 10 ^ (6 - p) = 10 ^ (- p) * 10 ^ 6)
          by (rewrite <- Z.pow_add_r by lia; f_equal; lia).
        assert (E7 : 10 ^ (6 - p) = 10 ^ (- p - 1) * 10 ^ 7)
          by (rewrite <- Z.pow_add_r by lia; f_equal; lia).
        split; [rewrite E6|rewrite E7]; nia.
    - destruct Hp as [(Hp0 & Hlo & Hhi)|(Hp0 & _)]; [|lia].
      pose proof (pow10_pos (p - 6) ltac:(lia)).
      apply Hq; [nia|].
      assert (E6 : 10 ^ p = 10 ^ 6 * 10 ^ (p - 6))
        by (rewrite <- Z.pow_add_r by lia; f_equal; lia).
      assert (E7 : 10 ^ (p + 1) = 10 ^ 7 * 10 ^ (p - 6))
        by (rewrite <- Z.pow_add_r by lia; f_equal; lia).
      rewrite E6 in Hlo. rewrite E7 in Hhi. split; nia. }
  destruct (Z.eqb_spec
              (if p <=? 6 then round_half_even (num * 10 ^ (6 - p)) den
               else round_half_even num (den * 10 ^ (p - 6))) (10 ^ 7));
    cbn [fst]; lia.
Qed.

Lemma exact_fraction_pos (m : positive) (e : Z) :
  0 < fst (exact_fraction m e) /\ 0 < snd (exact_fraction m e).
Proof.
  unfold exact_fraction. destruct (Z.leb_spec 0 e); cbn [fst snd].
  - assert (0 < 2 ^ e) by (apply Z.pow_pos_nonneg; lia). nia.
  - assert (0 < 2 ^ (- e)) by (apply Z.pow_pos_nonneg; lia). lia.
Qed.

Lemma round_half_even_error (num den : Z) :
  0 < den -> 2 * Z.abs (round_half_even num den * den - num) <= den.
Proof.
  intros Hden. unfold round_half_even.
  pose proof (Z.div_mod num den ltac:(lia)) as Hdm.
  pose proof (Z.mod_pos_bound num den Hden) as Hm.
  destruct (Z.compare_spec (2 * (num mod den)) den);
    [destruct (Z.even (num / den))| |]; nia.
Qed.

Lemma sci7_half_unit (num den : Z) :
  0 < num -> 0 < den ->
  within_half_unit num den (fst (sci7 num den)) (snd (sci7 num den)).
Proof.
  intros Hnum Hden. unfold sci7, within_half_unit.
  set (p := decimal_exponent num den).
  destruct (Z.leb_spec p 6) as [Hp|Hp].
  - pose proof (pow10_pos (6 - p) ltac:(lia)) as H10.
    pose proof (round_half_even_error (num * 10 ^ (6 - p)) den Hden) as Herr.
    set (q := round_half_even (num * 10 ^ (6 - p)) den) in *.
    destruct (Z.eqb_spec q (10 ^ 7)) as [Hq|Hq]; cbn [fst snd].
    + destruct (Z.leb_spec (p + 1) 6) as [Hp1|Hp1].
      * assert (E : 10 ^ (6 - p) = 10 * 10 ^ (6 - (p + 1))).
        { rewrite <- Z.pow_succ_r by lia. f_equal. lia. }
        rewrite E, Hq in Herr. change (10 ^ 7) with 10000000 in Herr. change (10 ^ 6) with 1000000.
        replace (num * (10 * 10 ^ (6 - (p + 1))))
          with (10 * (num * 10 ^ (6 - (p + 1)))) in Herr by ring.
        generalize dependent (num * 10 ^ (6 - (p + 1))). intros; lia.
      * assert (E0 : 10 ^ (6 - p) = 1) by (replace (6 - p) with 0 by lia; reflexivity).
        assert (E1 : 10 ^ (p + 1 - 6) = 10)
          by (replace (p + 1 - 6) with 1 by lia; reflexivity).
        rewrite E0, Hq in Herr. rewrite E1.
        change (10 ^ 7) with 10000000 in Herr. change (10 ^ 6) with 1000000. lia.
    + destruct (Z.leb_spec p 6); [exact Herr|lia].
  - pose proof (pow10_pos (p - 6) ltac:(lia)) as H10.
    pose proof (round_half_even_error num (den * 10 ^ (p - 6)) ltac:(nia)) as Herr.
    set (q := round_half_even num (den * 10 ^ (p - 6))) in *.
    destruct (Z.eqb_spec q (10 ^ 7)) as [Hq|Hq]; cbn [fst snd].
    + destruct (Z.leb_spec (p + 1) 6); [lia|].
      assert (E : 10 ^ (p + 1 - 6) = 10 * 10 ^ (p - 6)).
      { rewrite <- Z.pow_succ_r by lia. f_equal. lia. }
      rewrite E. rewrite Hq in Herr. change (10 ^ 7) with 10000000 in Herr. change (10 ^ 6) with 1000000.
      replace (den * (10 * 10 ^ (p - 6))) with (10 * (den * 10 ^ (p - 6))) by ring.
      generalize dependent (den * 10 ^ (p - 6)). intros; lia.
    + destruct (Z.leb_spec p 6); [lia|exact Herr].
Qed.

(** Every float is written to seven significant digits, correctly rounded. *)
Lemma written_to_seven_digits_all (x : spec_float) : written_to_seven_digits x.
Proof.
  destruct x as [s|s| |s m e]; cbn [written_to_seven_digits decimal_of_float];
    try reflexivity.
  destruct (exact_fraction_pos m e) as [Hnum Hden].
  pose proof (sci7_digits _ _ Hnum Hden) as Hd.
  pose proof (sci7_half_unit _ _ Hnum Hden) as Hh.
  destruct (exact_fraction m e) as [num den]. cbn [fst snd] in *.
  destruct (sci7 num den) as [q p]. cbn [fst snd] in *.
  exists q, p. repeat split; tauto.
Qed.

Lemma decimal_of_float_digits (x : spec_float) (s : bool) (q p : Z) :
  decimal_of_float x = Some (s, q, p) -> 0 <= q < 10 ^ 7.
Proof.
  pose proof (written_to_seven_digits_all x) as Hw.
  destruct x as [s0|s0| |s0 m e]; cbn [written_to_seven_digits] in Hw.
  - rewrite Hw. intros [= <- <- <-]. lia.
  - rewrite Hw. discriminate.
  - rewrite Hw. discriminate.
  - destruct Hw as (q' & p' & -> & Hq & _). intros [= <- <- <-]. lia.
Qed.

(** ** Floats as text *)

Lemma span_digits_stop (ds : string) (c : ascii) (rest : string) :
  all_digits ds = true -> is_digit c = false ->
  span_digits (ds ++ String c rest) = (ds, String c rest).
Proof.
  intros Hd Hc. induction ds as [|d ds IH].
  - cbn [String.append span_digits]. rewrite Hc. reflexivity.
  - cbn [all_digits] in Hd. apply andb_true_iff in Hd. destruct Hd as [Hd1 Hd].
    cbn [String.append span_digits]. rewrite Hd1, (IH Hd). reflexivity.
Qed.

Lemma digit_not_keyword (c : ascii) (t : string) :
  is_digit c = true ->
  (String.eqb (lower_string (String c t)) "inf"
   || String.eqb (lower_string (String c t)) "infinity")%bool = false /\
  String.eqb (lower_string (String c t)) "nan" = false.
Proof.
  destruct c as [[] [] [] [] [] [] [] []]; try discriminate; intros _;
    split; reflexivity.
Qed.

Lemma exponent_digits_value (p : Z) :
  digits_value (fixed_digits (Nat.max 2 (ndigits (Z.abs p))) (Z.abs p)) 0 = Z.abs p.
Proof.
  rewrite digits_value_fixed by lia.
  destruct (Z.eq_dec p 0) as [->|Hp]; [reflexivity|].
  destruct (ndigits_spec (Z.abs p) ltac:(lia)) as [_ Hhi].
  assert (10 ^ Z.of_nat (ndigits (Z.abs p))
          <= 10 ^ Z.of_nat (Nat.max 2 (ndigits (Z.abs p))))
    by (apply Z.pow_le_mono_r; lia).
  rewrite Z.mod_small by lia. lia.
Qed.

Lemma parse_exponent_text (p : Z) :
  parse_exponent ("e" ++ exponent_text p) = Ok p.
Proof.
  unfold exponent_text.
  destruct (fixed_digits_cons (Nat.max 2 (ndigits (Z.abs p))) (Z.abs p))
    as (c & t & E & Hc); [lia|].
  pose proof (all_digits_fixed (Nat.max 2 (ndigits (Z.abs p))) (Z.abs p)) as Hd.
  pose proof (exponent_digits_value p) as Hv.
  destruct (Z.ltb_spec p 0);
    cbn [String.append parse_exponent];
    change (Ascii.eqb (lower "e") "e") with true; cbn iota; cbn [split_sign];
    rewrite Hd, Hv, E; f_equal; lia.
Qed.

Lemma no_space_exponent_text (p : Z) : no_space (exponent_text p) = true.
Proof.
  unfold exponent_text. cbn [no_space].
  rewrite all_digits_no_space by apply all_digits_fixed.
  destruct (p <? 0); reflexivity.
Qed.

Lemma no_space_sign_text (s : bool) : no_space (sign_text s) = true.
Proof. destruct s; reflexivity. Qed.

Lemma no_space_scientific_text (s : bool) (q p : Z) :
  0 <= q < 10 ^ 7 -> no_space (scientific_text s q p) = true.
Proof.
  intros Hq. unfold scientific_text.
  assert (Hd : 0 <= q / 10 ^ 6 <= 9).
  { split; [apply Z.div_pos; lia|]. 
    assert (q / 10 ^ 6 < 10) by (apply Z.div_lt_upper_bound; lia). lia. }
  rewrite no_space_app, no_space_sign_text. cbn [andb no_space String.append].
  rewrite (is_digit_not_space _ (is_digit_char _ Hd)).
  rewrite no_space_app, all_digits_no_space by apply all_digits_fixed.
  cbn [no_space String.append]. rewrite no_space_exponent_text. reflexivity.
Qed.

(** [float] reads back the decimal that [format_e] wrote. *)
Lemma py_float_scientific_text (s : bool) (q p : Z) :
  0 <= q < 10 ^ 7 ->
  b64_py_float (scientific_text s q p) = Ok (float_of_decimal s q (p - 6)).
Proof.
  intros Hq. unfold b64_py_float.
  rewrite strip_no_space by (apply no_space_scientific_text; assumption).
  assert (Hd : 0 <= q / 10 ^ 6 <= 9).
  { split; [apply Z.div_pos; lia|]. 
    assert (q / 10 ^ 6 < 10) by (apply Z.div_lt_upper_bound; lia). lia. }
  pose proof (is_digit_char _ Hd) as Hc.
  set (d0 := digit_char (q / 10 ^ 6)) in *.
  set (tail := ("." ++ fixed_digits 6 q ++ "e" ++ exponent_text p)%string).
  assert (Hsign : split_sign (scientific_text s q p) = (s, String d0 tail)).
  { unfold scientific_text. fold d0.
    change (String d0 ("." ++ fixed_digits 6 q) ++ "e" ++ exponent_text p)%string
      with (String d0 tail).
    destruct s; cbn [sign_text String.append]; [reflexivity|].
    apply split_sign_digit. assumption. }
  rewrite Hsign.
  destruct (digit_not_keyword d0 tail Hc) as [-> ->].
  assert (Hip : span_digits (String d0 tail) = (String d0 EmptyString, tail)).
  { cbn [span_digits]. rewrite Hc. reflexivity. }
  rewrite Hip. unfold tail at 1. cbn [String.append].
  rewrite (span_digits_stop (fixed_digits 6 q) "e" (exponent_text p))
    by (apply all_digits_fixed || reflexivity).
  cbn [String.append]. 
  change (String "e" (exponent_text p)) with ("e" ++ exponent_text p)%string.
  rewrite parse_exponent_text. cbn [bind].
  rewrite length_fixed_digits. do 2 f_equal.
  cbn [digits_value]. rewrite digits_value_fixed by lia.
  unfold d0. rewrite digit_val_char by assumption.
  change (Z.of_nat 6) with 6.
  pose proof (Z.div_mod q (10 ^ 6) ltac:(lia)). lia.
Qed.

Lemma py_float_format_e (x : spec_float) :
  b64_py_float (b64_format_e x) = Ok (reread x).
Proof.
  unfold b64_format_e, reread.
  destruct (decimal_of_float x) as [[[s q] p]|] eqn:E.
  - apply py_float_scientific_text. eapply decimal_of_float_digits; eassumption.
  - destruct x as [s| s | |s m e]; try discriminate.
    + destruct s; reflexivity.
    + reflexivity.
    + cbn [decimal_of_float] in E.
      destruct (exact_fraction m e), (sci7 _ _); discriminate.
Qed.

Lemma no_space_format_e (x : spec_float) : no_space (b64_format_e x) = true.
Proof.
  unfold b64_format_e.
  destruct (decimal_of_float x) as [[[s q] p]|] eqn:E.
  - apply no_space_scientific_text. eapply decimal_of_float_digits; eassumption.
  - destruct x as [s| s | |s m e]; try reflexivity. destruct s; reflexivity.
Qed.

Lemma format_e_not_empty (x : spec_float) : b64_format_e x <> EmptyString.
Proof.
  unfold b64_format_e.
  destruct (decimal_of_float x) as [[[s q] p]|].
  - unfold scientific_text. destruct s; discriminate.
  - destruct x as [s|s| |s m e]; try discriminate; destruct s; discriminate.
Qed.

(** ** Reading back what the writers wrote *)

Lemma rstrip_token_newline (tok : string) :
  no_space tok = true -> rstrip (tok ++ newline) = tok.
Proof.
  induction tok as [|c tok IH]; intros Ht; [reflexivity|].
  cbn [no_space] in Ht. apply andb_true_iff in Ht. destruct Ht as [Hc Ht].
  apply negb_true_iff in Hc.
  cbn [String.append rstrip]. rewrite (IH Ht), Hc. destruct tok; reflexivity.
Qed.

Lemma py_int_count_line (z : Z) : py_int (strip (py_str z ++ newline)) = Ok z.
Proof.
  pose proof (no_space_py_str z) as Hns.
  pose proof (py_str_not_empty z) as Hne.
  unfold strip at 1.
  assert (Hl : lstrip (py_str z ++ newline) = (py_str z ++ newline)%string).
  { destruct (py_str z) as [|c t]; [congruence|].
    cbn [no_space] in Hns. apply andb_true_iff in Hns. destruct Hns as [Hc _].
    apply negb_true_iff in Hc. cbn [String.append lstrip]. rewrite Hc. reflexivity. }
  rewrite Hl, rstrip_token_newline by assumption.
  apply py_int_py_str.
Qed.

Lemma split_blank_token (k : nat) (tok : string) (c : ascii) (s : string) :
  no_space tok = true -> tok <> EmptyString -> is_space c = true ->
  split_aux (spaces k ++ tok ++ String c s) EmptyString
  = tok :: split_aux s EmptyString.
Proof.
  intros. rewrite split_aux_spaces. apply split_token_blank; assumption.
Qed.

Lemma split_format_6d_blank (z : Z) (c : ascii) (s : string) :
  is_space c = true ->
  split_aux (format_6d z ++ String c s) EmptyString
  = py_str z :: split_aux s EmptyString.
Proof.
  intros Hc. unfold format_6d. rewrite append_assoc.
  apply split_blank_token;
    [apply no_space_py_str|apply py_str_not_empty|assumption].
Qed.

(** A loop that reads one line per iteration. *)
Lemma for_in_lines {A R I} (body : I -> list R * string -> result (list R * string))
    (line : A -> string) (g : A -> R) :
  (forall i rows x rest,
     body i (rows, (line x ++ rest)%string) = Ok (rows ++ [g x], rest)) ->
  forall (xs : list A) (idx : list I) (rows : list R) (rest : string),
    length idx = length xs ->
    for_in idx body (rows, (lines_text (map line xs) ++ rest)%string)
    = Ok (rows ++ map g xs, rest).
Proof.
  intros Hbody. induction xs as [|x xs IH]; intros idx rows rest Hlen.
  - destruct idx; [|discriminate]. cbn. now rewrite app_nil_r.
  - destruct idx as [|i idx]; [discriminate|].
    cbn [map lines_text fold_right for_in]. fold (lines_text (map line xs)).
    rewrite append_assoc, Hbody. cbn [bind].
    rewrite IH by (simpl in Hlen; lia).
    rewrite <- app_assoc. reflexivity.
Qed.

Lemma length_range_of_nat (k : nat) : length (range (Z.of_nat k)) = k.
Proof. rewrite length_range. lia. Qed.

Section RoundTrip.
Context {F : Type} {PF : PyFloat F} {FT : FloatText F}.
Variable rr : F -> F.
Hypothesis py_float_format_e' : forall x, py_float (format_e x) = Ok (rr x).
Hypothesis no_space_format : forall x, no_space (format_e x) = true.
Hypothesis format_not_empty : forall x, format_e x <> EmptyString.

Lemma split_float_blank (x : F) (c : ascii) (s : string) :
  is_space c = true ->
  split_aux (format_e x ++ String c s) EmptyString
  = format_e x :: split_aux s EmptyString.
Proof.
  intros Hc. apply (split_blank_token 0); auto.
Qed.

Lemma no_newline_format (x : F) : no_newline (format_e x) = true.
Proof. apply no_space_no_newline, no_space_format. Qed.

Lemma read_vertex_line (i : Z) (rows : list (list F)) (v : F * F) (rest : string) :
  (let '(rows, f) := (rows, (vertex_line v ++ rest)%string) in
   let '(l, f) := readline f in
   let line := split (strip l) in
   a <- item line 0 ;;
   x <- py_float a ;;
   b <- item line 1 ;;
   y <- py_float b ;;
   Ok (rows ++ [[x; y]], f))
  = Ok (rows ++ [[rr (fst v); rr (snd v)]], rest).
Proof.
  unfold vertex_line.
  replace ((format_e (fst v) ++ tab ++ format_e (snd v) ++ newline) ++ rest)%string
    with ((format_e (fst v) ++ tab ++ format_e (snd v)) ++ newline ++ rest)%string
    by (rewrite !append_assoc; reflexivity).
  rewrite readline_line
    by (rewrite !no_newline_app, !no_newline_format; reflexivity).
  rewrite split_strip. unfold split.
  rewrite !append_assoc. unfold tab, newline. cbn [String.append].
  rewrite !split_float_blank by reflexivity.
  cbn [split_aux item nth_error bind]. rewrite !py_float_format_e'. reflexivity.
Qed.

Lemma read_spring_line (i : Z) (rows : list (spring F)) (s : spring F) (rest : string) :
  (let '(springs, f) := (rows, (spring_line s ++ rest)%string) in
   let '(l, f) := readline f in
   let line := split (strip l) in
   a <- item line 0 ;;
   idx1 <- py_int a ;;
   b <- item line 1 ;;
   idx2 <- py_int b ;;
   c <- item line 2 ;;
   stiffness <- py_float c ;;
   d <- item line 3 ;;
   damping <- py_float d ;;
   Ok (springs ++ [mk_spring idx1 idx2 stiffness damping], f))
  = Ok (rows ++ [mk_spring (s_idx1 s) (s_idx2 s) (rr (s_stiffness s))
                   (rr (s_damping s))], rest).
Proof.
  unfold spring_line.
  replace ((format_6d (s_idx1 s) ++ " " ++ format_6d (s_idx2 s) ++ " " ++
            format_e (s_stiffness s) ++ " " ++ format_e (s_damping s) ++ newline)
           ++ rest)%string
    with ((format_6d (s_idx1 s) ++ " " ++ format_6d (s_idx2 s) ++ " " ++
           format_e (s_stiffness s) ++ " " ++ format_e (s_damping s))
          ++ newline ++ rest)%string
    by (rewrite !append_assoc; reflexivity).
  rewrite readline_line
    by (rewrite !no_newline_app, !no_newline_format, !no_newline_format_6d;
        reflexivity).
  rewrite split_strip. unfold split.
  rewrite !append_assoc. unfold newline. cbn [String.append].
  rewrite !split_format_6d_blank by reflexivity.
  rewrite !split_float_blank by reflexivity.
  cbn [split_aux item nth_error bind].
  rewrite !py_int_py_str. cbn [bind]. rewrite !py_float_format_e'. reflexivity.
Qed.

Lemma read_beam_line (i : Z) (rows : list (beam F)) (b : beam F) (rest : string) :
  (let '(beams, f) := (rows, (beam_line b ++ rest)%string) in
   let '(l, f) := readline f in
   let line := split (strip l) in
   a <- item line 0 ;;
   idx1 <- py_int a ;;
   b <- item line 1 ;;
   idx2 <- py_int b ;;
   c <- item line 2 ;;
   idx3 <- py_int c ;;
   d <- item line 3 ;;
   rigidity <- py_float d ;;
   Ok (beams ++ [mk_beam idx1 idx2 idx3 rigidity], f))
  = Ok (rows ++ [mk_beam (b_idx1 b) (b_idx2 b) (b_idx3 b) (rr (b_rigidity b))],
        rest).
Proof.
  unfold beam_line.
  replace ((format_6d (b_idx1 b) ++ " " ++ format_6d (b_idx2 b) ++ " " ++
            format_6d (b_idx3 b) ++ " " ++ format_e (b_rigidity b) ++ newline)
           ++ rest)%string
    with ((format_6d (b_idx1 b) ++ " " ++ format_6d (b_idx2 b) ++ " " ++
           format_6d (b_idx3 b) ++ " " ++ format_e (b_rigidity b))
          ++ newline ++ rest)%string
    by (rewrite !append_assoc; reflexivity).
  rewrite readline_line
    by (rewrite !no_newline_app, !no_newline_format, !no_newline_format_6d;
        reflexivity).
  rewrite split_strip. unfold split.
  rewrite !append_assoc. unfold newline. cbn [String.append].
  rewrite !split_format_6d_blank by reflexivity.
  rewrite !split_float_blank by reflexivity.
  cbn [split_aux item nth_error bind].
  rewrite !py_int_py_str. cbn [bind]. rewrite !py_float_format_e'. reflexivity.
Qed.

Lemma write_file_text {A} (line : A -> string) (xs : list A) :
  fold_left (fun f x => write f (line x)) xs
    (write EmptyString (py_str (Z.of_nat (length xs)) ++ newline))
  = (py_str (Z.of_nat (length xs)) ++ newline ++
     lines_text (map line xs) ++ EmptyString)%string.
Proof.
  rewrite fold_write. unfold write. cbn [String.append].
  rewrite append_assoc, append_nil_r. reflexivity.
Qed.

Lemma read_write_vertices (vs : list (F * F)) :
  read_vertex_file (write_vertex_file vs)
  = Ok (Array2D 2 (map (fun v => [rr (fst v); rr (snd v)]) vs)).
Proof.
  unfold write_vertex_file, read_vertex_file. rewrite write_file_text.
  rewrite readline_line by (apply no_space_no_newline, no_space_py_str).
  rewrite py_int_count_line. cbn [bind].
  destruct (Z.ltb_spec (Z.of_nat (length vs)) 0); [lia|].
  rewrite (for_in_lines _ vertex_line (fun v => [rr (fst v); rr (snd v)]))
    by (apply read_vertex_line || apply length_range_of_nat).
  reflexivity.
Qed.

Lemma read_write_springs (ss : list (spring F)) :
  read_spring_rows (write_spring_file ss)
  = Ok (map (fun s => mk_spring (s_idx1 s) (s_idx2 s) (rr (s_stiffness s))
                        (rr (s_damping s))) ss).
Proof.
  unfold write_spring_file, read_spring_rows. rewrite write_file_text.
  rewrite readline_line by (apply no_space_no_newline, no_space_py_str).
  rewrite py_int_count_line. cbn [bind].
  rewrite (for_in_lines _ spring_line
             (fun s => mk_spring (s_idx1 s) (s_idx2 s) (rr (s_stiffness s))
                         (rr (s_damping s))))
    by (apply read_spring_line || apply length_range_of_nat).
  reflexivity.
Qed.

Lemma read_write_beams (bs : list (beam F)) :
  read_beam_rows (write_beam_file bs)
  = Ok (map (fun b => mk_beam (b_idx1 b) (b_idx2 b) (b_idx3 b)
                        (rr (b_rigidity b))) bs).
Proof.
  unfold write_beam_file, read_beam_rows. rewrite write_file_text.
  rewrite readline_line by (apply no_space_no_newline, no_space_py_str).
  rewrite py_int_count_line. cbn [bind].
  rewrite (for_in_lines _ beam_line
             (fun b => mk_beam (b_idx1 b) (b_idx2 b) (b_idx3 b)
                         (rr (b_rigidity b))))
    by (apply read_beam_line || apply length_range_of_nat).
  reflexivity.
Qed.

End RoundTrip.

(** ** The round trip of a generated model *)

Lemma map_fixed {A} (f : A -> A) (l : list A) :
  Forall (fun a => f a = a) l -> map f l = l.
Proof. induction 1; simpl; congruence. Qed.

Section Binary64RoundTrip.
Variable pow : spec_float -> Z -> spec_float.
Variables sin cos : spec_float -> spec_float.

(** The material constants of the table are written and read back exactly. *)
Lemma table_values_reread (severity : string) (p : params spec_float) :
  dict_get (severity_params (PF := b64 pow sin cos)) severity = Ok p ->
  reread (spring_stiffness p) = spring_stiffness p /\
  reread (SFmul prec emax (spring_stiffness p) (float_of_decimal false 5 (-1)))
  = SFmul prec emax (spring_stiffness p) (float_of_decimal false 5 (-1)) /\
  reread (beam_rigidity p) = beam_rigidity p /\
  reread (float_of_decimal false 0 0) = float_of_decimal false 0 0.
Proof.
  unfold severity_params. cbn [dict_get].
  repeat match goal with
  | |- (if String.eqb ?a severity then _ else _) = _ -> _ =>
      destruct (String.eqb a severity);
      [intros [= <-]; vm_compute; repeat split; reflexivity|]
  end.
  discriminate.
Qed.

(** C1: for every recognized severity and every resolution [n >= 2], with
    any [pow], [sin] and [cos], the three files written from the generated
    model read back as: the matrix of the vertex coordinates, each the
    binary64 nearest to the decimal written for it, which is the coordinate
    correctly rounded to seven significant digits; the array of
    the model's own springs (same endpoints, stiffness and damping); and the
    array of the model's own beams (same endpoints and rigidity). *)
Theorem serialization_round_trip (severity : string) (n : Z)
    (r len : spec_float) :
  recognized severity -> 2 <= n ->
  exists M p,
    generate_aortic_valve (PF := b64 pow sin cos) n r len severity = Ok (M, p) /\
    read_vertex_file (write_vertex_file (vertices M))
    = Ok (Array2D 2 (map (fun v => [reread (fst v); reread (snd v)])
                         (vertices M))) /\
    Forall (fun v => written_to_seven_digits (fst v) /\
                     written_to_seven_digits (snd v)) (vertices M) /\
    read_spring_rows (write_spring_file (springs M)) = Ok (springs M) /\
    read_spring_file (PF := b64 pow sin cos) (write_spring_file (springs M))
    = Ok (np_array (map (spring_row (PF := b64 pow sin cos)) (springs M))) /\
    read_beam_rows (write_beam_file (beams M)) = Ok (beams M) /\
    read_beam_file (PF := b64 pow sin cos) (write_beam_file (beams M))
    = Ok (np_array (map (beam_row (PF := b64 pow sin cos)) (beams M))).
Proof.
  intros Hsev Hn.
  destruct (dict_get_recognized (PF := b64 pow sin cos) _ Hsev) as [p Hp].
  destruct (table_values_reread severity p Hp) as (Hk & Hk2 & Hb & H0).
  eexists _, p. split; [apply generate_layout; [exact Hp|lia]|].
  cbn [vertices springs beams].
  set (springs_of := fun q : params spec_float =>
         flat_map (leaflet_longitudinal (PF := b64 pow sin cos) n q)
                  (range n_leaflets) ++
         flat_map (leaflet_cross (PF := b64 pow sin cos) n q) (range n_leaflets)).
  set (beams_of := fun q : params spec_float =>
         flat_map (leaflet_beams n q) (range n_leaflets)).
  change (flat_map (leaflet_longitudinal n p) (range n_leaflets) ++
          flat_map (leaflet_cross n p) (range n_leaflets)) with (springs_of p).
  change (flat_map (leaflet_beams n p) (range n_leaflets)) with (beams_of p).
  assert (Hsrows : read_spring_rows (write_spring_file (springs_of p))
                   = Ok (springs_of p)).
  { rewrite (read_write_springs reread)
      by (apply py_float_format_e || apply no_space_format_e
          || apply format_e_not_empty).
    f_equal. apply map_fixed.
    apply Forall_app. split; apply Forall_flat_map, Forall_forall; intros k _.
    - unfold leaflet_longitudinal. apply Forall_map, Forall_forall. intros i _.
      cbn [s_idx1 s_idx2 s_stiffness s_damping literal b64].
      rewrite Hk, H0. reflexivity.
    - unfold leaflet_cross. apply Forall_map, Forall_forall. intros i _.
      cbn [s_idx1 s_idx2 s_stiffness s_damping literal fmul b64].
      rewrite Hk2, H0. reflexivity. }
  assert (Hbrows : read_beam_rows (write_beam_file (beams_of p))
                   = Ok (beams_of p)).
  { rewrite (read_write_beams reread)
      by (apply py_float_format_e || apply no_space_format_e
          || apply format_e_not_empty).
    f_equal. apply map_fixed.
    apply Forall_flat_map, Forall_forall; intros k _.
    unfold leaflet_beams. apply Forall_map, Forall_forall. intros i _.
    cbn [b_idx1 b_idx2 b_idx3 b_rigidity]. rewrite Hb. reflexivity. }
  split; [|split; [|split; [|split; [|split]]]].
  - apply (read_write_vertices reread);
      [apply py_float_format_e|apply no_space_format_e|apply format_e_not_empty].
  - apply Forall_forall. intros v _. split; apply written_to_seven_digits_all.
  - exact Hsrows.
  - unfold read_spring_file. rewrite Hsrows. reflexivity.
  - exact Hbrows.
  - unfold read_beam_file. rewrite Hbrows. reflexivity.
Qed.

End Binary64RoundTrip.

(** ** Worked instances

    The healthy valve at resolution 4, annulus radius 1.0 and leaflet length
    1.2 (the script's defaults for the two lengths), over the reals and over
    binary64. *)

(** A binary64 instance for the worked instances; the choice of [pow], [sin]
    and [cos] is immaterial to what they show. *)
#[local] Abbreviation plain_b64 := (b64 (fun x _ => x) (fun x => x) (fun x => x)).

Lemma healthy_recognized : recognized "healthy".
Proof. left. reflexivity. Defined.

Lemma unknown_not_recognized : ~ recognized "unknown".
Proof. intros [H|[H|[H|[H|[]]]]]; discriminate H. Defined.

Lemma serialization_round_trip_witness :
  recognized "healthy" /\ 2 <= 4 /\
  exists M p,
    generate_aortic_valve (PF := plain_b64)
      4 (float_of_decimal false 1 0) (float_of_decimal false 12 (-1)) "healthy"
    = Ok (M, p) /\
    read_spring_file (PF := plain_b64)
      (write_spring_file (springs M))
    = Ok (np_array
            (map (spring_row (PF := plain_b64))
                 (springs M))).
Proof.
  assert (H2 : 2 <= 4) by lia.
  split; [exact healthy_recognized|]. split; [exact H2|].
  destruct (serialization_round_trip (fun x _ => x) (fun x => x) (fun x => x)
              "healthy" 4 (float_of_decimal false 1 0)
              (float_of_decimal false 12 (-1)) healthy_recognized H2)
    as (M & p & Hgen & _ & _ & _ & Hs & _).
  exists M, p. split; [exact Hgen|exact Hs].
Defined.

Lemma vertex_count_and_blocks_witness :
  recognized "healthy" /\ 2 <= 4 /\
  exists M p,
    generate_aortic_valve (PF := R_float) 4 (literal 1 0) (literal 12 (-1))
      "healthy" = Ok (M, p) /\
    length (vertices M) = 12%nat.
Proof.
  assert (H2 : 2 <= 4) by lia.
  split; [exact healthy_recognized|]. split; [exact H2|].
  destruct (vertex_count_and_blocks (PF := R_float) "healthy" 4 (literal 1 0)
              (literal 12 (-1)) healthy_recognized H2)
    as (M & p & Hgen & Hlen & _).
  exists M, p. split; [exact Hgen|exact Hlen].
Defined.

Lemma element_counts_witness :
  recognized "healthy" /\ 2 <= 4 /\
  exists M p,
    generate_aortic_valve (PF := R_float) 4 (literal 1 0) (literal 12 (-1))
      "healthy" = Ok (M, p) /\
    length (vertices M) = 12%nat /\
    length (springs M) = 15%nat /\
    length (beams M) = 6%nat.
Proof.
  assert (H2 : 2 <= 4) by lia.
  split; [exact healthy_recognized|]. split; [exact H2|].
  destruct (element_counts (PF := R_float) "healthy" 4 (literal 1 0)
              (literal 12 (-1)) healthy_recognized H2)
    as (M & p & Hgen & Hv & _ & _ & _ & Hs & Hb & _).
  exists M, p. split; [exact Hgen|]. split; [exact Hv|].
  split; [exact Hs|exact Hb].
Defined.

Lemma elements_stay_in_own_block_witness :
  recognized "healthy" /\ 2 <= 4 /\
  exists M p,
    generate_aortic_valve (PF := R_float) 4 (literal 1 0) (literal 12 (-1))
      "healthy" = Ok (M, p) /\
    Forall (fun s => exists k, 0 <= k < 3 /\ spring_in_block 4 k s) (springs M) /\
    Forall (fun b => exists k, 0 <= k < 3 /\ beam_in_block 4 k b) (beams M).
Proof.
  assert (H2 : 2 <= 4) by lia.
  split; [exact healthy_recognized|]. split; [exact H2|].
  destruct (elements_stay_in_own_block (PF := R_float) "healthy" 4 (literal 1 0)
              (literal 12 (-1)) healthy_recognized H2)
    as (M & p & Hgen & Hs & Hb & _).
  exists M, p. split; [exact Hgen|]. split; [exact Hs|exact Hb].
Defined.

Lemma vertices_ignore_arc_width_witness :
  recognized "healthy" /\ 2 <= 4 /\
  exists M p,
    generate_aortic_valve (PF := R_float) 4 (literal 1 0) (literal 12 (-1))
      "healthy" = Ok (M, p) /\
    for_in (range n_leaflets)
      (fun k vs =>
         leaflet_points 4 (literal 1 0)
           (fmul (literal 12 (-1)) (leaflet_length_factor p)) p
           (theta_center k) (literal 0 0) vs) [] = Ok (vertices M).
Proof.
  assert (H2 : 2 <= 4) by lia.
  split; [exact healthy_recognized|]. split; [exact H2|].
  destruct (vertices_ignore_arc_width (PF := R_float) "healthy" 4 (literal 1 0)
              (literal 12 (-1)) healthy_recognized H2)
    as (M & p & Hgen & _ & _ & Harc).
  exists M, p. split; [exact Hgen|exact (Harc (literal 0 0))].
Defined.

(** At resolution 0 the generator returns the empty model for the healthy
    valve: no error is raised. *)
Lemma low_resolution_counterexample :
  0 < 2 /\
  generate_aortic_valve (PF := R_float) 0 (literal 1 0) (literal 12 (-1)) "healthy"
  = Ok (mk_model [] [] [],
        mk_params (literal 5 2) (literal 1 (-2)) (literal 1 0) (literal 1 0)).
Proof. split; [lia|reflexivity]. Qed.

Lemma low_resolution_witness :
  recognized "healthy" /\ 1 < 2 /\ 0 < 2 /\
  generate_aortic_valve (PF := R_float) 1 (literal 1 0) (literal 12 (-1)) "healthy"
  = Raise ZeroDivisionError /\
  exists p,
    generate_aortic_valve (PF := R_float) 0 (literal 1 0) (literal 12 (-1))
      "healthy" = Ok (mk_model [] [] [], p).
Proof.
  assert (H1 : 1 < 2) by lia. assert (H0 : 0 < 2) by lia.
  split; [exact healthy_recognized|]. split; [exact H1|]. split; [exact H0|].
  split.
  - exact (proj2 (proj1 (low_resolution (PF := R_float) 1 (literal 1 0)
                           (literal 12 (-1)) "healthy" healthy_recognized H1)
                    eq_refl)).
  - apply (proj2 (low_resolution (PF := R_float) 0 (literal 1 0)
                    (literal 12 (-1)) "healthy" healthy_recognized H0)).
    lia.
Defined.

Lemma severity_lookup_witness :
  (~ recognized "unknown") /\
  dict_get (severity_params (PF := R_float)) "unknown" = Raise (KeyError "unknown") /\
  generate_aortic_valve (PF := R_float) 4 (literal 1 0) (literal 12 (-1)) "unknown"
  = Raise (KeyError "unknown") /\
  exists p,
    dict_get (severity_params (PF := R_float)) "healthy" = Ok p /\
    spring_stiffness p = 500%R /\ beam_rigidity p = (1 / 100)%R /\
    leaflet_length_factor p = 1%R /\ mobility p = 1%R.
Proof.
  split; [exact unknown_not_recognized|].
  destruct (severity_lookup (PF := R_float) "unknown" unknown_not_recognized)
    as (Hd & Hg & Hrow & _).
  split; [exact Hd|]. split; [apply Hg|].
  eexists. split; [exact Hrow|]. cbn. repeat split; simpl; lra.
Defined.

(** Three vertices and the empty vector that [read_spring_file] returns for a
    file of no springs: the calculator raises at [springs[:, 2]]. *)
Lemma stiffness_statistics_counterexample :
  read_spring_file (PF := plain_b64)
    (write_spring_file []) = Ok (np_array []) /\
  np_len (np_array (F := R) []) = 0 /\
  calculate_geometric_properties (fun _ => None)
    (Array2D 2 [[1; 0]; [0; 1]; [-1; 0]]%R) (np_array [])
  = Raise IndexError.
Proof. split; [vm_compute; reflexivity|]. split; reflexivity. Qed.

Lemma stiffness_statistics_witness :
  (2 <= 2)%nat /\ (3 <= 4)%nat /\
  exists P,
    calculate_geometric_properties (fun _ => None)
      (Array2D 2 [[1; 0]; [0; 1]; [-1; 0]]%R)
      (Array2D 4 [[0; 1; 500; 0]; [1; 2; 250; 0]]%R) = Ok P /\
    (avg_stiffness P * 2 = 500 + (250 + 0))%R /\
    In (max_stiffness P) [500; 250]%R.
Proof.
  assert (Hv : (2 <= 2)%nat) by lia. assert (Hs : (3 <= 4)%nat) by lia.
  split; [exact Hv|]. split; [exact Hs|].
  destruct (stiffness_statistics (fun _ => None) 2 [1; 0]%R [[0; 1]; [-1; 0]]%R
              4 [0; 1; 500; 0]%R [[1; 2; 250; 0]]%R Hv Hs)
    as (_ & P & HP & Havg & Hmax & _).
  exists P. split; [exact HP|]. split; [exact Havg|exact Hmax].
Defined.

Lemma annulus_vertex_and_endpoints_witness :
  recognized "healthy" /\ 2 <= 4 /\ 0 <= 1 < 3 /\ (0 < 1)%R /\
  exists M p x y,
    generate_aortic_valve (PF := R_float) 4 1%R (literal 12 (-1)) "healthy"
    = Ok (M, p) /\
    nth_error (vertices M) 4 = Some (x, y) /\
    sqrt (x * x + y * y) = 1%R.
Proof.
  assert (H2 : 2 <= 4) by lia. assert (Hk : 0 <= 1 < 3) by lia.
  assert (Hr : (0 < 1)%R) by lra.
  split; [exact healthy_recognized|]. split; [exact H2|]. split; [exact Hk|].
  split; [exact Hr|].
  destruct (annulus_vertex_and_endpoints "healthy" 4 1%R (literal 12 (-1)) 1
              healthy_recognized H2 Hk Hr)
    as (M & p & x & y & Hgen & Hv & _ & _ & Hd & _).
  exists M, p, x, y. split; [exact Hgen|]. split; [exact Hv|exact Hd].
Defined.

Lemma springs_longitudinal_then_cross_witness :
  recognized "healthy" /\ 2 <= 4 /\
  exists M p,
    generate_aortic_valve (PF := plain_b64)
      4 (float_of_decimal false 1 0) (float_of_decimal false 12 (-1)) "healthy"
    = Ok (M, p) /\
    firstn 9 (springs M) =
      leaflet_longitudinal (PF := plain_b64) 4 p 0 ++
      leaflet_longitudinal (PF := plain_b64) 4 p 1 ++
      leaflet_longitudinal (PF := plain_b64) 4 p 2.
Proof.
  assert (H2 : 2 <= 4) by lia.
  split; [exact healthy_recognized|]. split; [exact H2|].
  destruct (springs_longitudinal_then_cross
              (PF := plain_b64)
              "healthy" 4 (float_of_decimal false 1 0)
              (float_of_decimal false 12 (-1)) healthy_recognized H2)
    as (M & p & Hgen & Hfirst & _).
  exists M, p. split; [exact Hgen|exact Hfirst].
Defined.

(* ================================================================= *)
(** * The mesh of a generated model *)

(** ** The connectivity of a generated model *)

Section Connectivity.
Context {F : Type} {PF : PyFloat F}.

Lemma longitudinal_ends n (p : params F) k :
  map spring_ends (leaflet_longitudinal n p k)
  = map (fun i => (k * n + i, k * n + i + 1)) (range (n - 1)).
Proof. unfold leaflet_longitudinal. rewrite map_map. reflexivity. Qed.

Lemma cross_ends n (p : params F) k :
  map spring_ends (leaflet_cross n p k)
  = map (fun i => (k * n + i, k * n + i + cross_skip n))
        (py_range 0 (n - cross_skip n - 1) (cross_skip n)).
Proof. unfold leaflet_cross. rewrite map_map. reflexivity. Qed.

Lemma beams_ends n (p : params F) k :
  map beam_ends (leaflet_beams n p k)
  = map (fun i => (k * n + i, k * n + i + 1, k * n + i + 2)) (range (n - 2)).
Proof. unfold leaflet_beams. rewrite map_map. reflexivity. Qed.

Lemma springs_ends_layout n (p : params F) :
  map spring_ends
    (flat_map (leaflet_longitudinal n p) (range n_leaflets) ++
     flat_map (leaflet_cross n p) (range n_leaflets))
  = flat_map (fun k => map (fun i => (k * n + i, k * n + i + 1)) (range (n - 1)))
             (range n_leaflets) ++
    flat_map (fun k => map (fun i => (k * n + i, k * n + i + cross_skip n))
                           (py_range 0 (n - cross_skip n - 1) (cross_skip n)))
             (range n_leaflets).
Proof.
  rewrite map_app, !flat_map_range_3, !map_app,
    !longitudinal_ends, !cross_ends.
  reflexivity.
Qed.

Lemma beams_ends_layout n (p : params F) :
  map beam_ends (flat_map (leaflet_beams n p) (range n_leaflets))
  = flat_map (fun k => map (fun i => (k * n + i, k * n + i + 1, k * n + i + 2))
                           (range (n - 2)))
             (range n_leaflets).
Proof.
  rewrite !flat_map_range_3, !map_app, !beams_ends. reflexivity.
Qed.

End Connectivity.

(** X2: the connectivity of the mesh depends on the resolution alone.  Two
    runs of the generator at the same resolution [n >= 2], for any two
    recognized severities, any radii and lengths, and any two float
    arithmetics, return the same number of vertices, the same spring
    endpoints in the same order and the same beam endpoints in the same
    order; only the material constants and the coordinates differ. *)
Theorem connectivity_depends_on_resolution_only
    {F1 : Type} {PF1 : PyFloat F1} {F2 : Type} {PF2 : PyFloat F2}
    (sev1 sev2 : string) (n : Z) (r1 len1 : F1) (r2 len2 : F2) :
  recognized sev1 -> recognized sev2 -> 2 <= n ->
  exists M1 p1 M2 p2,
    generate_aortic_valve n r1 len1 sev1 = Ok (M1, p1) /\
    generate_aortic_valve n r2 len2 sev2 = Ok (M2, p2) /\
    length (vertices M1) = length (vertices M2) /\
    map spring_ends (springs M1) = map spring_ends (springs M2) /\
    map beam_ends (beams M1) = map beam_ends (beams M2).
Proof.
  intros H1 H2 Hn.
  destruct (dict_get_recognized (F := F1) _ H1) as [p1 Hp1].
  destruct (dict_get_recognized (F := F2) _ H2) as [p2 Hp2].
  eexists _, p1, _, p2.
  split; [apply generate_layout; [exact Hp1|lia]|].
  split; [apply generate_layout; [exact Hp2|lia]|].
  cbn [vertices springs beams].
  split; [|split].
  - rewrite !flat_map_range_3, !length_app, !length_leaflet_vertices.
    reflexivity.
  - rewrite !springs_ends_layout. reflexivity.
  - rewrite !beams_ends_layout. reflexivity.
Qed.

Lemma connectivity_depends_on_resolution_only_witness :
  recognized "healthy" /\ recognized "severe" /\ 2 <= 4 /\
  exists M1 p1 M2 p2,
    generate_aortic_valve (PF := R_float) 4 (literal 1 0) (literal 12 (-1))
      "healthy" = Ok (M1, p1) /\
    generate_aortic_valve (PF := b64 (fun x _ => x) (fun x => x) (fun x => x))
      4 (float_of_decimal false 2 0) (float_of_decimal false 3 0)
      "severe" = Ok (M2, p2) /\
    map spring_ends (springs M1) = map spring_ends (springs M2).
Proof.
  assert (H2 : 2 <= 4) by lia.
  assert (Hs : recognized "severe") by (right; right; right; left; reflexivity).
  split; [exact healthy_recognized|]. split; [exact Hs|]. split; [exact H2|].
  destruct (connectivity_depends_on_resolution_only
              (PF1 := R_float)
              (PF2 := b64 (fun x _ => x) (fun x => x) (fun x => x))
              "healthy" "severe" 4 (literal 1 0) (literal 12 (-1))
              (float_of_decimal false 2 0) (float_of_decimal false 3 0)
              healthy_recognized Hs H2)
    as (M1 & p1 & M2 & p2 & Hg1 & Hg2 & _ & Hss & _).
  exists M1, p1, M2, p2. split; [exact Hg1|]. split; [exact Hg2|exact Hss].
Defined.

Section Duplicates.
Context {F : Type} {PF : PyFloat F}.

Lemma in_three_blocks {A} (g : Z -> list A) (a : A) :
  In a (g 0 ++ g 1 ++ g 2) <-> exists k, 0 <= k < 3 /\ In a (g k).
Proof.
  rewrite !in_app_iff. split.
  - intros [H|[H|H]]; [exists 0|exists 1|exists 2]; (split; [lia|exact H]).
  - intros (k & Hk & H).
    assert (Hk3 : k = 0 \/ k = 1 \/ k = 2) by lia.
    destruct Hk3 as [-> | [-> | ->]]; tauto.
Qed.

Lemma cross_skip_below_16 (n : Z) : n < 16 -> cross_skip n = 1.
Proof.
  intros Hn. unfold cross_skip.
  assert (n / 8 < 2) by (apply Z.div_lt_upper_bound; lia). lia.
Qed.

Lemma cross_skip_from_16 (n : Z) : 16 <= n -> 2 <= cross_skip n.
Proof.
  intros Hn. unfold cross_skip.
  assert (2 <= n / 8) by (apply Z.div_le_lower_bound; lia). lia.
Qed.

(** X3: below resolution 16 the skip is 1, so every cross spring joins two
    neighbours that a longitudinal spring already joins (at half its
    stiffness); from resolution 16 on no cross spring has the endpoints of
    a longitudinal spring. *)
Theorem cross_springs_double_the_chain_below_16 (severity : string) (n : Z)
    (r len : F) :
  recognized severity -> 2 <= n ->
  exists M p long cross,
    generate_aortic_valve n r len severity = Ok (M, p) /\
    springs M = long ++ cross /\
    length long = Z.to_nat (3 * (n - 1)) /\
    (n < 16 ->
     Forall (fun c => exists l, In l long /\ spring_ends l = spring_ends c /\
                                s_stiffness c
                                = fmul (s_stiffness l) (literal 5 (-1)))
            cross) /\
    (16 <= n ->
     Forall (fun c => forall l, In l long -> spring_ends l <> spring_ends c)
            cross).
Proof.
  intros Hsev Hn. destruct (dict_get_recognized _ Hsev) as [p Hp].
  eexists _, p, _, _. split; [apply generate_layout; [exact Hp|lia]|].
  cbn [springs]. rewrite !flat_map_range_3.
  split; [reflexivity|].
  split; [rewrite !length_app, !length_leaflet_longitudinal; lia|].
  split.
  - intros H16. apply Forall_forall. intros c Hc.
    apply (in_three_blocks (leaflet_cross n p)) in Hc.
    destruct Hc as (k & Hk & Hc). unfold leaflet_cross in Hc.
    rewrite (cross_skip_below_16 n H16) in Hc.
    apply in_map_iff in Hc. destruct Hc as (i & <- & Hi).
    apply in_py_range in Hi; [|lia]. destruct Hi as (j & Hj & -> & Hlt).
    exists (mk_spring (k * n + (0 + j * 1)) (k * n + (0 + j * 1) + 1)
              (spring_stiffness p) (literal 0 0)).
    split; [|split; reflexivity].
    apply (in_three_blocks (leaflet_longitudinal n p)). exists k.
    split; [exact Hk|]. unfold leaflet_longitudinal.
    apply in_map_iff. exists (0 + j * 1). split; [reflexivity|].
    apply in_range. lia.
  - intros H16. pose proof (cross_skip_from_16 n H16) as Hskip.
    apply Forall_forall. intros c Hc l Hl.
    apply (in_three_blocks (leaflet_cross n p)) in Hc.
    destruct Hc as (k & _ & Hc). unfold leaflet_cross in Hc.
    apply in_map_iff in Hc. destruct Hc as (i & <- & _).
    apply (in_three_blocks (leaflet_longitudinal n p)) in Hl.
    destruct Hl as (k' & _ & Hl). unfold leaflet_longitudinal in Hl.
    apply in_map_iff in Hl. destruct Hl as (i' & <- & _).
    unfold spring_ends. cbn [s_idx1 s_idx2]. intros [= H1 H2]. lia.
Qed.

(** X4: each leaflet of a generated model ([n >= 2]) is one chain: a
    longitudinal spring joins every two neighbours of the block, so every
    vertex of the model is an endpoint of some spring, and a beam spans every
    three consecutive vertices of the block. *)
Theorem every_leaflet_is_a_chain (severity : string) (n : Z) (r len : F) :
  recognized severity -> 2 <= n ->
  exists M p,
    generate_aortic_valve n r len severity = Ok (M, p) /\
    (forall k i, 0 <= k < 3 -> 0 <= i < n - 1 ->
       In (mk_spring (k * n + i) (k * n + i + 1) (spring_stiffness p)
             (literal 0 0))
          (springs M)) /\
    (forall j, 0 <= j < Z.of_nat (length (vertices M)) ->
       exists s, In s (springs M) /\ (s_idx1 s = j \/ s_idx2 s = j)) /\
    (forall k i, 0 <= k < 3 -> 0 <= i < n - 2 ->
       In (mk_beam (k * n + i) (k * n + i + 1) (k * n + i + 2)
             (beam_rigidity p))
          (beams M)).
Proof.
  intros Hsev Hn. destruct (dict_get_recognized _ Hsev) as [p Hp].
  eexists _, p. split; [apply generate_layout; [exact Hp|lia]|].
  cbn [vertices springs beams]. rewrite !flat_map_range_3.
  assert (Hchain : forall k i, 0 <= k < 3 -> 0 <= i < n - 1 ->
            In (mk_spring (k * n + i) (k * n + i + 1) (spring_stiffness p)
                  (literal 0 0))
               ((leaflet_longitudinal n p 0 ++ leaflet_longitudinal n p 1 ++
                 leaflet_longitudinal n p 2) ++
                leaflet_cross n p 0 ++ leaflet_cross n p 1 ++ leaflet_cross n p 2)).
  { intros k i Hk Hi. apply in_or_app. left.
    apply (in_three_blocks (leaflet_longitudinal n p)). exists k.
    split; [exact Hk|]. unfold leaflet_longitudinal.
    apply in_map_iff. exists i. split; [reflexivity|]. now apply in_range. }
  split; [exact Hchain|]. split.
  - rewrite !length_app, !length_leaflet_vertices. intros j Hj.
    assert (Hq : 0 <= j / n < 3).
    { split; [apply Z.div_pos; lia|apply Z.div_lt_upper_bound; lia]. }
    pose proof (Z.mod_pos_bound j n ltac:(lia)) as Hm.
    pose proof (Z.div_mod j n ltac:(lia)) as Hdm.
    destruct (Z.ltb_spec (j mod n) (n - 1)).
    + eexists. split; [apply (Hchain (j / n) (j mod n)); lia|].
      left. cbn [s_idx1]. lia.
    + eexists. split; [apply (Hchain (j / n) (j mod n - 1)); lia|].
      right. cbn [s_idx2]. lia.
  - intros k i Hk Hi.
    apply (in_three_blocks (leaflet_beams n p)). exists k.
    split; [exact Hk|]. unfold leaflet_beams.
    apply in_map_iff. exists i. split; [reflexivity|]. now apply in_range.
Qed.

End Duplicates.

Lemma cross_springs_double_the_chain_below_16_witness :
  recognized "healthy" /\ 2 <= 4 /\
  exists M p long cross,
    generate_aortic_valve (PF := R_float) 4 (literal 1 0) (literal 12 (-1))
      "healthy" = Ok (M, p) /\
    springs M = long ++ cross /\
    length long = 9%nat /\
    Forall (fun c => exists l, In l long /\ spring_ends l = spring_ends c /\
                               s_stiffness c
                               = fmul (s_stiffness l) (literal 5 (-1)))
           cross.
Proof.
  assert (H2 : 2 <= 4) by lia. assert (H16 : 4 < 16) by lia.
  split; [exact healthy_recognized|]. split; [exact H2|].
  destruct (cross_springs_double_the_chain_below_16 (PF := R_float) "healthy" 4
              (literal 1 0) (literal 12 (-1)) healthy_recognized H2)
    as (M & p & long & cross & Hgen & Hs & Hl & Hdup & _).
  exists M, p, long, cross. split; [exact Hgen|]. split; [exact Hs|].
  split; [exact Hl|exact (Hdup H16)].
Defined.

Lemma every_leaflet_is_a_chain_witness :
  recognized "healthy" /\ 2 <= 4 /\
  exists M p,
    generate_aortic_valve (PF := R_float) 4 (literal 1 0) (literal 12 (-1))
      "healthy" = Ok (M, p) /\
    (forall j, 0 <= j < Z.of_nat (length (vertices M)) ->
       exists s, In s (springs M) /\ (s_idx1 s = j \/ s_idx2 s = j)).
Proof.
  assert (H2 : 2 <= 4) by lia.
  split; [exact healthy_recognized|]. split; [exact H2|].
  destruct (every_leaflet_is_a_chain (PF := R_float) "healthy" 4
              (literal 1 0) (literal 12 (-1)) healthy_recognized H2)
    as (M & p & Hgen & _ & Hv & _).
  exists M, p. split; [exact Hgen|exact Hv].
Defined.

(** X5: the cross springs of a generated model ([n >= 2]) start at the
    multiples of the skip within their leaflet, span exactly one skip, and
    stop short of the tip: the last vertex of a leaflet is never an endpoint
    of a cross spring. *)
Theorem cross_springs_stop_short_of_the_tip {F : Type} {PF : PyFloat F}
    (severity : string) (n : Z) (r len : F) :
  recognized severity -> 2 <= n ->
  exists M p long cross,
    generate_aortic_valve n r len severity = Ok (M, p) /\
    springs M = long ++ cross /\
    length long = Z.to_nat (3 * (n - 1)) /\
    Forall (fun c => exists k,
              0 <= k < 3 /\
              k * n <= s_idx1 c /\
              (s_idx1 c - k * n) mod Z.max 1 (n / 8) = 0 /\
              s_idx2 c = s_idx1 c + Z.max 1 (n / 8) /\
              s_idx2 c < k * n + (n - 1))
           cross.
Proof.
  intros Hsev Hn. destruct (dict_get_recognized _ Hsev) as [p Hp].
  eexists _, p, _, _. split; [apply generate_layout; [exact Hp|lia]|].
  cbn [springs]. rewrite !flat_map_range_3.
  split; [reflexivity|].
  split; [rewrite !length_app, !length_leaflet_longitudinal; lia|].
  apply Forall_forall. intros c Hc.
  apply (in_three_blocks (leaflet_cross n p)) in Hc.
  destruct Hc as (k & Hk & Hc). exists k. split; [exact Hk|].
  unfold leaflet_cross, cross_skip in Hc.
  apply in_map_iff in Hc. destruct Hc as (i & <- & Hi).
  apply in_py_range in Hi; [|lia]. destruct Hi as (j & Hj & -> & Hlt).
  cbn [s_idx1 s_idx2].
  assert (Hs : 0 < Z.max 1 (n / 8)) by lia.
  split; [nia|]. split; [|split; [reflexivity|lia]].
  replace (k * n + (0 + j * Z.max 1 (n / 8)) - k * n)
    with (j * Z.max 1 (n / 8)) by lia.
  apply Z.mod_mul. lia.
Qed.

Lemma cross_springs_stop_short_of_the_tip_witness :
  recognized "healthy" /\ 2 <= 32 /\
  exists M p long cross,
    generate_aortic_valve (PF := R_float) 32 (literal 1 0) (literal 12 (-1))
      "healthy" = Ok (M, p) /\
    springs M = long ++ cross /\
    length long = 93%nat.
Proof.
  assert (H2 : 2 <= 32) by lia.
  split; [exact healthy_recognized|]. split; [exact H2|].
  destruct (cross_springs_stop_short_of_the_tip (PF := R_float) "healthy" 32
              (literal 1 0) (literal 12 (-1)) healthy_recognized H2)
    as (M & p & long & cross & Hgen & Hs & Hl & _).
  exists M, p, long, cross. split; [exact Hgen|]. split; [exact Hs|exact Hl].
Defined.

(** * The geometry of a generated model over the reals *)

(** ** Every vertex of a generated model *)

Lemma generate_vertices {F : Type} {PF : PyFloat F} (severity : string)
    (n : Z) (r len : F) (p : params F) :
  dict_get severity_params severity = Ok p -> 2 <= n ->
  exists M,
    generate_aortic_valve n r len severity = Ok (M, p) /\
    length (vertices M) = Z.to_nat (3 * n) /\
    forall k i, 0 <= k < 3 -> 0 <= i < n ->
      nth_error (vertices M) (Z.to_nat (k * n + i)) =
      Some (vertex_at r (fmul len (leaflet_length_factor p)) p (theta_center k)
              (int_truediv i (n - 1))).
Proof.
  intros Hp Hn. eexists. split; [apply generate_layout; [exact Hp|lia]|].
  cbn [vertices]. rewrite flat_map_range_3.
  set (blk := leaflet_vertices n r (fmul len (leaflet_length_factor p)) p).
  assert (Hlen : forall k, length (blk k) = Z.to_nat n)
    by (intro; apply length_leaflet_vertices).
  split; [rewrite !length_app, !Hlen; lia|].
  intros k i Hk Hi. rewrite (nth_error_three_blocks blk) by assumption.
  apply nth_error_leaflet_vertices. assumption.
Qed.

(** The length factors of the table lie in (0, 1]. *)
Lemma R_length_factor (severity : string) (p : params R) :
  dict_get severity_params severity = Ok p ->
  (0 < leaflet_length_factor p <= 1)%R.
Proof.
  unfold severity_params. cbn [dict_get].
  repeat match goal with
  | |- (if String.eqb ?a severity then _ else _) = _ -> _ =>
      destruct (String.eqb a severity);
      [intros [= <-]; cbn; lra|]
  end.
  discriminate.
Qed.

Lemma R_truediv_unit (i n : Z) :
  2 <= n -> 0 <= i < n ->
  (0 <= int_truediv (F := R) i (n - 1) <= 1)%R.
Proof.
  intros Hn Hi. cbn [int_truediv R_float].
  assert (Hd : (0 < IZR (n - 1))%R) by (apply IZR_lt; lia).
  assert (Hi0 : (0 <= IZR i)%R) by (apply IZR_le; lia).
  assert (Hi1 : (IZR i <= IZR (n - 1))%R) by (apply IZR_le; lia).
  split.
  - apply Rmult_le_pos; [exact Hi0|]. left. now apply Rinv_0_lt_compat.
  - apply (Rmult_le_reg_r (IZR (n - 1))); [exact Hd|].
    unfold Rdiv. rewrite Rmult_assoc, Rinv_l by lra. lra.
Qed.

(** X6: over the reals, with a radius [r >= 0] and a length [len >= 0], the
    vertex [i] of every leaflet of a generated model lies at distance
    [r + L * i / (n - 1)] from the origin, [L] the length times the
    severity's length factor; so every vertex lies between the circle of
    radius [r] and the circle of radius [r + len], and the last vertex of
    leaflet [k] is the point at distance [r + L] on the ray of angle
    [k * (2 pi / 3)]. *)
Theorem vertices_between_annulus_and_tip (severity : string) (n : Z)
    (r len : R) (k i : Z) :
  recognized severity -> 2 <= n -> 0 <= k < 3 -> 0 <= i < n ->
  (0 <= r)%R -> (0 <= len)%R ->
  exists M p x y,
    generate_aortic_valve n r len severity = Ok (M, p) /\
    nth_error (vertices M) (Z.to_nat (k * n + i)) = Some (x, y) /\
    sqrt (x * x + y * y)
    = (r + len * leaflet_length_factor p * (IZR i / IZR (n - 1)))%R /\
    (r <= sqrt (x * x + y * y) <= r + len)%R /\
    (i = n - 1 ->
     x = ((r + len * leaflet_length_factor p) * cos (IZR k * (2 * PI / 3)))%R /\
     y = ((r + len * leaflet_length_factor p) * sin (IZR k * (2 * PI / 3)))%R).
Proof.
  intros Hsev Hn Hk Hi Hr Hlen.
  destruct (dict_get_recognized (F := R) _ Hsev) as [p Hp].
  destruct (generate_vertices severity n r len p Hp Hn) as (M & Hgen & _ & Hat).
  pose proof (Hat k i Hk Hi) as Hv.
  pose proof (R_length_factor severity p Hp) as Hf.
  pose proof (R_truediv_unit i n Hn Hi) as Ht.
  cbn [int_truediv R_float] in Ht, Hv.
  set (t := (IZR i / IZR (n - 1))%R) in *.
  set (f := leaflet_length_factor p) in *.
  assert (HL : (0 <= len * f * t <= len)%R).
  { split.
    - apply Rmult_le_pos; [apply Rmult_le_pos; lra|lra].
    - assert ((len * f) * t <= len * 1)%R; [|lra].
      apply Rmult_le_compat; try lra.
      + apply Rmult_le_pos; lra.
      + assert (len * f <= len * 1)%R; [|lra].
        apply Rmult_le_compat_l; lra. }
  unfold vertex_at in Hv. cbn [fadd fmul np_cos np_sin R_float] in Hv.
  eexists M, p, _, _. split; [exact Hgen|]. split; [exact Hv|].
  assert (Hd : sqrt
            ((r + len * f * t) * cos (theta_center k + deflection p t) *
             ((r + len * f * t) * cos (theta_center k + deflection p t)) +
             (r + len * f * t) * sin (theta_center k + deflection p t) *
             ((r + len * f * t) * sin (theta_center k + deflection p t)))
          = (r + len * f * t)%R) by (apply polar_distance; lra).
  split; [exact Hd|]. split; [rewrite Hd; lra|].
  intros ->.
  assert (Ht1 : t = 1%R).
  { unfold t. apply Rdiv_diag. apply not_0_IZR. lia. }
  rewrite Ht1, R_deflection_one, Rplus_0_r, Rmult_1_r.
  unfold theta_center, n_leaflets. cbn [fmul fdiv of_int np_pi R_float].
  split; reflexivity.
Qed.

(** X7: over the reals the three leaflets of a generated model are copies of
    one another: vertex [i] of leaflet [k] is vertex [i] of leaflet 0 turned
    about the origin by [k * (2 pi / 3)]. *)
Theorem leaflets_are_rotations_of_the_first (severity : string) (n : Z)
    (r len : R) (k i : Z) :
  recognized severity -> 2 <= n -> 0 <= k < 3 -> 0 <= i < n ->
  exists M p x0 y0 xk yk,
    generate_aortic_valve n r len severity = Ok (M, p) /\
    nth_error (vertices M) (Z.to_nat i) = Some (x0, y0) /\
    nth_error (vertices M) (Z.to_nat (k * n + i)) = Some (xk, yk) /\
    xk = (x0 * cos (IZR k * (2 * PI / 3)) - y0 * sin (IZR k * (2 * PI / 3)))%R /\
    yk = (x0 * sin (IZR k * (2 * PI / 3)) + y0 * cos (IZR k * (2 * PI / 3)))%R.
Proof.
  intros Hsev Hn Hk Hi.
  destruct (dict_get_recognized (F := R) _ Hsev) as [p Hp].
  destruct (generate_vertices severity n r len p Hp Hn) as (M & Hgen & _ & Hat).
  pose proof (Hat k i Hk Hi) as Hv.
  pose proof (Hat 0 i ltac:(lia) Hi) as Hv0.
  replace (0 * n + i) with i in Hv0 by lia.
  unfold vertex_at in Hv, Hv0.
  cbn [fadd fmul np_cos np_sin R_float] in Hv, Hv0.
  eexists M, p, _, _, _, _. split; [exact Hgen|].
  split; [exact Hv0|]. split; [exact Hv|].
  assert (H0 : theta_center (F := R) 0 = 0%R).
  { unfold theta_center. cbn [fmul of_int R_float]. apply Rmult_0_l. }
  assert (Hc : theta_center (F := R) k = (IZR k * (2 * PI / 3))%R) by reflexivity.
  rewrite H0, Hc, Rplus_0_l, cos_plus, sin_plus.
  split; ring.
Qed.

Lemma vertices_between_annulus_and_tip_witness :
  recognized "severe" /\ 2 <= 4 /\ 0 <= 1 < 3 /\ 0 <= 3 < 4 /\
  (0 <= 1)%R /\ (0 <= 2)%R /\
  exists M p x y,
    generate_aortic_valve 4 1%R 2%R "severe" = Ok (M, p) /\
    nth_error (vertices M) 7 = Some (x, y) /\
    (1 <= sqrt (x * x + y * y) <= 1 + 2)%R.
Proof.
  assert (Hs : recognized "severe") by (right; right; right; left; reflexivity).
  assert (H2 : 2 <= 4) by lia. assert (Hk : 0 <= 1 < 3) by lia.
  assert (Hi : 0 <= 3 < 4) by lia.
  assert (Hr : (0 <= 1)%R) by lra. assert (Hl : (0 <= 2)%R) by lra.
  split; [exact Hs|]. split; [exact H2|]. split; [exact Hk|].
  split; [exact Hi|]. split; [exact Hr|]. split; [exact Hl|].
  destruct (vertices_between_annulus_and_tip "severe" 4 1%R 2%R 1 3
              Hs H2 Hk Hi Hr Hl)
    as (M & p & x & y & Hgen & Hv & _ & Hb & _).
  exists M, p, x, y. split; [exact Hgen|]. split; [exact Hv|exact Hb].
Defined.

Lemma leaflets_are_rotations_of_the_first_witness :
  recognized "healthy" /\ 2 <= 4 /\ 0 <= 2 < 3 /\ 0 <= 1 < 4 /\
  exists M p x0 y0 xk yk,
    generate_aortic_valve 4 1%R (literal 12 (-1)) "healthy" = Ok (M, p) /\
    nth_error (vertices M) 1 = Some (x0, y0) /\
    nth_error (vertices M) 9 = Some (xk, yk) /\
    xk = (x0 * cos (2 * (2 * PI / 3)) - y0 * sin (2 * (2 * PI / 3)))%R.
Proof.
  assert (H2 : 2 <= 4) by lia. assert (Hk : 0 <= 2 < 3) by lia.
  assert (Hi : 0 <= 1 < 4) by lia.
  split; [exact healthy_recognized|]. split; [exact H2|]. split; [exact Hk|].
  split; [exact Hi|].
  destruct (leaflets_are_rotations_of_the_first "healthy" 4 1%R
              (literal 12 (-1)) 2 1 healthy_recognized H2 Hk Hi)
    as (M & p & x0 & y0 & xk & yk & Hgen & H0 & Hv & Hx & _).
  exists M, p, x0, y0, xk, yk. split; [exact Hgen|]. split; [exact H0|].
  split; [exact Hv|exact Hx].
Defined.

(** ** The sector of a leaflet *)

Lemma R_mobility (severity : string) (p : params R) :
  dict_get severity_params severity = Ok p -> (0 < mobility p <= 1)%R.
Proof.
  unfold severity_params. cbn [dict_get].
  repeat match goal with
  | |- (if String.eqb ?a severity then _ else _) = _ -> _ =>
      destruct (String.eqb a severity);
      [intros [= <-]; cbn; lra|]
  end.
  discriminate.
Qed.

Lemma R_deflection_bounds (p : params R) (t : R) :
  (0 < mobility p <= 1)%R -> (0 <= t <= 1)%R ->
  (0 <= deflection p t <= 3 / 10 * mobility p)%R.
Proof.
  intros Hm Ht. unfold deflection, curvature.
  cbn [fmul fsub fpow of_int np_sin np_pi literal R_float].
  change (powerRZ 10 (-1)) with (/ (10 * 1))%R.
  change (powerRZ t 2) with (t * (t * 1))%R.
  assert (Hpi : (0 < PI)%R) by apply PI_RGT_0.
  assert (Hs0 : (0 <= sin (PI * t))%R) by (apply sin_ge_0; nra).
  pose proof (SIN_bound (PI * t)) as [_ Hs1].
  assert (Hc : (0 <= 1 - t * (t * 1) <= 1)%R) by nra.
  set (s := sin (PI * t)) in *. set (c := (1 - t * (t * 1))%R) in *.
  set (m := mobility p) in *.
  replace (3 * / (10 * 1) * c * m * s)%R with (3 / 10 * m * (c * s))%R by field.
  assert (Hcs : (0 <= c * s <= 1)%R) by nra.
  split; nra.
Qed.

(** X8: over the reals every leaflet of a generated model bends one way
    only and by at most 0.3 radian: with a radius [r >= 0] and a length
    [len >= 0], vertex [i] of leaflet [k] has polar radius
    [rho = r + L * i / (n - 1)] and polar angle [k * (2 pi / 3) + delta]
    with [0 <= delta <= 0.3 * mobility <= 0.3].  The leaflets are 2 pi / 3
    apart, so their sectors do not meet. *)
Theorem leaflets_stay_in_their_sector (severity : string) (n : Z)
    (r len : R) (k i : Z) :
  recognized severity -> 2 <= n -> 0 <= k < 3 -> 0 <= i < n ->
  (0 <= r)%R -> (0 <= len)%R ->
  exists M p rho delta,
    generate_aortic_valve n r len severity = Ok (M, p) /\
    nth_error (vertices M) (Z.to_nat (k * n + i))
    = Some ((rho * cos (IZR k * (2 * PI / 3) + delta))%R,
            (rho * sin (IZR k * (2 * PI / 3) + delta))%R) /\
    rho = (r + len * leaflet_length_factor p * (IZR i / IZR (n - 1)))%R /\
    (0 <= rho)%R /\
    (0 <= delta <= 3 / 10 * mobility p)%R /\
    (3 / 10 * mobility p <= 3 / 10)%R /\
    (3 / 10 < 2 * PI / 3)%R.
Proof.
  intros Hsev Hn Hk Hi Hr Hlen.
  destruct (dict_get_recognized (F := R) _ Hsev) as [p Hp].
  destruct (generate_vertices severity n r len p Hp Hn) as (M & Hgen & _ & Hv).
  specialize (Hv k i Hk Hi).
  pose proof (R_length_factor severity p Hp) as Hf.
  pose proof (R_mobility severity p Hp) as Hm.
  pose proof (R_truediv_unit i n Hn Hi) as Ht.
  pose proof (R_deflection_bounds p _ Hm Ht) as Hd.
  cbn [int_truediv R_float] in Ht, Hv, Hd.
  exists M, p, (r + len * leaflet_length_factor p * (IZR i / IZR (n - 1)))%R,
    (deflection p (IZR i / IZR (n - 1))%R).
  split; [exact Hgen|]. split; [exact Hv|]. split; [reflexivity|].
  split.
  { assert (0 <= len * leaflet_length_factor p * (IZR i / IZR (n - 1)))%R;
      [|lra].
    apply Rmult_le_pos; [apply Rmult_le_pos; lra|lra]. }
  split; [exact Hd|]. split; [lra|].
  pose proof PI_4 as H4. pose proof PI_RGT_0. 
  assert (3 < PI)%R; [|lra].
  pose proof PI2_3_2. unfold PI2 in *. lra.
Qed.

Lemma leaflets_stay_in_their_sector_witness :
  recognized "healthy" /\ 2 <= 4 /\ 0 <= 1 < 3 /\ 0 <= 2 < 4 /\
  (0 <= 1)%R /\ (0 <= 2)%R /\
  exists M p rho delta,
    generate_aortic_valve 4 1%R 2%R "healthy" = Ok (M, p) /\
    nth_error (vertices M) 6
    = Some ((rho * cos (1 * (2 * PI / 3) + delta))%R,
            (rho * sin (1 * (2 * PI / 3) + delta))%R) /\
    (0 <= delta <= 3 / 10 * mobility p)%R.
Proof.
  assert (H2 : 2 <= 4) by lia. assert (Hk : 0 <= 1 < 3) by lia.
  assert (Hi : 0 <= 2 < 4) by lia.
  assert (Hr : (0 <= 1)%R) by lra. assert (Hl : (0 <= 2)%R) by lra.
  split; [exact healthy_recognized|]. split; [exact H2|]. split; [exact Hk|].
  split; [exact Hi|]. split; [exact Hr|]. split; [exact Hl|].
  destruct (leaflets_stay_in_their_sector "healthy" 4 1%R 2%R 1 2
              healthy_recognized H2 Hk Hi Hr Hl)
    as (M & p & rho & delta & Hgen & Hv & _ & _ & Hd & _).
  exists M, p, rho, delta. split; [exact Hgen|]. split; [exact Hv|exact Hd].
Defined.

(** * The files *)

(** ** Blanks *)

Lemma lstrip_all_space (s : string) : all_space s = true -> lstrip s = EmptyString.
Proof.
  induction s as [|c s IH]; [reflexivity|].
  cbn [all_space lstrip]. intros H. apply andb_true_iff in H.
  destruct H as [Hc Hs]. rewrite Hc. auto.
Qed.

Lemma strip_all_space (s : string) : all_space s = true -> strip s = EmptyString.
Proof. intros H. unfold strip. now rewrite lstrip_all_space. Qed.

Lemma rstrip_rstrip (s : string) : rstrip (rstrip s) = rstrip s.
Proof.
  induction s as [|c s IH]; [reflexivity|].
  cbn [rstrip]. case_eq (rstrip s).
  - intros _. destruct (is_space c) eqn:Hc; [reflexivity|].
    cbn [rstrip]. now rewrite Hc.
  - intros d r Hr. rewrite Hr in IH. cbn [rstrip]. cbn [rstrip] in IH.
    rewrite IH. reflexivity.
Qed.

Lemma rstrip_head (c : ascii) (s : string) :
  is_space c = false -> exists r, rstrip (String c s) = String c r.
Proof.
  intros Hc. cbn [rstrip]. destruct (rstrip s); [|eexists; reflexivity].
  rewrite Hc. eexists; reflexivity.
Qed.

Lemma lstrip_head (s : string) :
  lstrip s = EmptyString \/
  exists c t, lstrip s = String c t /\ is_space c = false.
Proof.
  induction s as [|c s IH]; [left; reflexivity|].
  cbn [lstrip]. destruct (is_space c) eqn:Hc; [exact IH|].
  right. exists c, s. split; [reflexivity|exact Hc].
Qed.

Lemma strip_strip (s : string) : strip (strip s) = strip s.
Proof.
  unfold strip. destruct (lstrip_head s) as [->|(c & t & -> & Hc)];
    [reflexivity|].
  destruct (rstrip_head c t Hc) as [r Hr]. rewrite Hr.
  cbn [lstrip]. rewrite Hc, <- Hr. apply rstrip_rstrip.
Qed.

Lemma py_int_strip (s : string) : py_int (strip s) = py_int s.
Proof. unfold py_int. now rewrite strip_strip. Qed.


(** ** Files that do not hold what their header says *)

Lemma for_in_app {A S} (xs ys : list A) (body : A -> S -> result S) (s : S) :
  for_in (xs ++ ys) body s = (s' <- for_in xs body s ;; for_in ys body s').
Proof.
  revert s. induction xs as [|x xs IH]; intros s; [reflexivity|].
  cbn [app for_in]. destruct (body x s); cbn [bind]; [apply IH|reflexivity].
Qed.


(** The same loop on a text that holds more lines than the loop reads. *)
Lemma for_in_lines_long {A R I}
    (body : I -> list R * string -> result (list R * string))
    (line : A -> string) (g : A -> R) :
  (forall i rows x rest,
     body i (rows, (line x ++ rest)%string) = Ok (rows ++ [g x], rest)) ->
  forall (xs : list A) (idx : list I) (rows : list R) (rest : string),
    (length idx <= length xs)%nat ->
    for_in idx body (rows, (lines_text (map line xs) ++ rest)%string)
    = Ok (rows ++ map g (firstn (length idx) xs),
          (lines_text (map line (skipn (length idx) xs)) ++ rest)%string).
Proof.
  intros Hbody xs idx rows rest Hlen.
  rewrite <- (firstn_skipn (length idx) xs) at 1.
  rewrite map_app, lines_text_app, append_assoc.
  apply (for_in_lines body line g Hbody).
  rewrite firstn_length_le; [reflexivity|exact Hlen].
Qed.

Lemma readline_empty : readline EmptyString = (EmptyString, EmptyString).
Proof. reflexivity. Qed.

Lemma header_line (k : Z) (rest : string) :
  readline (py_str k ++ newline ++ rest) = ((py_str k ++ newline)%string, rest).
Proof. apply readline_line, no_space_no_newline, no_space_py_str. Qed.

Section FileShapes.
Context {F : Type} {PF : PyFloat F} {FT : FloatText F}.
Variable rr : F -> F.
Hypothesis py_float_format_e' : forall x, py_float (format_e x) = Ok (rr x).
Hypothesis no_space_format : forall x, no_space (format_e x) = true.
Hypothesis format_not_empty : forall x, format_e x <> EmptyString.




Lemma leading_vertex_rows (k : nat) (vs : list (F * F)) (rest : string) :
  (k <= length vs)%nat ->
  read_vertex_file
    (py_str (Z.of_nat k) ++ newline ++ lines_text (map vertex_line vs) ++ rest)
  = Ok (Array2D 2 (map (fun v => [rr (fst v); rr (snd v)]) (firstn k vs))).
Proof.
  intros Hk. unfold read_vertex_file. rewrite header_line, py_int_count_line.
  cbn [bind]. destruct (Z.ltb_spec (Z.of_nat k) 0); [lia|].
  rewrite (for_in_lines_long _ vertex_line (fun v => [rr (fst v); rr (snd v)]))
    by ((apply read_vertex_line; assumption)
        || (rewrite length_range_of_nat; exact Hk)).
  rewrite length_range_of_nat. reflexivity.
Qed.

Lemma leading_spring_rows (k : nat) (ss : list (spring F)) (rest : string) :
  (k <= length ss)%nat ->
  read_spring_rows
    (py_str (Z.of_nat k) ++ newline ++ lines_text (map spring_line ss) ++ rest)
  = Ok (map (fun s => mk_spring (s_idx1 s) (s_idx2 s) (rr (s_stiffness s))
                        (rr (s_damping s))) (firstn k ss)).
Proof.
  intros Hk. unfold read_spring_rows. rewrite header_line, py_int_count_line.
  cbn [bind].
  rewrite (for_in_lines_long _ spring_line
             (fun s => mk_spring (s_idx1 s) (s_idx2 s) (rr (s_stiffness s))
                         (rr (s_damping s))))
    by ((apply read_spring_line; assumption)
        || (rewrite length_range_of_nat; exact Hk)).
  rewrite length_range_of_nat. reflexivity.
Qed.

Lemma leading_beam_rows (k : nat) (bs : list (beam F)) (rest : string) :
  (k <= length bs)%nat ->
  read_beam_rows
    (py_str (Z.of_nat k) ++ newline ++ lines_text (map beam_line bs) ++ rest)
  = Ok (map (fun b => mk_beam (b_idx1 b) (b_idx2 b) (b_idx3 b)
                        (rr (b_rigidity b))) (firstn k bs)).
Proof.
  intros Hk. unfold read_beam_rows. rewrite header_line, py_int_count_line.
  cbn [bind].
  rewrite (for_in_lines_long _ beam_line
             (fun b => mk_beam (b_idx1 b) (b_idx2 b) (b_idx3 b)
                         (rr (b_rigidity b))))
    by ((apply read_beam_line; assumption)
        || (rewrite length_range_of_nat; exact Hk)).
  rewrite length_range_of_nat. reflexivity.
Qed.

End FileShapes.

Section Headers.
Context {F : Type} {PF : PyFloat F} {FT : FloatText F}.

(** X10: a file whose first line is blank (the empty file, for one) makes
    each of the three readers raise [ValueError]: [int] of the stripped
    line. *)
Theorem blank_header_raises_value_error (f : string) :
  all_space (fst (readline f)) = true ->
  read_vertex_file f = Raise ValueError /\
  read_spring_file f = Raise ValueError /\
  read_beam_file f = Raise ValueError.
Proof.
  intros Hb.
  unfold read_vertex_file, read_spring_file, read_spring_rows, read_beam_file,
    read_beam_rows.
  destruct (readline f) as [l f']. cbn [fst] in Hb.
  rewrite py_int_strip. unfold py_int. rewrite (strip_all_space l Hb).
  repeat split; reflexivity.
Qed.

(** X11: a negative count in the header: the vertex reader raises
    [ValueError] (the array cannot be allocated); the spring reader and the
    beam reader read no row and return the empty vector, whatever follows
    the header.  The same holds of the spring and beam readers for a count
    of 0, where the vertex reader returns the matrix of no rows. *)
Theorem non_positive_header (k : Z) (rest : string) :
  k <= 0 ->
  read_vertex_file (py_str k ++ newline ++ rest)
  = (if k <? 0 then Raise ValueError else Ok (Array2D 2 [])) /\
  read_spring_file (py_str k ++ newline ++ rest) = Ok (Array1D []) /\
  read_beam_file (py_str k ++ newline ++ rest) = Ok (Array1D []).
Proof.
  intros Hk.
  assert (Hr : range k = []) by (apply py_range_nil; lia).
  unfold read_vertex_file, read_spring_file, read_spring_rows, read_beam_file,
    read_beam_rows.
  rewrite header_line, py_int_count_line. cbn [bind]. rewrite Hr.
  cbn [bind for_in fst map np_array].
  split; [|split; reflexivity].
  destruct (k <? 0); reflexivity.
Qed.

End Headers.


(** X13: the readers trust the header.  On a file that holds the lines of
    [k] or more rows, a header of [k] makes each reader return the first [k]
    rows (each float the binary64 nearest to its written decimal) and ignore
    everything after them, further rows or any other text. *)
Theorem header_decides_the_rows_read (k : nat)
    (vs : list (spec_float * spec_float)) (ss : list (spring spec_float))
    (bs : list (beam spec_float)) (rest : string) :
  (k <= length vs)%nat -> (k <= length ss)%nat -> (k <= length bs)%nat ->
  read_vertex_file
    (py_str (Z.of_nat k) ++ newline ++ lines_text (map vertex_line vs) ++ rest)
  = Ok (Array2D 2 (map (fun v => [reread (fst v); reread (snd v)])
                       (firstn k vs))) /\
  read_spring_rows
    (py_str (Z.of_nat k) ++ newline ++ lines_text (map spring_line ss) ++ rest)
  = Ok (map (fun s => mk_spring (s_idx1 s) (s_idx2 s) (reread (s_stiffness s))
                        (reread (s_damping s))) (firstn k ss)) /\
  read_beam_rows
    (py_str (Z.of_nat k) ++ newline ++ lines_text (map beam_line bs) ++ rest)
  = Ok (map (fun b => mk_beam (b_idx1 b) (b_idx2 b) (b_idx3 b)
                        (reread (b_rigidity b))) (firstn k bs)).
Proof.
  intros Hv Hs Hb. split; [|split].
  - apply (leading_vertex_rows reread);
      [apply py_float_format_e|apply no_space_format_e
      |apply format_e_not_empty|exact Hv].
  - apply (leading_spring_rows reread);
      [apply py_float_format_e|apply no_space_format_e
      |apply format_e_not_empty|exact Hs].
  - apply (leading_beam_rows reread);
      [apply py_float_format_e|apply no_space_format_e
      |apply format_e_not_empty|exact Hb].
Qed.

(** ** The index fields of the spring and beam files *)






(** ** A file of the other kind *)

Lemma py_int_scientific_text (s : bool) (q p : Z) :
  0 <= q < 10 ^ 7 -> py_int (scientific_text s q p) = Raise ValueError.
Proof.
  intros Hq. unfold py_int.
  rewrite strip_no_space by (apply no_space_scientific_text; assumption).
  assert (Hd : 0 <= q / 10 ^ 6 <= 9).
  { split; [apply Z.div_pos; lia|].
    assert (q / 10 ^ 6 < 10) by (apply Z.div_lt_upper_bound; lia). lia. }
  pose proof (is_digit_char _ Hd) as Hc.
  set (d0 := digit_char (q / 10 ^ 6)) in *.
  set (tail := (fixed_digits 6 q ++ "e" ++ exponent_text p)%string).
  assert (Hsign : split_sign (scientific_text s q p)
                  = (s, String d0 (String "." tail))).
  { unfold scientific_text. fold d0.
    change (String d0 ("." ++ fixed_digits 6 q) ++ "e" ++ exponent_text p)%string
      with (String d0 (String "." tail)).
    destruct s; cbn [sign_text String.append]; [reflexivity|].
    apply split_sign_digit. assumption. }
  rewrite Hsign. cbn [all_digits]. rewrite Hc.
  change (is_digit ".") with false. reflexivity.
Qed.

Lemma py_int_format_e (x : spec_float) :
  py_int (b64_format_e x) = Raise ValueError.
Proof.
  unfold b64_format_e.
  destruct (decimal_of_float x) as [[[s q] p]|] eqn:E.
  - apply py_int_scientific_text. eapply decimal_of_float_digits; eassumption.
  - destruct x as [s| s | |s m e]; try reflexivity. destruct s; reflexivity.
Qed.

Lemma span_digits_all (ds : string) :
  all_digits ds = true -> span_digits ds = (ds, EmptyString).
Proof.
  induction ds as [|d ds IH]; [reflexivity|].
  cbn [all_digits span_digits]. intros H. apply andb_true_iff in H.
  destruct H as [Hd Hds]. rewrite Hd, (IH Hds). reflexivity.
Qed.

Lemma py_float_digits (neg : bool) (c : ascii) (t : string) :
  is_digit c = true -> all_digits t = true ->
  b64_py_float (sign_text neg ++ String c t)
  = Ok (float_of_decimal neg (digits_value (String c t) 0) 0).
Proof.
  intros Hc Ht. unfold b64_py_float.
  assert (Hall : all_digits (String c t) = true)
    by (cbn [all_digits]; rewrite Hc, Ht; reflexivity).
  rewrite strip_no_space
    by (rewrite no_space_app, no_space_sign_text;
        apply all_digits_no_space; exact Hall).
  assert (Hsign : split_sign (sign_text neg ++ String c t) = (neg, String c t)).
  { destruct neg; cbn [sign_text String.append]; [reflexivity|].
    apply split_sign_digit. assumption. }
  rewrite Hsign. destruct (digit_not_keyword c t Hc) as [-> ->].
  rewrite (span_digits_all _ Hall). rewrite append_nil_r.
  cbn [parse_exponent bind String.length Z.of_nat]. reflexivity.
Qed.

Lemma float_of_decimal_int (s : bool) (m : positive) :
  float_of_decimal s (Z.pos m) 0 = binary_round prec emax s m 0.
Proof.
  unfold float_of_decimal. change (Z.pos m <=? 0) with false.
  change (0 <=? 0) with true. cbv iota. change (10 ^ 0) with 1.
  rewrite Z.mul_1_r. reflexivity.
Qed.

(** [float(str(z)) = float(z)] in binary64. *)
Lemma py_float_py_str (z : Z) :
  b64_py_float (py_str z) = Ok (binary_normalize prec emax z 0 false).
Proof.
  unfold py_str. destruct (Z.eqb_spec z 0) as [->|Hz0]; [reflexivity|].
  destruct (Z.ltb_spec z 0) as [Hneg|Hpos].
  - destruct (fixed_digits_cons (ndigits (- z)) (- z)) as (c & t & E & Hc);
      [apply ndigits_pos; lia|].
    pose proof (all_digits_fixed (ndigits (- z)) (- z)) as Hall.
    pose proof (fixed_digits_value (- z) ltac:(lia)) as Hv.
    rewrite E in Hall, Hv |- *. cbn [all_digits] in Hall.
    apply andb_true_iff in Hall. destruct Hall as [_ Ht].
    change (String "-" (String c t)) with (sign_text true ++ String c t)%string.
    rewrite py_float_digits by assumption. rewrite Hv.
    destruct z as [|z|z]; try lia. cbn [Z.opp].
    rewrite float_of_decimal_int. reflexivity.
  - destruct (fixed_digits_cons (ndigits z) z) as (c & t & E & Hc);
      [apply ndigits_pos; lia|].
    pose proof (all_digits_fixed (ndigits z) z) as Hall.
    pose proof (fixed_digits_value z ltac:(lia)) as Hv.
    rewrite E in Hall, Hv |- *. cbn [all_digits] in Hall.
    apply andb_true_iff in Hall. destruct Hall as [_ Ht].
    change (String c t) with (sign_text false ++ String c t)%string at 1.
    rewrite py_float_digits by assumption. rewrite Hv.
    destruct z as [|z|z]; try lia.
    rewrite float_of_decimal_int. reflexivity.
Qed.

Lemma beam_body_on_spring_line (rows : list (beam spec_float))
    (s : spring spec_float) (rest : string) :
  (let '(beams, f) := (rows, (spring_line s ++ rest)%string) in
   let '(l, f) := readline f in
   let line := split (strip l) in
   a <- item line 0 ;;
   idx1 <- py_int a ;;
   b <- item line 1 ;;
   idx2 <- py_int b ;;
   c <- item line 2 ;;
   idx3 <- py_int c ;;
   d <- item line 3 ;;
   rigidity <- py_float d ;;
   Ok (beams ++ [mk_beam idx1 idx2 idx3 rigidity], f))
  = Raise ValueError.
Proof.
  unfold spring_line.
  replace ((format_6d (s_idx1 s) ++ " " ++ format_6d (s_idx2 s) ++ " " ++
            format_e (s_stiffness s) ++ " " ++ format_e (s_damping s) ++ newline)
           ++ rest)%string
    with ((format_6d (s_idx1 s) ++ " " ++ format_6d (s_idx2 s) ++ " " ++
           format_e (s_stiffness s) ++ " " ++ format_e (s_damping s))
          ++ newline ++ rest)%string
    by (rewrite !append_assoc; reflexivity).
  rewrite readline_line
    by (rewrite !no_newline_app, !no_newline_format_6d,
          !(no_newline_format (FT := b64_text) no_space_format_e); reflexivity).
  rewrite split_strip. unfold split.
  rewrite !append_assoc. unfold newline. cbn [String.append].
  rewrite !split_format_6d_blank by reflexivity.
  rewrite !(split_float_blank (FT := b64_text) no_space_format_e
             format_e_not_empty)
    by reflexivity.
  cbn [split_aux item nth_error bind].
  rewrite !py_int_py_str. cbn [bind].
  change (format_e (s_stiffness s)) with (b64_format_e (s_stiffness s)).
  rewrite py_int_format_e. reflexivity.
Qed.

Lemma spring_body_on_beam_line (i : Z) (rows : list (spring spec_float))
    (b : beam spec_float) (rest : string) :
  (let '(springs, f) := (rows, (beam_line b ++ rest)%string) in
   let '(l, f) := readline f in
   let line := split (strip l) in
   a <- item line 0 ;;
   idx1 <- py_int a ;;
   b <- item line 1 ;;
   idx2 <- py_int b ;;
   c <- item line 2 ;;
   stiffness <- py_float c ;;
   d <- item line 3 ;;
   damping <- py_float d ;;
   Ok (springs ++ [mk_spring idx1 idx2 stiffness damping], f))
  = Ok (rows ++ [mk_spring (b_idx1 b) (b_idx2 b)
                   (binary_normalize prec emax (b_idx3 b) 0 false)
                   (reread (b_rigidity b))], rest).
Proof.
  unfold beam_line.
  replace ((format_6d (b_idx1 b) ++ " " ++ format_6d (b_idx2 b) ++ " " ++
            format_6d (b_idx3 b) ++ " " ++ format_e (b_rigidity b) ++ newline)
           ++ rest)%string
    with ((format_6d (b_idx1 b) ++ " " ++ format_6d (b_idx2 b) ++ " " ++
           format_6d (b_idx3 b) ++ " " ++ format_e (b_rigidity b))
          ++ newline ++ rest)%string
    by (rewrite !append_assoc; reflexivity).
  rewrite readline_line
    by (rewrite !no_newline_app, !no_newline_format_6d,
          !(no_newline_format (FT := b64_text) no_space_format_e); reflexivity).
  rewrite split_strip. unfold split.
  rewrite !append_assoc. unfold newline. cbn [String.append].
  rewrite !split_format_6d_blank by reflexivity.
  rewrite !(split_float_blank (FT := b64_text) no_space_format_e
             format_e_not_empty)
    by reflexivity.
  cbn [split_aux item nth_error bind].
  rewrite !py_int_py_str. cbn [bind].
  cbn [py_float b64_text format_e].
  rewrite py_float_py_str. cbn [bind]. rewrite py_float_format_e. reflexivity.
Qed.

(** X15: the readers do not check what kind of file they are given
    (binary64 text).  The beam reader raises [ValueError] on a spring file of
    one spring or more: [int] of the stiffness.  The spring reader accepts
    every beam file: each beam is returned as a spring between its first two
    indices, with the third index as stiffness and the rigidity as
    damping. *)
Theorem readers_do_not_check_the_file_kind
    (pow : spec_float -> Z -> spec_float) (sin cos : spec_float -> spec_float)
    (s : spring spec_float) (ss : list (spring spec_float))
    (bs : list (beam spec_float)) :
  read_beam_file (PF := b64 pow sin cos) (write_spring_file (s :: ss))
  = Raise ValueError /\
  read_spring_rows (write_beam_file bs)
  = Ok (map (fun b => mk_spring (b_idx1 b) (b_idx2 b)
                        (of_int (PyFloat := b64 pow sin cos) (b_idx3 b))
                        (reread (b_rigidity b))) bs).
Proof.
  split.
  - unfold read_beam_file, read_beam_rows, write_spring_file.
    rewrite write_file_text, header_line, py_int_count_line. cbn [bind].
    assert (Hr : range (Z.of_nat (length (s :: ss)))
                 = 0 :: py_range (0 + 1) (Z.of_nat (length (s :: ss))) 1).
    { unfold range. apply py_range_cons; [lia|cbn [length]; lia]. }
    rewrite Hr. cbn [for_in map lines_text fold_right].
    fold (lines_text (map spring_line ss)). rewrite append_assoc.
    rewrite beam_body_on_spring_line. reflexivity.
  - unfold read_spring_rows, write_beam_file.
    rewrite write_file_text, header_line, py_int_count_line. cbn [bind].
    rewrite (for_in_lines _ beam_line
               (fun b => mk_spring (b_idx1 b) (b_idx2 b)
                           (binary_normalize prec emax (b_idx3 b) 0 false)
                           (reread (b_rigidity b))))
      by (apply spring_body_on_beam_line || apply length_range_of_nat).
    reflexivity.
Qed.

(** ** The empty model *)

(** X16: a resolution of 0 or less goes through the generator, the writers
    and the readers without an error and stops at the calculator: the model
    is empty, each of the three files holds the count 0 alone, the vertex
    file reads as the matrix of no rows and the spring and beam files as the
    empty vector, and on the matrix of no rows the calculator raises
    [ValueError] (the minimum of no radii), whatever the springs. *)
Theorem empty_model_stops_at_the_calculator {F : Type} {PF : PyFloat F}
    {FT : FloatText F} (hull : list (list F) -> option F)
    (severity : string) (n : Z) (r len : F) :
  recognized severity -> n <= 0 ->
  exists M p,
    generate_aortic_valve n r len severity = Ok (M, p) /\
    M = mk_model [] [] [] /\
    write_vertex_file (vertices M) = String "0" newline /\
    write_spring_file (springs M) = String "0" newline /\
    write_beam_file (beams M) = String "0" newline /\
    read_vertex_file (write_vertex_file (vertices M)) = Ok (Array2D 2 []) /\
    read_spring_file (write_spring_file (springs M)) = Ok (Array1D []) /\
    read_beam_file (write_beam_file (beams M)) = Ok (Array1D []) /\
    forall S, calculate_geometric_properties hull (Array2D 2 []) S
              = Raise ValueError.
Proof.
  intros Hsev Hn. destruct (dict_get_recognized _ Hsev) as [p Hp].
  exists (mk_model [] [] []), p.
  split; [apply generate_nonpositive; assumption|].
  repeat split; reflexivity.
Qed.

Lemma empty_model_stops_at_the_calculator_witness :
  recognized "healthy" /\ 0 <= 0 /\
  exists M p,
    generate_aortic_valve (PF := b64 (fun x _ => x) (fun x => x) (fun x => x))
      0 (float_of_decimal false 1 0) (float_of_decimal false 12 (-1))
      "healthy" = Ok (M, p) /\
    read_vertex_file (write_vertex_file (vertices M)) = Ok (Array2D 2 []) /\
    forall S, calculate_geometric_properties
                (PF := b64 (fun x _ => x) (fun x => x) (fun x => x))
                (fun _ => None) (Array2D 2 []) S
              = Raise ValueError.
Proof.
  assert (H0 : 0 <= 0) by lia.
  split; [exact healthy_recognized|]. split; [exact H0|].
  destruct (empty_model_stops_at_the_calculator
              (PF := b64 (fun x _ => x) (fun x => x) (fun x => x))
              (fun _ => None) "healthy" 0 (float_of_decimal false 1 0)
              (float_of_decimal false 12 (-1)) healthy_recognized H0)
    as (M & p & Hgen & _ & _ & _ & _ & Hv & _ & _ & Hc).
  exists M, p. split; [exact Hgen|]. split; [exact Hv|exact Hc].
Defined.

(** * The property calculator *)

(** ** The property calculator on non-empty arrays *)

Lemma calculate_on_rows {F : Type} {PF : PyFloat F}
    (hull : list (list F) -> option F) (cv : nat) (v : list F)
    (vs : list (list F)) (cs : nat) (s : list F) (ss : list (list F)) :
  (2 <= cv)%nat -> (3 <= cs)%nat ->
  let rows := v :: vs in
  let center := map (fun k => np_mean (map (fun r => nth k r (of_int 0)) rows))
                    (seq 0 cv) in
  let radii := map (fun r => row_norm r center) rows in
  let lo := fold_left fmin (tl radii) (hd (of_int 0) radii) in
  let hi := fold_left fmax (tl radii) (hd (of_int 0) radii) in
  let stiffness := map (fun r => nth 2 r (of_int 0)) (s :: ss) in
  calculate_geometric_properties hull (Array2D cv rows) (Array2D cs (s :: ss))
  = Ok (mk_properties center lo hi (fsub hi lo)
          (match hull rows with
           | Some area => area
           | None => fmul np_pi (fpow lo 2)
           end)
          (np_mean stiffness)
          (fold_left fmax (tl stiffness) (hd (of_int 0) stiffness))
          (Z.of_nat (length rows)) (Z.of_nat (length (s :: ss)))).
Proof.
  intros Hcv Hcs. unfold calculate_geometric_properties.
  cbn [map np_min np_max bind column hd tl].
  destruct (Nat.ltb_spec 1 cv); [|lia].
  destruct (Nat.ltb_spec 0 cv); [|lia].
  destruct (Nat.ltb_spec 2 cs); [|lia].
  rewrite !item_map_seq by lia. cbn [bind map np_max hd tl np_len].
  reflexivity.
Qed.

Lemma fold_left_Rmin (xs : list R) (x : R) :
  In (fold_left Rmin xs x) (x :: xs) /\
  Forall (fun k => (fold_left Rmin xs x <= k)%R) (x :: xs).
Proof.
  revert x. induction xs as [|y xs IH]; intros x; simpl.
  - split; [left; reflexivity|]. constructor; [apply Rle_refl|constructor].
  - destruct (IH (Rmin x y)) as [Hin Hall]. split.
    + destruct Hin as [Hin|Hin]; [|right; right; exact Hin].
      rewrite <- Hin. unfold Rmin. destruct (Rle_dec x y); [left|right; left]; reflexivity.
    + inversion Hall as [|m l Hm Hl]; subst.
      constructor; [|constructor; [|exact Hl]].
      * eapply Rle_trans; [exact Hm|apply Rmin_l].
      * eapply Rle_trans; [exact Hm|apply Rmin_r].
Qed.

Lemma row_norm_nonneg (row c : list R) : (0 <= row_norm row c)%R.
Proof. unfold row_norm. cbn [np_sqrt R_float]. apply sqrt_pos. Qed.

(** X17: over the reals, on at least one vertex (of two or more columns) and
    at least one spring (of three or more columns) the calculator returns
    properties in which every vertex's distance from the reported centre
    lies between the reported minimal and maximal radius, both attained by a
    vertex; the radii are not negative, so the radial extent, their
    difference, is not negative; each coordinate of the centre is the mean
    of its column; and when the hull construction fails the orifice area is
    the disc area [pi * min_radius^2]. *)
Theorem radii_bracket_every_vertex (hull : list (list R) -> option R)
    (cv : nat) (v : list R) (vs : list (list R))
    (cs : nat) (s : list R) (ss : list (list R)) :
  (2 <= cv)%nat -> (3 <= cs)%nat ->
  exists P,
    calculate_geometric_properties hull (Array2D cv (v :: vs))
      (Array2D cs (s :: ss)) = Ok P /\
    Forall (fun row => (min_radius P <= row_norm row (center P) <= max_radius P)%R)
           (v :: vs) /\
    (exists row, In row (v :: vs) /\ row_norm row (center P) = min_radius P) /\
    (exists row, In row (v :: vs) /\ row_norm row (center P) = max_radius P) /\
    (0 <= min_radius P <= max_radius P)%R /\
    radial_extent P = (max_radius P - min_radius P)%R /\
    (0 <= radial_extent P)%R /\
    (forall k, (k < cv)%nat ->
       (nth k (center P) 0 * INR (length (v :: vs)))%R
       = fold_right Rplus 0%R (map (fun r => nth k r 0%R) (v :: vs))) /\
    (hull (v :: vs) = None ->
     orifice_area P = (PI * (min_radius P * min_radius P))%R) /\
    n_vertices P = Z.of_nat (length (v :: vs)) /\
    n_springs P = Z.of_nat (length (s :: ss)).
Proof.
  intros Hcv Hcs. eexists. split; [apply calculate_on_rows; assumption|].
  cbn [center min_radius max_radius radial_extent orifice_area n_vertices
       n_springs].
  set (c := map (fun k => np_mean (map (fun r => nth k r (of_int 0)) (v :: vs)))
                (seq 0 cv)).
  set (radii := map (fun r => row_norm r c) (v :: vs)).
  assert (Hr : radii = row_norm v c :: map (fun r => row_norm r c) vs)
    by reflexivity.
  rewrite Hr. cbn [hd tl fmin fmax fsub R_float].
  destruct (fold_left_Rmin (map (fun r => row_norm r c) vs) (row_norm v c))
    as [Hlo_in Hlo].
  destruct (fold_left_Rmax (map (fun r => row_norm r c) vs) (row_norm v c))
    as [Hhi_in Hhi].
  set (lo := fold_left Rmin (map (fun r => row_norm r c) vs) (row_norm v c)) in *.
  set (hi := fold_left Rmax (map (fun r => row_norm r c) vs) (row_norm v c)) in *.
  change (row_norm v c :: map (fun r => row_norm r c) vs)
    with (map (fun r => row_norm r c) (v :: vs)) in Hlo_in, Hlo, Hhi_in, Hhi.
  rewrite Forall_map in Hlo, Hhi.
  assert (Hlo0 : (0 <= lo)%R).
  { apply in_map_iff in Hlo_in. destruct Hlo_in as (row & <- & _).
    apply row_norm_nonneg. }
  assert (Hlohi : (lo <= hi)%R).
  { inversion Hhi as [|? ? H1 _]; inversion Hlo as [|? ? H2 _]; subst. lra. }
  split.
  { apply Forall_forall. intros row Hrow.
    rewrite Forall_forall in Hlo, Hhi. split; [apply Hlo|apply Hhi]; exact Hrow. }
  split.
  { apply in_map_iff in Hlo_in. destruct Hlo_in as (row & H1 & H2).
    exists row. split; assumption. }
  split.
  { apply in_map_iff in Hhi_in. destruct Hhi_in as (row & H1 & H2).
    exists row. split; assumption. }
  split; [lra|]. split; [reflexivity|]. split; [lra|]. split.
  { intros k Hk. unfold c.
    set (f := fun k => np_mean (map (fun r => nth k r (of_int 0)) (v :: vs))).
    rewrite (nth_indep _ 0%R (f 0%nat))
      by (rewrite length_map, length_seq; exact Hk).
    rewrite (map_nth f), seq_nth by exact Hk. unfold f. cbn [Nat.add map].
    replace (length (v :: vs))
      with (length (nth k v (of_int 0) :: map (fun r => nth k r (of_int 0)) vs))
      by (cbn [length]; rewrite length_map; reflexivity).
    rewrite R_np_mean. reflexivity. }
  split; [|split; reflexivity].
  intros ->. cbn [fmul fpow np_pi R_float].
  change (powerRZ lo 2) with (lo * (lo * 1))%R. ring.
Qed.

Lemma radii_bracket_every_vertex_witness :
  (2 <= 2)%nat /\ (3 <= 4)%nat /\
  exists P,
    calculate_geometric_properties (fun _ => None)
      (Array2D 2 [[1; 0]; [0; 1]; [-1; 0]]%R)
      (Array2D 4 [[0; 1; 500; 0]; [1; 2; 250; 0]]%R) = Ok P /\
    (0 <= min_radius P <= max_radius P)%R /\
    orifice_area P = (PI * (min_radius P * min_radius P))%R.
Proof.
  assert (Hv : (2 <= 2)%nat) by lia. assert (Hs : (3 <= 4)%nat) by lia.
  split; [exact Hv|]. split; [exact Hs|].
  destruct (radii_bracket_every_vertex (fun _ => None) 2 [1; 0]%R
              [[0; 1]; [-1; 0]]%R 4 [0; 1; 500; 0]%R [[1; 2; 250; 0]]%R Hv Hs)
    as (P & HP & _ & _ & _ & Hb & _ & _ & _ & Ha & _).
  exists P. split; [exact HP|]. split; [exact Hb|exact (Ha eq_refl)].
Defined.

(** ** The property calculator on a generated model *)

Lemma calculate_on_model {F : Type} {PF : PyFloat F}
    (hull : list (list F) -> option F) (vs : list (F * F))
    (ss : list (spring F)) :
  vs <> [] -> ss <> [] ->
  exists P,
    calculate_geometric_properties hull (Array2D 2 (vertex_rows vs))
      (np_array (map spring_row ss)) = Ok P /\
    n_vertices P = Z.of_nat (length vs) /\
    n_springs P = Z.of_nat (length ss) /\
    avg_stiffness P = np_mean (map s_stiffness ss) /\
    np_max (map s_stiffness ss) = Ok (max_stiffness P).
Proof.
  intros Hvs Hss. destruct vs as [|v vs]; [congruence|].
  destruct ss as [|s ss]; [congruence|].
  cbn [vertex_rows map np_array spring_row length].
  eexists. split; [apply calculate_on_rows; lia|].
  cbn [n_vertices n_springs avg_stiffness max_stiffness length map nth hd tl
       np_max].
  rewrite !length_map, !map_map. cbn [nth]. repeat split; reflexivity.
Qed.

Section GeneratedLengths.
Context {F : Type} {PF : PyFloat F}.

Lemma length_generated_vertices n r len (p : params F) :
  length (flat_map (leaflet_vertices n r len p) (range n_leaflets))
  = Z.to_nat (3 * n).
Proof.
  rewrite flat_map_range_3, !length_app, !length_leaflet_vertices. lia.
Qed.

Lemma length_generated_longitudinal n (p : params F) :
  length (flat_map (leaflet_longitudinal n p) (range n_leaflets))
  = Z.to_nat (3 * (n - 1)).
Proof.
  rewrite flat_map_range_3, !length_app, !length_leaflet_longitudinal. lia.
Qed.

Lemma length_generated_cross n (p : params F) :
  2 <= n ->
  length (flat_map (leaflet_cross n p) (range n_leaflets))
  = Z.to_nat (3 * ((n - 2) / cross_skip n)).
Proof.
  intros Hn.
  rewrite flat_map_range_3, !length_app, !length_leaflet_cross by exact Hn.
  assert (0 <= (n - 2) / cross_skip n)
    by (apply Z.div_pos; [lia|apply cross_skip_pos]).
  lia.
Qed.

Lemma longitudinal_stiffness n (p : params F) :
  Forall (fun s => s_stiffness s = spring_stiffness p)
         (flat_map (leaflet_longitudinal n p) (range n_leaflets)).
Proof.
  apply Forall_flat_map, Forall_forall. intros k _.
  unfold leaflet_longitudinal. apply Forall_map, Forall_forall.
  intros i _. reflexivity.
Qed.

Lemma cross_stiffness n (p : params F) :
  Forall (fun s => s_stiffness s = fmul (spring_stiffness p) (literal 5 (-1)))
         (flat_map (leaflet_cross n p) (range n_leaflets)).
Proof.
  apply Forall_flat_map, Forall_forall. intros k _.
  unfold leaflet_cross. apply Forall_map, Forall_forall.
  intros i _. reflexivity.
Qed.

End GeneratedLengths.

(** ** The statistics of a generated model over the reals *)

Lemma sum_constant (c : R) (xs : list R) :
  Forall (fun x => x = c) xs ->
  fold_right Rplus 0%R xs = (c * INR (length xs))%R.
Proof.
  induction 1 as [|x xs -> _ IH].
  - simpl. ring.
  - cbn [fold_right]. rewrite IH. change (length (c :: xs)) with (S (length xs)).
    rewrite S_INR. ring.
Qed.

Lemma R_stiffness_pos (severity : string) (p : params R) :
  dict_get severity_params severity = Ok p ->
  (0 < spring_stiffness p)%R /\
  In (spring_stiffness p) [500; 800; 1500; 3000]%R.
Proof.
  unfold severity_params. cbn [dict_get].
  repeat match goal with
  | |- (if String.eqb ?a severity then _ else _) = _ -> _ =>
      destruct (String.eqb a severity);
      [intros [= <-]; cbn; split; [lra|]; 
       repeat (try (left; lra); right); fail|]
  end.
  discriminate.
Qed.

Lemma stiffness_weight_bounds (n : Z) :
  2 <= n -> (1 / 2 < stiffness_weight n <= 1)%R.
Proof.
  intros Hn. unfold stiffness_weight.
  set (L := Z.to_nat (3 * (n - 1))). set (C := Z.to_nat (3 * ((n - 2) / cross_skip n))).
  assert (HL : (0 < INR L)%R) by (apply lt_0_INR; unfold L; lia).
  assert (HC : (0 <= INR C)%R) by apply pos_INR.
  rewrite plus_INR.
  assert (Hd : (0 < INR L + INR C)%R) by lra.
  split.
  - apply (Rmult_lt_reg_r (INR L + INR C)); [exact Hd|].
    unfold Rdiv at 2. rewrite Rmult_assoc, Rinv_l by lra. lra.
  - apply (Rmult_le_reg_r (INR L + INR C)); [exact Hd|].
    unfold Rdiv at 1. rewrite Rmult_assoc, Rinv_l by lra. lra.
Qed.

Lemma R_model_statistics (hull : list (list R) -> option R)
    (severity : string) (n : Z) (r len : R) (p : params R) :
  dict_get severity_params severity = Ok p -> 2 <= n ->
  exists M P,
    generate_aortic_valve n r len severity = Ok (M, p) /\
    calculate_geometric_properties hull (Array2D 2 (vertex_rows (vertices M)))
      (np_array (map spring_row (springs M))) = Ok P /\
    n_vertices P = 3 * n /\
    n_springs P = 3 * (n - 1) + 3 * ((n - 2) / Z.max 1 (n / 8)) /\
    avg_stiffness P = (spring_stiffness p * stiffness_weight n)%R /\
    max_stiffness P = spring_stiffness p.
Proof.
  intros Hp Hn.
  eexists. 
  set (vs := flat_map (leaflet_vertices n r (fmul len (leaflet_length_factor p)) p)
                      (range n_leaflets)).
  set (lg := flat_map (leaflet_longitudinal n p) (range n_leaflets)).
  set (xs := flat_map (leaflet_cross n p) (range n_leaflets)).
  assert (Hvs : length vs = Z.to_nat (3 * n)) by apply length_generated_vertices.
  assert (Hlg : length lg = Z.to_nat (3 * (n - 1)))
    by apply length_generated_longitudinal.
  assert (Hxs : length xs = Z.to_nat (3 * ((n - 2) / cross_skip n)))
    by (apply length_generated_cross; exact Hn).
  assert (Hq : 0 <= (n - 2) / cross_skip n)
    by (apply Z.div_pos; [lia|apply cross_skip_pos]).
  destruct (calculate_on_model hull vs (lg ++ xs)) as (P & HP & Hnv & Hns & Havg & Hmax).
  { intros E. rewrite E in Hvs. cbn [length] in Hvs. lia. }
  { intros E. apply app_eq_nil in E. destruct E as [E _].
    rewrite E in Hlg. cbn [length] in Hlg. lia. }
  exists P. split; [apply generate_layout; [exact Hp|lia]|].
  cbn [vertices springs]. fold vs lg xs. split; [exact HP|].
  split; [rewrite Hnv, Hvs; lia|].
  split; [rewrite Hns, length_app, Hlg, Hxs; unfold cross_skip in Hq |- *; lia|].
  destruct (R_stiffness_pos severity p Hp) as [Hk _].
  set (k := spring_stiffness p) in *.
  assert (Hkl : Forall (fun x => x = k) (map s_stiffness lg))
    by (apply Forall_map, longitudinal_stiffness).
  assert (Hkx : Forall (fun x => x = (k / 2)%R) (map s_stiffness xs)).
  { apply Forall_map. eapply Forall_impl; [|apply cross_stiffness].
    intros s ->. fold k. cbn [fmul literal R_float].
    change (powerRZ 10 (-1)) with (/ (10 * 1))%R. field. }
  assert (Hlg0 : (0 < length lg)%nat) by lia.
  split.
  - rewrite Havg. rewrite map_app.
    destruct lg as [|s0 lg']; [simpl in Hlg0; lia|].
    cbn [map app].
    apply (Rmult_eq_reg_r
             (INR (length (s_stiffness s0 ::
                           map s_stiffness lg' ++ map s_stiffness xs))));
      [|apply not_0_INR; simpl; discriminate].
    rewrite R_np_mean.
    change (s_stiffness s0 :: map s_stiffness lg' ++ map s_stiffness xs)
      with (map s_stiffness (s0 :: lg') ++ map s_stiffness xs).
    rewrite fold_right_app, (sum_constant _ _ Hkx).
    assert (Hsum : forall (a : R) (l : list R),
              Forall (fun x => x = k) l ->
              fold_right Rplus a l = (k * INR (length l) + a)%R).
    { intros a l Hl. induction Hl as [|x l -> _ IH]; [simpl; ring|].
      cbn [fold_right]. rewrite IH.
      change (length (k :: l)) with (S (length l)). rewrite S_INR. ring. }
    rewrite (Hsum _ _ Hkl), length_app, !length_map, Hlg, Hxs.
    unfold stiffness_weight.
    set (L := Z.to_nat (3 * (n - 1))).
    set (C := Z.to_nat (3 * ((n - 2) / cross_skip n))).
    assert (HL : (0 < INR L)%R) by (apply lt_0_INR; unfold L; lia).
    assert (HC : (0 <= INR C)%R) by apply pos_INR.
    rewrite plus_INR. field. lra.
  - rewrite map_app in Hmax.
    destruct lg as [|s0 lg']; [simpl in Hlg0; lia|].
    cbn [map app np_max] in Hmax. injection Hmax as Hmax.
    inversion Hkl as [|? ? Hs0 Hkl']; subst.
    rewrite Hs0 in Hmax.
    destruct (fold_left_Rmax (map s_stiffness lg' ++ map s_stiffness xs) k)
      as [Hin Hle].
    rewrite Hmax in Hin, Hle.
    inversion Hle as [|? ? Hge _]; subst.
    destruct Hin as [Hin|Hin]; [symmetry; exact Hin|].
    apply in_app_or in Hin. rewrite Forall_forall in Hkl', Hkx.
    destruct Hin as [Hin|Hin]; [exact (Hkl' _ Hin)|].
    apply Hkx in Hin. lra.
Qed.

(** X18: over the reals, the calculator applied to a generated model
    ([n >= 2], its vertex matrix and its spring rows as the spring reader
    packs them) returns: the counts [3n] and [3(n-1) + 3((n-2) // skip)]; as
    maximal stiffness the severity's spring stiffness; and as average
    stiffness that stiffness times a weight that depends on the resolution
    alone and lies in (1/2, 1]. *)
Theorem stiffness_statistics_of_a_generated_model
    (hull : list (list R) -> option R) (severity : string) (n : Z) (r len : R) :
  recognized severity -> 2 <= n ->
  exists M p P,
    generate_aortic_valve n r len severity = Ok (M, p) /\
    calculate_geometric_properties hull (Array2D 2 (vertex_rows (vertices M)))
      (np_array (map spring_row (springs M))) = Ok P /\
    n_vertices P = 3 * n /\
    n_springs P = 3 * (n - 1) + 3 * ((n - 2) / Z.max 1 (n / 8)) /\
    max_stiffness P = spring_stiffness p /\
    avg_stiffness P = (spring_stiffness p * stiffness_weight n)%R /\
    (1 / 2 < stiffness_weight n <= 1)%R /\
    (spring_stiffness p / 2 < avg_stiffness P <= spring_stiffness p)%R.
Proof.
  intros Hsev Hn. destruct (dict_get_recognized (F := R) _ Hsev) as [p Hp].
  destruct (R_model_statistics hull severity n r len p Hp Hn)
    as (M & P & Hgen & HP & Hnv & Hns & Havg & Hmax).
  pose proof (stiffness_weight_bounds n Hn) as Hw.
  destruct (R_stiffness_pos severity p Hp) as [Hk _].
  exists M, p, P. split; [exact Hgen|]. split; [exact HP|].
  split; [exact Hnv|]. split; [exact Hns|]. split; [exact Hmax|].
  split; [exact Havg|]. split; [exact Hw|].
  rewrite Havg. split; nra.
Qed.

(** X19: the stiffness increase that [compare_severities] prints for the
    healthy and the severe valve generated at one resolution [n >= 2] is 6,
    over the reals, at every resolution and whatever the radii and
    lengths. *)
Theorem stiffness_increase_healthy_to_severe
    (hull : list (list R) -> option R) (n : Z) (rh lenh rs lens : R) :
  2 <= n ->
  exists Mh ph Ph Ms ps Ps,
    generate_aortic_valve n rh lenh "healthy" = Ok (Mh, ph) /\
    calculate_geometric_properties hull (Array2D 2 (vertex_rows (vertices Mh)))
      (np_array (map spring_row (springs Mh))) = Ok Ph /\
    generate_aortic_valve n rs lens "severe" = Ok (Ms, ps) /\
    calculate_geometric_properties hull (Array2D 2 (vertex_rows (vertices Ms)))
      (np_array (map spring_row (springs Ms))) = Ok Ps /\
    stiffness_increase Ph Ps = 6%R.
Proof.
  intros Hn.
  destruct (R_model_statistics hull "healthy" n rh lenh _ eq_refl Hn)
    as (Mh & Ph & Hgh & HPh & _ & _ & Hah & _).
  destruct (R_model_statistics hull "severe" n rs lens _ eq_refl Hn)
    as (Ms & Ps & Hgs & HPs & _ & _ & Has & _).
  pose proof (stiffness_weight_bounds n Hn) as Hw.
  eexists Mh, _, Ph, Ms, _, Ps.
  split; [exact Hgh|]. split; [exact HPh|]. split; [exact Hgs|].
  split; [exact HPs|].
  unfold stiffness_increase. cbn [fdiv R_float]. rewrite Hah, Has.
  cbn [spring_stiffness literal R_float]. 
  change (powerRZ 10 3) with (10 * (10 * (10 * 1)))%R.
  change (powerRZ 10 2) with (10 * (10 * 1))%R.
  field. lra.
Qed.

(** ** From the generator through the files to the calculator, in binary64 *)

Lemma fold_left_b64_max_fixed (k : spec_float) (xs : list spec_float) :
  Forall (fun x => b64_max k x = k) xs -> fold_left b64_max xs k = k.
Proof.
  induction 1 as [|x xs Hx _ IH]; [reflexivity|].
  cbn [fold_left]. rewrite Hx. exact IH.
Qed.

Section Binary64Pipeline.
Variable pow : spec_float -> Z -> spec_float.
Variables sin cos : spec_float -> spec_float.
Let B64 : PyFloat spec_float := b64 pow sin cos.
#[local] Existing Instance B64.

(** The stiffness of the table is the greater of itself and its half. *)
Lemma table_stiffness_max (severity : string) (p : params spec_float) :
  dict_get severity_params severity = Ok p ->
  b64_max (spring_stiffness p) (spring_stiffness p) = spring_stiffness p /\
  b64_max (spring_stiffness p)
    (SFmul prec emax (spring_stiffness p) (float_of_decimal false 5 (-1)))
  = spring_stiffness p.
Proof.
  unfold severity_params. cbn [dict_get].
  repeat match goal with
  | |- (if String.eqb ?a severity then _ else _) = _ -> _ =>
      destruct (String.eqb a severity);
      [intros [= <-]; vm_compute; split; reflexivity|]
  end.
  discriminate.
Qed.

Lemma stored_springs_read_back (severity : string) (n : Z)
    (p : params spec_float) :
  dict_get severity_params severity = Ok p ->
  read_spring_rows
    (write_spring_file
       (flat_map (leaflet_longitudinal n p) (range n_leaflets) ++
        flat_map (leaflet_cross n p) (range n_leaflets)))
  = Ok (flat_map (leaflet_longitudinal n p) (range n_leaflets) ++
        flat_map (leaflet_cross n p) (range n_leaflets)).
Proof.
  intros Hp.
  destruct (table_values_reread pow sin cos severity p Hp) as (Hk & Hk2 & _ & H0).
  rewrite (read_write_springs reread)
    by (apply py_float_format_e || apply no_space_format_e
        || apply format_e_not_empty).
  f_equal. apply map_fixed.
  apply Forall_app. split; apply Forall_flat_map, Forall_forall; intros k _.
  - unfold leaflet_longitudinal. apply Forall_map, Forall_forall. intros i _.
    cbn [s_idx1 s_idx2 s_stiffness s_damping literal b64 B64].
    rewrite Hk, H0. reflexivity.
  - unfold leaflet_cross. apply Forall_map, Forall_forall. intros i _.
    cbn [s_idx1 s_idx2 s_stiffness s_damping literal fmul b64 B64].
    rewrite Hk2, H0. reflexivity.
Qed.

Lemma stored_beams_read_back (severity : string) (n : Z)
    (p : params spec_float) :
  dict_get severity_params severity = Ok p ->
  read_beam_rows
    (write_beam_file (flat_map (leaflet_beams n p) (range n_leaflets)))
  = Ok (flat_map (leaflet_beams n p) (range n_leaflets)).
Proof.
  intros Hp.
  destruct (table_values_reread pow sin cos severity p Hp) as (_ & _ & Hb & _).
  rewrite (read_write_beams reread)
    by (apply py_float_format_e || apply no_space_format_e
        || apply format_e_not_empty).
  f_equal. apply map_fixed.
  apply Forall_flat_map, Forall_forall; intros k _.
  unfold leaflet_beams. apply Forall_map, Forall_forall. intros i _.
  cbn [b_idx1 b_idx2 b_idx3 b_rigidity]. rewrite Hb. reflexivity.
Qed.

(** X20: the single mode of [visualize_geometry.py] on the files of a
    generated model, in binary64 with any [pow], [sin] and [cos] and any
    hull routine: for a recognized severity and [n >= 2] the three files
    read back, the calculator returns on the vertices and springs read, and
    it reports [3n] vertices, [3(n-1) + 3((n-2) // skip)] springs and, as
    maximal stiffness, exactly the spring stiffness of the severity. *)
Theorem properties_of_a_stored_model
    (hull : list (list spec_float) -> option spec_float)
    (severity : string) (n : Z) (r len : spec_float) :
  recognized severity -> 2 <= n ->
  exists M p V S B P,
    generate_aortic_valve n r len severity = Ok (M, p) /\
    read_vertex_file (write_vertex_file (vertices M)) = Ok V /\
    read_spring_file (write_spring_file (springs M)) = Ok S /\
    read_beam_file (write_beam_file (beams M)) = Ok B /\
    calculate_geometric_properties hull V S = Ok P /\
    n_vertices P = 3 * n /\
    n_springs P = 3 * (n - 1) + 3 * ((n - 2) / Z.max 1 (n / 8)) /\
    max_stiffness P = spring_stiffness p.
Proof.
  intros Hsev Hn. destruct (dict_get_recognized _ Hsev) as [p Hp].
  set (vs := flat_map (leaflet_vertices n r (fmul len (leaflet_length_factor p)) p)
                      (range n_leaflets)).
  set (lg := flat_map (leaflet_longitudinal n p) (range n_leaflets)).
  set (xs := flat_map (leaflet_cross n p) (range n_leaflets)).
  set (vs' := map (fun v => (reread (fst v), reread (snd v))) vs).
  assert (Hvs : length vs' = Z.to_nat (3 * n))
    by (unfold vs'; rewrite length_map; apply length_generated_vertices).
  assert (Hlg : length lg = Z.to_nat (3 * (n - 1)))
    by apply length_generated_longitudinal.
  assert (Hxs : length xs = Z.to_nat (3 * ((n - 2) / cross_skip n)))
    by (apply length_generated_cross; exact Hn).
  assert (Hq : 0 <= (n - 2) / cross_skip n)
    by (apply Z.div_pos; [lia|apply cross_skip_pos]).
  assert (Hgen : generate_aortic_valve n r len severity
                 = Ok (mk_model vs (lg ++ xs)
                         (flat_map (leaflet_beams n p) (range n_leaflets)), p))
    by (apply generate_layout; [exact Hp|lia]).
  assert (Hrv : read_vertex_file (write_vertex_file vs)
                = Ok (Array2D 2 (vertex_rows vs'))).
  { unfold vertex_rows, vs'. rewrite map_map.
    apply (read_write_vertices reread);
      [apply py_float_format_e|apply no_space_format_e
      |apply format_e_not_empty]. }
  assert (Hrs : read_spring_file (write_spring_file (lg ++ xs))
                = Ok (np_array (map spring_row (lg ++ xs)))).
  { unfold read_spring_file, lg, xs.
    rewrite (stored_springs_read_back severity n p Hp). reflexivity. }
  pose proof (longitudinal_stiffness n p) as Hkl. fold lg in Hkl.
  pose proof (cross_stiffness n p) as Hkx. fold xs in Hkx.
  destruct (table_stiffness_max severity p Hp) as [Hkk Hkh].
  clearbody lg xs vs'.
  destruct (calculate_on_model hull vs' (lg ++ xs))
    as (P & HP & Hnv & Hns & _ & Hmax).
  { intros E. rewrite E in Hvs. cbn [length] in Hvs. lia. }
  { intros E. apply app_eq_nil in E. destruct E as [E _].
    rewrite E in Hlg. cbn [length] in Hlg. lia. }
  eexists _, p, _, _, _, P. split; [exact Hgen|].
  cbn [vertices springs beams].
  split; [exact Hrv|]. split; [exact Hrs|].
  split.
  { unfold read_beam_file.
    rewrite (stored_beams_read_back severity n p Hp). reflexivity. }
  split; [exact HP|].
  split; [rewrite Hnv, Hvs; lia|].
  split; [rewrite Hns, length_app, Hlg, Hxs; unfold cross_skip in Hq |- *; lia|].
  rewrite map_app in Hmax.
  destruct lg as [|s0 lg']; [cbn [length] in Hlg; lia|].
  cbn [map app np_max] in Hmax. injection Hmax as Hmax.
  inversion Hkl as [|? ? Hs0 Hkl']; subst.
  rewrite Hs0 in Hmax. rewrite <- Hmax.
  cbn [fmax b64 B64]. apply fold_left_b64_max_fixed.
  apply Forall_app. split; apply Forall_map.
  - eapply Forall_impl; [|exact Hkl']. intros s ->. exact Hkk.
  - eapply Forall_impl; [|exact Hkx]. intros s ->. exact Hkh.
Qed.

End Binary64Pipeline.

(** * The plot of one valve *)

(** ** The markers of [plot_single_geometry] *)

Section Markers.
Context {F : Type} {PF : PyFloat F}.

Lemma np_index_valid (len i : Z) :
  - len <= i < len ->
  np_index len i = Ok (Z.to_nat (if i <? 0 then i + len else i)).
Proof.
  intros Hi. unfold np_index.
  destruct (Z.ltb_spec i (- len)); [lia|].
  destruct (Z.leb_spec len i); [lia|]. reflexivity.
Qed.

Lemma take_column_valid (cv : nat) (rows : list (list F)) (idx : list Z)
    (k : nat) :
  (k < cv)%nat ->
  Forall (fun i => - Z.of_nat (length rows) <= i < Z.of_nat (length rows)) idx ->
  take_column (Array2D cv rows) idx k
  = Ok (map (fun i =>
               nth k (nth (Z.to_nat (if i <? 0 then i + Z.of_nat (length rows)
                                     else i))
                          rows [])
                   (of_int 0))
            idx).
Proof.
  intros Hk Hidx. unfold take_column.
  destruct (Nat.ltb_spec k cv); [|lia].
  rewrite <- (app_nil_l (map _ idx)), <- for_in_append.
  apply for_in_ext. intros i xs Hi.
  rewrite Forall_forall in Hidx. specialize (Hidx i Hi).
  rewrite np_index_valid by exact Hidx. cbn [bind]. unfold item.
  set (j := Z.to_nat (if i <? 0 then i + Z.of_nat (length rows) else i)).
  assert (Hj : (j < length rows)%nat)
    by (unfold j; destruct (Z.ltb_spec i 0); lia).
  rewrite (nth_error_nth' rows [] Hj). reflexivity.
Qed.

(** X21: the marker coordinates of [plot_single_geometry] are taken at
    valid rows of every vertex matrix (two or more columns) that holds at
    least one vertex, so the indexing never raises there; on a matrix of no
    rows it raises [IndexError] (row 0 does not exist). *)
Theorem markers_need_one_vertex (cv : nat) (rows : list (list F)) :
  (2 <= cv)%nat ->
  (rows = [] -> highlighted_points (Array2D cv rows) = Raise IndexError) /\
  (rows <> [] ->
   exists b t, highlighted_points (Array2D cv rows) = Ok (b, t) /\
               length (fst b) = 3%nat /\ length (snd b) = 3%nat /\
               length (fst t) = 3%nat /\ length (snd t) = 3%nat).
Proof.
  intros Hcv. split.
  - intros ->. unfold highlighted_points, take_column.
    destruct (Nat.ltb_spec 0 cv); [|lia]. reflexivity.
  - intros Hne. unfold highlighted_points. cbn [np_len].
    set (len := Z.of_nat (length rows)).
    assert (Hlen : 1 <= len) by (unfold len; destruct rows; [congruence|simpl; lia]).
    assert (Hq : 0 <= len / 3) by (apply Z.div_pos; lia).
    assert (Hq3 : 3 * (len / 3) <= len) by (apply Z.mul_div_le; lia).
    rewrite !take_column_valid;
      try lia;
      try (repeat constructor; fold len; lia).
    cbn [bind map length]. eexists _, _. split; [reflexivity|].
    repeat split; reflexivity.
Qed.

End Markers.

Lemma row_of_vertex {F} (vs : list (F * F)) (j : nat) (v : F * F) :
  nth_error vs j = Some v -> nth j (vertex_rows vs) [] = [fst v; snd v].
Proof.
  intros Hv. apply nth_error_nth. unfold vertex_rows.
  rewrite nth_error_map, Hv. reflexivity.
Qed.

(** X22: on a generated model ([n >= 2]) the markers of
    [plot_single_geometry] sit where its legend says: the three annulus
    markers are the first vertex of each leaflet (parameter [0 / (n-1)]) and
    the three tip markers are the last vertex of each leaflet (parameter
    [(n-1) / (n-1)]). *)
Theorem markers_of_a_generated_model {F : Type} {PF : PyFloat F}
    (severity : string) (n : Z) (r len : F) :
  recognized severity -> 2 <= n ->
  exists M p,
    generate_aortic_valve n r len severity = Ok (M, p) /\
    let point k i :=
      vertex_at r (fmul len (leaflet_length_factor p)) p (theta_center k)
        (int_truediv i (n - 1)) in
    let annulus := [point 0 0; point 1 0; point 2 0] in
    let tips := [point 0 (n - 1); point 1 (n - 1); point 2 (n - 1)] in
    highlighted_points (Array2D 2 (vertex_rows (vertices M)))
    = Ok ((map fst annulus, map snd annulus), (map fst tips, map snd tips)).
Proof.
  intros Hsev Hn. destruct (dict_get_recognized _ Hsev) as [p Hp].
  destruct (generate_vertices severity n r len p Hp Hn) as (M & Hgen & Hlen & Hv).
  exists M, p. split; [exact Hgen|]. cbv zeta.
  unfold highlighted_points. cbn [np_len].
  assert (Hl : Z.of_nat (length (vertex_rows (vertices M))) = 3 * n)
    by (unfold vertex_rows; rewrite length_map, Hlen; lia).
  rewrite Hl. replace (3 * n / 3) with n by (apply Z.div_unique_exact; lia).
  rewrite !take_column_valid;
    try lia; try (repeat constructor; rewrite Hl; lia).
  rewrite Hl. cbn [bind map].
  destruct (Z.ltb_spec 0 0); [lia|].
  destruct (Z.ltb_spec n 0); [lia|].
  destruct (Z.ltb_spec (2 * n) 0); [lia|].
  destruct (Z.ltb_spec (n - 1) 0); [lia|].
  destruct (Z.ltb_spec (2 * n - 1) 0); [lia|].
  destruct (Z.ltb_spec (3 * n - 1) 0); [lia|].
  assert (Hat : forall k i j, 0 <= k < 3 -> 0 <= i < n -> j = k * n + i ->
            nth (Z.to_nat j) (vertex_rows (vertices M)) []
            = [fst (vertex_at r (fmul len (leaflet_length_factor p)) p
                      (theta_center k) (int_truediv i (n - 1)));
               snd (vertex_at r (fmul len (leaflet_length_factor p)) p
                      (theta_center k) (int_truediv i (n - 1)))]).
  { intros k i j Hk Hi ->. apply row_of_vertex, Hv; assumption. }
  rewrite (Hat 0 0 0), (Hat 1 0 n), (Hat 2 0 (2 * n)), (Hat 0 (n - 1) (n - 1)),
    (Hat 1 (n - 1) (2 * n - 1)), (Hat 2 (n - 1) (3 * n - 1)) by lia.
  reflexivity.
Qed.

(** ** The colour scale of [plot_single_geometry] *)

Lemma tiny_pos : (0 < literal (F := R) 1 (-10))%R.
Proof.
  cbn [literal R_float]. rewrite Rmult_1_l. apply powerRZ_lt. lra.
Qed.

(** X23: over the reals, on one spring or more (three or more columns) the
    scaled stiffness that [plot_single_geometry] feeds the colour map has one
    entry per spring, each in [0, 1): the divisor [max - min + 1e-10] is
    positive, so nothing is divided by zero even when all springs are
    equally stiff, and a spring of minimal stiffness is scaled to 0.  With
    no spring the guard skips the computation and nothing is raised. *)
Theorem colour_scale_is_in_unit_interval (cs : nat) (s : list R)
    (ss : list (list R)) :
  (3 <= cs)%nat ->
  exists norm lo hi,
    stiffness_norm (Array2D cs (s :: ss)) = Ok norm /\
    np_min (map (fun row => nth 2 row 0%R) (s :: ss)) = Ok lo /\
    np_max (map (fun row => nth 2 row 0%R) (s :: ss)) = Ok hi /\
    (0 < hi - lo + literal 1 (-10))%R /\
    norm = map (fun row => ((nth 2 row 0 - lo) / (hi - lo + literal 1 (-10)))%R)
               (s :: ss) /\
    Forall (fun x => (0 <= x < 1)%R) norm /\
    In 0%R norm /\
    stiffness_norm (Array1D (F := R) []) = Ok [].
Proof.
  intros Hcs. unfold stiffness_norm. cbn [np_len length column].
  destruct (Z.ltb_spec 0 (Z.of_nat (S (length ss)))); [|lia].
  destruct (Nat.ltb_spec 2 cs); [|lia].
  cbn [bind map np_min np_max].
  set (k0 := nth 2 s (of_int 0)).
  set (ks := map (fun r => nth 2 r (of_int 0)) ss).
  destruct (fold_left_Rmin ks k0) as [Hlo_in Hlo].
  destruct (fold_left_Rmax ks k0) as [Hhi_in Hhi].
  cbn [fmin fmax R_float].
  set (lo := fold_left Rmin ks k0) in *. set (hi := fold_left Rmax ks k0) in *.
  pose proof tiny_pos as Ht.
  assert (Hlohi : (lo <= hi)%R).
  { inversion Hhi as [|? ? Ha _]; inversion Hlo as [|? ? Hb _]; subst. lra. }
  eexists _, lo, hi. split; [reflexivity|]. split; [reflexivity|].
  split; [reflexivity|]. split; [lra|].
  cbn [fdiv fsub fadd R_float of_int].
  change (k0 :: ks) with (map (fun r => nth 2 r 0%R) (s :: ss)) in Hlo, Hhi, Hlo_in.
  assert (Heq : ((k0 - lo) / (hi - lo + literal 1 (-10)))%R
                :: map (fun x => ((x - lo) / (hi - lo + literal 1 (-10)))%R) ks
                = map (fun row => ((nth 2 row 0 - lo)
                                   / (hi - lo + literal 1 (-10)))%R) (s :: ss)).
  { unfold ks. rewrite map_map. reflexivity. }
  rewrite Heq. split; [reflexivity|]. split; [|split; [|reflexivity]].
  - rewrite Forall_map. rewrite Forall_map in Hlo, Hhi.
    rewrite Forall_forall in Hlo, Hhi |- *. intros row Hrow.
    specialize (Hlo row Hrow). specialize (Hhi row Hrow).
    cbv beta in Hlo, Hhi |- *.
    set (x := nth 2 row 0%R) in *. set (d := (hi - lo + literal 1 (-10))%R) in *.
    assert (Hd : (0 < d)%R) by (unfold d; lra).
    split.
    + apply Rmult_le_pos; [lra|]. left. now apply Rinv_0_lt_compat.
    + apply (Rmult_lt_reg_r d); [exact Hd|].
      unfold Rdiv. rewrite Rmult_assoc, Rinv_l by lra. unfold d. lra.
  - apply in_map_iff in Hlo_in. destruct Hlo_in as (row & Hrow & Hin).
    apply in_map_iff. exists row. split; [|exact Hin].
    cbv beta. rewrite Hrow. unfold Rdiv.
    replace (lo - lo)%R with 0%R by ring. apply Rmult_0_l.
Qed.

Lemma colour_scale_is_in_unit_interval_witness :
  (3 <= 4)%nat /\
  exists norm,
    stiffness_norm (Array2D 4 [[0; 1; 500; 0]; [1; 2; 250; 0]]%R) = Ok norm /\
    Forall (fun x => (0 <= x < 1)%R) norm.
Proof.
  assert (Hs : (3 <= 4)%nat) by lia. split; [exact Hs|].
  destruct (colour_scale_is_in_unit_interval 4 [0; 1; 500; 0]%R
              [[1; 2; 250; 0]]%R Hs)
    as (norm & lo & hi & Hn & _ & _ & _ & _ & Hr & _).
  exists norm. split; [exact Hn|exact Hr].
Defined.

Lemma markers_need_one_vertex_witness :
  (2 <= 2)%nat /\
  highlighted_points (Array2D (F := R) 2 []) = Raise IndexError /\
  exists b t, highlighted_points (Array2D 2 [[1; 0]; [0; 1]]%R) = Ok (b, t).
Proof.
  assert (Hc : (2 <= 2)%nat) by lia. split; [exact Hc|].
  destruct (markers_need_one_vertex (PF := R_float) 2 [] Hc) as [He _].
  destruct (markers_need_one_vertex (PF := R_float) 2 [[1; 0]; [0; 1]]%R Hc)
    as [_ Hne].
  split; [exact (He eq_refl)|].
  destruct (Hne ltac:(discriminate)) as (b & t & Hbt & _).
  exists b, t. exact Hbt.
Defined.

Lemma markers_of_a_generated_model_witness :
  recognized "healthy" /\ 2 <= 4 /\
  exists M p b t,
    generate_aortic_valve (PF := R_float) 4 (literal 1 0) (literal 12 (-1))
      "healthy" = Ok (M, p) /\
    highlighted_points (Array2D 2 (vertex_rows (vertices M))) = Ok (b, t).
Proof.
  assert (H2 : 2 <= 4) by lia.
  split; [exact healthy_recognized|]. split; [exact H2|].
  destruct (markers_of_a_generated_model (PF := R_float) "healthy" 4
              (literal 1 0) (literal 12 (-1)) healthy_recognized H2)
    as (M & p & Hgen & Hm).
  exists M, p. eexists _, _. split; [exact Hgen|exact Hm].
Defined.

(** * The classifier and the animation *)

(** ** The severity classifier *)

Lemma R_flt_spec (x y : R) : reflect (x < y)%R (flt x y).
Proof. cbn [flt R_order]. destruct (Rlt_dec x y); constructor; assumption. Qed.

Lemma R_fgt_spec (x y : R) : reflect (y < x)%R (fgt x y).
Proof. cbn [fgt R_order]. destruct (Rlt_dec y x); constructor; assumption. Qed.

Lemma R_thresholds :
  literal (F := R) 1 0 = 1%R /\ literal (F := R) 15 (-1) = (3 / 2)%R /\
  literal (F := R) 2 0 = 2%R.
Proof.
  cbn [literal R_float]. change (powerRZ 10 0) with 1%R.
  change (powerRZ 10 (-1)) with (/ (10 * 1))%R.
  repeat split; lra.
Qed.

(** The class by one measurement alone. *)
Lemma class_by_gradient (mg : R) :
  severity_rank (calculate_clinical_severity mg 0%R 2%R)
  = if fgt mg 40%R then 3 else if fgt mg 25%R then 2
    else if fgt mg 10%R then 1 else 0.
Proof.
  unfold calculate_clinical_severity.
  destruct R_thresholds as (-> & -> & ->). cbn [of_int R_float].
  destruct (R_fgt_spec 0 400); [lra|]. destruct (R_fgt_spec 0 300); [lra|].
  destruct (R_fgt_spec 0 200); [lra|].
  destruct (R_flt_spec 2 1); [lra|]. destruct (R_flt_spec 2 (3 / 2)); [lra|].
  destruct (R_flt_spec 2 2); [lra|].
  destruct (fgt mg 40%R), (fgt mg 25%R), (fgt mg 10%R); reflexivity.
Qed.

Lemma class_by_velocity (pv : R) :
  severity_rank (calculate_clinical_severity 0%R pv 2%R)
  = if fgt pv 400%R then 3 else if fgt pv 300%R then 2
    else if fgt pv 200%R then 1 else 0.
Proof.
  unfold calculate_clinical_severity.
  destruct R_thresholds as (-> & -> & ->). cbn [of_int R_float].
  destruct (R_fgt_spec 0 40); [lra|]. destruct (R_fgt_spec 0 25); [lra|].
  destruct (R_fgt_spec 0 10); [lra|].
  destruct (R_flt_spec 2 1); [lra|]. destruct (R_flt_spec 2 (3 / 2)); [lra|].
  destruct (R_flt_spec 2 2); [lra|].
  destruct (fgt pv 400%R), (fgt pv 300%R), (fgt pv 200%R); reflexivity.
Qed.

Lemma class_by_area (eoa : R) :
  severity_rank (calculate_clinical_severity 0%R 0%R eoa)
  = if flt eoa 1%R then 3 else if flt eoa (3 / 2)%R then 2
    else if flt eoa 2%R then 1 else 0.
Proof.
  unfold calculate_clinical_severity.
  destruct R_thresholds as (-> & -> & ->). cbn [of_int R_float].
  destruct (R_fgt_spec 0 40); [lra|]. destruct (R_fgt_spec 0 25); [lra|].
  destruct (R_fgt_spec 0 10); [lra|].
  destruct (R_fgt_spec 0 400); [lra|]. destruct (R_fgt_spec 0 300); [lra|].
  destruct (R_fgt_spec 0 200); [lra|].
  destruct (flt eoa 1%R), (flt eoa (3 / 2)%R), (flt eoa 2%R); reflexivity.
Qed.

Lemma class_is_the_worst (mg pv eoa : R) :
  severity_rank (calculate_clinical_severity mg pv eoa)
  = Z.max (severity_rank (calculate_clinical_severity mg 0%R 2%R))
      (Z.max (severity_rank (calculate_clinical_severity 0%R pv 2%R))
             (severity_rank (calculate_clinical_severity 0%R 0%R eoa))).
Proof.
  rewrite class_by_gradient, class_by_velocity, class_by_area.
  unfold calculate_clinical_severity.
  destruct R_thresholds as (-> & -> & ->). cbn [of_int R_float].
  destruct (R_fgt_spec mg 40), (R_fgt_spec mg 25), (R_fgt_spec mg 10);
    try lra;
    destruct (R_fgt_spec pv 400), (R_fgt_spec pv 300), (R_fgt_spec pv 200);
    try lra;
    destruct (R_flt_spec eoa 1), (R_flt_spec eoa (3 / 2)), (R_flt_spec eoa 2);
    try lra; reflexivity.
Qed.

(** X24: over the reals the class is that of the worst of the three
    measurements, each judged alone (the other two at the normal values 0,
    0 and 2.0); so a higher gradient, a higher velocity or a smaller orifice
    area never lowers the class. *)
Theorem class_follows_the_worst_measurement (mg pv eoa mg' pv' eoa' : R) :
  (mg <= mg')%R -> (pv <= pv')%R -> (eoa' <= eoa)%R ->
  severity_rank (calculate_clinical_severity mg pv eoa)
  = Z.max (severity_rank (calculate_clinical_severity mg 0%R 2%R))
      (Z.max (severity_rank (calculate_clinical_severity 0%R pv 2%R))
             (severity_rank (calculate_clinical_severity 0%R 0%R eoa))) /\
  severity_rank (calculate_clinical_severity mg pv eoa)
  <= severity_rank (calculate_clinical_severity mg' pv' eoa') /\
  0 <= severity_rank (calculate_clinical_severity mg pv eoa) <= 3.
Proof.
  intros Hmg Hpv Heoa. split; [apply class_is_the_worst|].
  rewrite (class_is_the_worst mg pv eoa), (class_is_the_worst mg' pv' eoa').
  rewrite !class_by_gradient, !class_by_velocity, !class_by_area.
  assert (H1 : (if fgt mg 40%R then 3 else if fgt mg 25%R then 2
                else if fgt mg 10%R then 1 else 0)
               <= (if fgt mg' 40%R then 3 else if fgt mg' 25%R then 2
                   else if fgt mg' 10%R then 1 else 0) /\
               0 <= (if fgt mg 40%R then 3 else if fgt mg 25%R then 2
                     else if fgt mg 10%R then 1 else 0) <= 3).
  { destruct (R_fgt_spec mg 40), (R_fgt_spec mg 25), (R_fgt_spec mg 10),
      (R_fgt_spec mg' 40), (R_fgt_spec mg' 25), (R_fgt_spec mg' 10);
      try lra; lia. }
  assert (H2 : (if fgt pv 400%R then 3 else if fgt pv 300%R then 2
                else if fgt pv 200%R then 1 else 0)
               <= (if fgt pv' 400%R then 3 else if fgt pv' 300%R then 2
                   else if fgt pv' 200%R then 1 else 0) /\
               0 <= (if fgt pv 400%R then 3 else if fgt pv 300%R then 2
                     else if fgt pv 200%R then 1 else 0) <= 3).
  { destruct (R_fgt_spec pv 400), (R_fgt_spec pv 300), (R_fgt_spec pv 200),
      (R_fgt_spec pv' 400), (R_fgt_spec pv' 300), (R_fgt_spec pv' 200);
      try lra; lia. }
  assert (H3 : (if flt eoa 1%R then 3 else if flt eoa (3 / 2)%R then 2
                else if flt eoa 2%R then 1 else 0)
               <= (if flt eoa' 1%R then 3 else if flt eoa' (3 / 2)%R then 2
                   else if flt eoa' 2%R then 1 else 0) /\
               0 <= (if flt eoa 1%R then 3 else if flt eoa (3 / 2)%R then 2
                     else if flt eoa 2%R then 1 else 0) <= 3).
  { destruct (R_flt_spec eoa 1), (R_flt_spec eoa (3 / 2)), (R_flt_spec eoa 2),
      (R_flt_spec eoa' 1), (R_flt_spec eoa' (3 / 2)), (R_flt_spec eoa' 2);
      try lra; lia. }
  lia.
Qed.

(** X25: in binary64 a measurement that is a nan is judged as a normal one:
    the class is the one obtained with 0 in place of a nan gradient or
    velocity and with 2.0 in place of a nan orifice area, so three nans are
    classified [NORMAL]; no comparison raises. *)
Theorem nan_measurement_counts_as_normal
    (pow : spec_float -> Z -> spec_float) (sin cos : spec_float -> spec_float)
    (mg pv eoa : spec_float) :
  calculate_clinical_severity (PF := b64 pow sin cos) S754_nan pv eoa
  = calculate_clinical_severity (PF := b64 pow sin cos) (S754_zero false) pv eoa /\
  calculate_clinical_severity (PF := b64 pow sin cos) mg S754_nan eoa
  = calculate_clinical_severity (PF := b64 pow sin cos) mg (S754_zero false) eoa /\
  calculate_clinical_severity (PF := b64 pow sin cos) mg pv S754_nan
  = calculate_clinical_severity (PF := b64 pow sin cos) mg pv
      (float_of_decimal false 2 0) /\
  calculate_clinical_severity (PF := b64 pow sin cos) S754_nan S754_nan S754_nan
  = "NORMAL"%string.
Proof.
  unfold calculate_clinical_severity.
  cbn [fgt flt b64_order of_int literal b64].
  assert (Hnan : forall z, SFltb (binary_normalize prec emax z 0 false) S754_nan
                           = false).
  { intros z. unfold SFltb, SFcompare.
    destruct (binary_normalize prec emax z 0 false); reflexivity. }
  assert (Hzero : forall z, In z [40; 25; 10; 400; 300; 200] ->
            SFltb (binary_normalize prec emax z 0 false) (S754_zero false)
            = false).
  { intros z Hz. cbn [In] in Hz.
    repeat (destruct Hz as [<-|Hz]; [vm_compute; reflexivity|]).
    contradiction. }
  rewrite !Hnan, !Hzero by (cbn [In]; tauto).
  change (SFltb S754_nan (float_of_decimal false 1 0)) with false.
  change (SFltb S754_nan (float_of_decimal false 15 (-1))) with false.
  change (SFltb S754_nan (float_of_decimal false 2 0)) with false.
  change (SFltb (float_of_decimal false 2 0) (float_of_decimal false 1 0))
    with false.
  change (SFltb (float_of_decimal false 2 0) (float_of_decimal false 15 (-1)))
    with false.
  change (SFltb (float_of_decimal false 2 0) (float_of_decimal false 2 0))
    with false.
  repeat split; reflexivity.
Qed.

(** ** The leaflet motion of the animation *)

(** X26: the animation knows two severities.  For every label other than
    [healthy] and [severe], the generator's [mild] and [moderate] among
    them, [simulate_valve_deformation] raises [KeyError] before it looks at
    the vertices or the time. *)
Theorem animation_knows_two_severities {F : Type} {PF : PyFloat F}
    {PO : PyOrder F} (base_verts : ndarray F) (time_in_cycle : F)
    (label : string) :
  label <> "healthy"%string -> label <> "severe"%string ->
  simulate_valve_deformation base_verts time_in_cycle label
  = Raise (KeyError label).
Proof.
  intros Hh Hs. unfold simulate_valve_deformation, deformation_params.
  cbn [dict_get].
  destruct (String.eqb_spec "healthy" label); [congruence|].
  destruct (String.eqb_spec "severe" label); [congruence|].
  reflexivity.
Qed.

Lemma animation_knows_two_severities_witness :
  "mild"%string <> "healthy"%string /\ "mild"%string <> "severe"%string /\
  recognized "mild" /\
  simulate_valve_deformation (Array2D 2 [[1; 0]; [0; 1]]%R) 0%R "mild"
  = Raise (KeyError "mild").
Proof.
  assert (Hh : "mild"%string <> "healthy"%string) by discriminate.
  assert (Hs : "mild"%string <> "severe"%string) by discriminate.
  split; [exact Hh|]. split; [exact Hs|].
  split; [right; left; reflexivity|].
  exact (animation_knows_two_severities (Array2D 2 [[1; 0]; [0; 1]]%R) 0%R
           "mild" Hh Hs).
Defined.

Lemma R_opening_literals :
  literal (F := R) 95 (-2) = (95 / 100)%R /\
  literal (F := R) 5 (-1) = (1 / 2)%R /\
  literal (F := R) 3 (-1) = (3 / 10)%R /\
  literal (F := R) 5 (-2) = (5 / 100)%R.
Proof.
  cbn [literal R_float].
  change (powerRZ 10 (-1)) with (/ (10 * 1))%R.
  change (powerRZ 10 (-2)) with (/ (10 * (10 * 1)))%R.
  repeat split; lra.
Qed.

Lemma R_opening_bounds (params : opening_params R) (t : R) :
  (0 <= max_opening params <= 95 / 100)%R -> (0 <= t)%R ->
  (0 <= opening_at params t <= 95 / 100)%R /\
  ((3 / 10 <= t)%R -> opening_at params t = (5 / 100)%R).
Proof.
  intros Hm Ht. unfold opening_at.
  destruct R_opening_literals as (_ & _ & -> & ->).
  destruct (R_flt_spec t (3 / 10)) as [Hlt|Hge].
  - cbn [np_sin fdiv fmul np_pi R_float]. split; [|lra].
    assert (Hpi : (0 < PI)%R) by apply PI_RGT_0.
    assert (Hx0 : (0 <= PI * t / (3 / 10))%R).
    { unfold Rdiv. apply Rmult_le_pos; [apply Rmult_le_pos; lra|].
      left. apply Rinv_0_lt_compat. lra. }
    assert (Hx1 : (PI * t / (3 / 10) <= PI)%R).
    { apply (Rmult_le_reg_r (3 / 10)); [lra|].
      unfold Rdiv at 1. rewrite Rmult_assoc, Rinv_l by lra. nra. }
    pose proof (sin_ge_0 _ Hx0 Hx1) as Hs0.
    pose proof (SIN_bound (PI * t / (3 / 10))) as [_ Hs1].
    split; [apply Rmult_le_pos; lra|]. nra.
  - split; [lra|]. intros _. reflexivity.
Qed.

Lemma combine_map_r {A B} (f : A -> B) (l : list A) :
  combine l (map f l) = map (fun a => (a, f a)) l.
Proof. induction l as [|a l IH]; [reflexivity|]. cbn [map combine]. now rewrite IH. Qed.

(** X27: over the reals, for the two severities the animation knows, a
    time [t >= 0] and a vertex matrix with a vertex off the origin,
    [simulate_valve_deformation] returns an opening between 0 and 0.95 (0.05
    from [t = 0.3] on) and moves every vertex along its ray through the
    origin: row [i] of the result is row [i] of the input times a factor
    between [1 - 0.3 * opening] and 1, and the factor is 1 for a vertex
    farthest from the origin.  So no vertex moves outward or across the
    origin, and the outermost vertices stay in place. *)
Theorem deformation_pulls_vertices_inward (rows : list (list R)) (t : R)
    (severity : string) :
  severity = "healthy"%string \/ severity = "severe"%string ->
  (0 <= t)%R ->
  (exists row, In row rows /\ (0 < row_norm row [0; 0])%R) ->
  exists rows' opening,
    simulate_valve_deformation (Array2D 2 rows) t severity
    = Ok (Array2D 2 rows', opening) /\
    (0 <= opening <= 95 / 100)%R /\
    ((3 / 10 <= t)%R -> opening = (5 / 100)%R) /\
    length rows' = length rows /\
    forall i row, nth_error rows i = Some row ->
      exists sigma,
        (1 - 3 / 10 * opening <= sigma <= 1)%R /\
        nth_error rows' i
        = Some [(nth 0 row 0 * sigma)%R; (nth 1 row 0 * sigma)%R] /\
        ((forall row', In row' rows ->
            (row_norm row' [0; 0] <= row_norm row [0; 0])%R) ->
         sigma = 1%R).
Proof.
  intros Hsev Ht (far & Hfar & Hpos).
  unfold simulate_valve_deformation.
  assert (Hp : exists params,
            dict_get (deformation_params (F := R)) severity = Ok params /\
            (0 <= max_opening params <= 95 / 100)%R).
  { destruct R_opening_literals as (H95 & H5 & _).
    destruct Hsev as [-> | ->]; eexists; (split; [reflexivity|]);
      cbn [max_opening]; [rewrite H95|rewrite H5]; lra. }
  destruct Hp as (params & -> & Hm). cbn [bind].
  destruct (R_opening_bounds params t Hm Ht) as [Ho Hd].
  set (opening := opening_at params t) in *.
  cbn [of_int R_float].
  set (radii := map (fun r => row_norm r [0; 0]%R) rows).
  destruct rows as [|row0 rows0]; [contradiction|].
  set (rows := row0 :: rows0) in *.
  assert (Hr : radii = row_norm row0 [0; 0]%R
                       :: map (fun r => row_norm r [0; 0]%R) rows0) by reflexivity.
  rewrite Hr. cbn [np_max bind fmax R_float].
  destruct (fold_left_Rmax (map (fun r => row_norm r [0; 0]%R) rows0)
              (row_norm row0 [0; 0]%R)) as [Hin Hle].
  set (hi := fold_left Rmax (map (fun r => row_norm r [0; 0]%R) rows0)
               (row_norm row0 [0; 0]%R)) in *.
  rewrite <- Hr in Hin, Hle |- *. unfold radii in Hle. rewrite Forall_map in Hle.
  rewrite Forall_forall in Hle.
  assert (Hhi : (0 < hi)%R).
  { pose proof (Hle far Hfar) as Hf. cbv beta in Hf. lra. }
  unfold radii. rewrite map_map, combine_map_r, map_map.
  destruct R_opening_literals as (_ & _ & -> & _).
  cbn [fmul fsub fdiv R_float].
  eexists _, opening. split; [reflexivity|]. split; [exact Ho|].
  split; [exact Hd|]. split; [apply length_map|].
  intros i row Hrow. rewrite nth_error_map, Hrow. cbn [option_map].
  assert (Hrin : In row rows) by (eapply nth_error_In; exact Hrow).
  pose proof (Hle row Hrin) as Hrle. cbv beta in Hrle.
  pose proof (row_norm_nonneg row [0; 0]%R) as Hr0.
  set (rho := row_norm row [0; 0]%R) in *.
  assert (Hq : (0 <= rho / hi <= 1)%R).
  { split.
    - apply Rmult_le_pos; [lra|]. left. now apply Rinv_0_lt_compat.
    - apply (Rmult_le_reg_r hi); [exact Hhi|].
      unfold Rdiv. rewrite Rmult_assoc, Rinv_l by lra. lra. }
  exists (1 - opening * (1 - rho / hi) * (3 / 10))%R.
  split; [nra|]. split; [reflexivity|].
  intros Hmax.
  assert (Hrho : rho = hi).
  { apply Rle_antisym; [exact Hrle|].
    unfold radii in Hin. apply in_map_iff in Hin.
    destruct Hin as (row' & <- & Hin'). apply Hmax. exact Hin'. }
  rewrite Hrho. unfold Rdiv. rewrite Rinv_r by lra. ring.
Qed.

Lemma deformation_pulls_vertices_inward_witness :
  ("healthy"%string = "healthy"%string \/ "healthy"%string = "severe"%string) /\
  (0 <= 1 / 2)%R /\
  (exists row, In row [[1; 0]; [0; 2]]%R /\ (0 < row_norm row [0; 0])%R) /\
  exists rows' opening,
    simulate_valve_deformation (Array2D 2 [[1; 0]; [0; 2]]%R) (1 / 2)%R "healthy"
    = Ok (Array2D 2 rows', opening) /\
    opening = (5 / 100)%R /\ length rows' = 2%nat.
Proof.
  assert (Hs : "healthy"%string = "healthy"%string
               \/ "healthy"%string = "severe"%string) by (left; reflexivity).
  assert (Ht : (0 <= 1 / 2)%R) by lra.
  assert (Hf : exists row, In row [[1; 0]; [0; 2]]%R
                           /\ (0 < row_norm row [0; 0])%R).
  { exists [1; 0]%R. split; [left; reflexivity|].
    unfold row_norm, np_sum. cbn.
    replace (0 + (1 - 0) * (1 - 0) + (0 - 0) * (0 - 0))%R with 1%R by ring.
    rewrite sqrt_1. lra. }
  split; [exact Hs|]. split; [exact Ht|]. split; [exact Hf|].
  destruct (deformation_pulls_vertices_inward [[1; 0]; [0; 2]]%R (1 / 2)%R
              "healthy" Hs Ht Hf)
    as (rows' & opening & Hd & _ & Ho & Hl & _).
  exists rows', opening. split; [exact Hd|]. split; [apply Ho; lra|exact Hl].
Defined.

Lemma class_follows_the_worst_measurement_witness :
  (5 <= 30)%R /\ (120 <= 120)%R /\ (1 <= 3)%R /\
  severity_rank (calculate_clinical_severity 5%R 120%R 3%R)
  <= severity_rank (calculate_clinical_severity 30%R 120%R 1%R).
Proof.
  assert (H1 : (5 <= 30)%R) by lra. assert (H2 : (120 <= 120)%R) by lra.
  assert (H3 : (1 <= 3)%R) by lra.
  split; [exact H1|]. split; [exact H2|]. split; [exact H3|].
  exact (proj1 (proj2 (class_follows_the_worst_measurement
                         5%R 120%R 3%R 30%R 120%R 1%R H1 H2 H3))).
Defined.

Lemma simulate_returns_the_opening {F : Type} {PF : PyFloat F} {PO : PyOrder F}
    (rows : list (list F)) (t : F) (severity : string)
    (params : opening_params F) :
  dict_get deformation_params severity = Ok params -> rows <> [] ->
  exists rows',
    simulate_valve_deformation (Array2D 2 rows) t severity
    = Ok (Array2D 2 rows', opening_at params t).
Proof.
  intros Hp Hrows. unfold simulate_valve_deformation. rewrite Hp. cbn [bind].
  destruct rows as [|row rows]; [congruence|].
  cbn [map np_max bind]. eexists. reflexivity.
Qed.

(** X28: the frames of the animation, over the reals, with the cycle of 0.8
    and each valve given at least one vertex.  Frame [k] of [total > 0]
    frames ([0 <= k < total]) is drawn at time [k / total * 0.8], which is
    less than 0.8; its phase is [SYSTOLE] exactly when [8 k < 3 total]; the
    severe valve is never opened wider than the healthy one, and in diastole
    both are opened by 0.05.  With [total = 0] the division raises
    [ZeroDivisionError]. *)
Theorem frames_run_through_one_cycle (frame_num total_frames : Z)
    (rows_h rows_s : list (list R)) :
  0 <= frame_num < total_frames -> rows_h <> [] -> rows_s <> [] ->
  (forall h s,
     create_frame frame_num h s 0 (literal (F := R) 8 (-1))
     = Raise ZeroDivisionError) /\
  exists t vh oh vs os phase,
    create_frame frame_num (Array2D 2 rows_h) (Array2D 2 rows_s) total_frames
      (literal 8 (-1))
    = Ok (t, (vh, oh), (vs, os), phase) /\
    t = (IZR frame_num / IZR total_frames * (8 / 10))%R /\
    (0 <= t < 8 / 10)%R /\
    (phase = "SYSTOLE"%string <-> 8 * frame_num < 3 * total_frames) /\
    (phase = "DIASTOLE"%string <-> 3 * total_frames <= 8 * frame_num) /\
    (0 <= os <= oh)%R /\
    (phase = "DIASTOLE"%string -> oh = (5 / 100)%R /\ os = (5 / 100)%R).
Proof.
  intros Hf Hh Hs. split; [reflexivity|].
  unfold create_frame, truediv.
  destruct (Z.eqb_spec total_frames 0); [lia|]. cbn [bind].
  assert (H8 : literal (F := R) 8 (-1) = (8 / 10)%R).
  { cbn [literal R_float]. change (powerRZ 10 (-1)) with (/ (10 * 1))%R. lra. }
  rewrite H8. cbn [int_truediv fmul R_float].
  set (t := (IZR frame_num / IZR total_frames * (8 / 10))%R).
  destruct (simulate_returns_the_opening rows_h t "healthy" _ eq_refl Hh)
    as [vh ->].
  destruct (simulate_returns_the_opening rows_s t "severe" _ eq_refl Hs)
    as [vs ->].
  cbn [bind]. eexists t, _, _, _, _, _. split; [reflexivity|].
  split; [reflexivity|].
  assert (Hd : (0 < IZR total_frames)%R) by (apply IZR_lt; lia).
  assert (Hn0 : (0 <= IZR frame_num)%R) by (apply IZR_le; lia).
  assert (Hn1 : (IZR frame_num < IZR total_frames)%R) by (apply IZR_lt; lia).
  assert (Hq : (0 <= IZR frame_num / IZR total_frames < 1)%R).
  { split.
    - apply Rmult_le_pos; [exact Hn0|]. left. now apply Rinv_0_lt_compat.
    - apply (Rmult_lt_reg_r (IZR total_frames)); [exact Hd|].
      unfold Rdiv. rewrite Rmult_assoc, Rinv_l by lra. lra. }
  assert (Ht : (0 <= t < 8 / 10)%R) by (unfold t; lra).
  split; [exact Ht|].
  assert (Hsys : (t < 3 / 10)%R <-> 8 * frame_num < 3 * total_frames).
  { unfold t. split.
    - intros Hlt.
      assert (H : (8 * IZR frame_num < 3 * IZR total_frames)%R).
      { apply (Rmult_lt_compat_r (IZR total_frames)) in Hlt; [|exact Hd].
        unfold Rdiv in Hlt.
        replace (IZR frame_num * / IZR total_frames * (8 * / 10)
                 * IZR total_frames)%R
          with (IZR frame_num * (8 / 10)
                * (/ IZR total_frames * IZR total_frames))%R in Hlt
          by (field; lra).
        rewrite Rinv_l in Hlt by lra. lra. }
      rewrite <- !mult_IZR in H. apply lt_IZR in H. exact H.
    - intros Hlt. apply IZR_lt in Hlt. rewrite !mult_IZR in Hlt.
      apply (Rmult_lt_reg_r (IZR total_frames)); [exact Hd|].
      unfold Rdiv.
      replace (IZR frame_num * / IZR total_frames * (8 * / 10)
               * IZR total_frames)%R
        with (IZR frame_num * (8 / 10)
              * (/ IZR total_frames * IZR total_frames))%R by (field; lra).
      rewrite Rinv_l by lra. lra. }
  destruct R_opening_literals as (H95 & H5 & H3 & H05).
  unfold opening_at. cbn [max_opening]. rewrite H3, H05, H95, H5.
  destruct (R_flt_spec t (3 / 10)) as [Hlt|Hge].
  - split; [split; [intros _; apply Hsys; exact Hlt|reflexivity]|].
    split; [split; [discriminate|intros Hc; apply Hsys in Hlt; lia]|].
    split; [|discriminate].
    cbn [np_sin fdiv fmul np_pi R_float].
    assert (Hpi : (0 < PI)%R) by apply PI_RGT_0.
    assert (Hx0 : (0 <= PI * t / (3 / 10))%R).
    { unfold Rdiv. apply Rmult_le_pos; [apply Rmult_le_pos; lra|].
      left. apply Rinv_0_lt_compat. lra. }
    assert (Hx1 : (PI * t / (3 / 10) <= PI)%R).
    { apply (Rmult_le_reg_r (3 / 10)); [lra|].
      unfold Rdiv at 1. rewrite Rmult_assoc, Rinv_l by lra. nra. }
    pose proof (sin_ge_0 _ Hx0 Hx1) as Hs0. nra.
  - split; [split; [discriminate|intros Hc; apply Hsys in Hc; lra]|].
    split; [split; [intros _|reflexivity]|].
    { destruct (Z.le_gt_cases (3 * total_frames) (8 * frame_num)) as [H|H];
        [exact H|]. apply Hsys in H. lra. }
    split; [lra|]. intros _. split; reflexivity.
Qed.

Lemma frames_run_through_one_cycle_witness :
  0 <= 100 < 240 /\ [[1; 0]; [0; 1]]%R <> [] /\ [[2; 0]]%R <> [] /\
  exists t vh oh vs os,
    create_frame 100 (Array2D 2 [[1; 0]; [0; 1]]%R) (Array2D 2 [[2; 0]]%R) 240
      (literal 8 (-1))
    = Ok (t, (vh, oh), (vs, os), "DIASTOLE"%string) /\
    oh = (5 / 100)%R.
Proof.
  assert (Hf : 0 <= 100 < 240) by lia.
  assert (Hh : [[1; 0]; [0; 1]]%R <> []) by discriminate.
  assert (Hs : [[2; 0]]%R <> []) by discriminate.
  split; [exact Hf|]. split; [exact Hh|]. split; [exact Hs|].
  destruct (frames_run_through_one_cycle 100 240 [[1; 0]; [0; 1]]%R [[2; 0]]%R
              Hf Hh Hs)
    as (_ & t & vh & oh & vs & os & phase & Hc & _ & _ & _ & Hd & _ & Ho).
  assert (Hp : phase = "DIASTOLE"%string) by (apply Hd; lia).
  exists t, vh, oh, vs, os. rewrite <- Hp. split; [exact Hc|].
  exact (proj1 (Ho Hp)).
Defined.

(** * Further worked instances *)

Lemma blank_header_raises_value_error_witness :
  all_space (fst (readline EmptyString)) = true /\
  read_vertex_file (F := spec_float) EmptyString = Raise ValueError /\
  read_spring_file (PF := plain_b64) EmptyString = Raise ValueError.
Proof.
  assert (Hb : all_space (fst (readline EmptyString)) = true) by reflexivity.
  split; [exact Hb|].
  destruct (blank_header_raises_value_error (PF := plain_b64) EmptyString Hb)
    as (Hv & Hs & _).
  split; [exact Hv|exact Hs].
Defined.

Lemma non_positive_header_witness :
  -1 <= 0 /\
  read_vertex_file (F := spec_float) (py_str (-1) ++ newline ++ "x")
  = Raise ValueError /\
  read_spring_file (PF := plain_b64) (py_str (-1) ++ newline ++ "x")
  = Ok (Array1D []).
Proof.
  assert (Hk : -1 <= 0) by lia. split; [exact Hk|].
  destruct (non_positive_header (PF := plain_b64) (-1) "x" Hk) as (Hv & Hs & _).
  split; [exact Hv|exact Hs].
Defined.


Lemma header_decides_the_rows_read_witness :
  (1 <= length [(b64_one, S754_zero false); (S754_zero false, b64_one)])%nat /\
  (1 <= length [mk_spring 0 1 b64_one (S754_zero false)])%nat /\
  (1 <= length [mk_beam 0 1 2 b64_one])%nat /\
  read_vertex_file
    (py_str 1 ++ newline ++
     lines_text (map vertex_line
                   [(b64_one, S754_zero false); (S754_zero false, b64_one)])
     ++ "trailing text")
  = Ok (Array2D 2 [[b64_one; S754_zero false]]).
Proof.
  assert (Hv : (1 <= length [(b64_one, S754_zero false);
                             (S754_zero false, b64_one)])%nat) by (cbn; lia).
  assert (Hs : (1 <= length [mk_spring 0 1 b64_one (S754_zero false)])%nat)
    by (cbn; lia).
  assert (Hb : (1 <= length [mk_beam 0 1 2 b64_one])%nat) by (cbn; lia).
  split; [exact Hv|]. split; [exact Hs|]. split; [exact Hb|].
  exact (proj1 (header_decides_the_rows_read 1
                  [(b64_one, S754_zero false); (S754_zero false, b64_one)]
                  [mk_spring 0 1 b64_one (S754_zero false)]
                  [mk_beam 0 1 2 b64_one] "trailing text" Hv Hs Hb)).
Defined.

Lemma stiffness_statistics_of_a_generated_model_witness :
  recognized "healthy" /\ 2 <= 4 /\
  exists M p P,
    generate_aortic_valve 4 1%R (literal 12 (-1)) "healthy" = Ok (M, p) /\
    calculate_geometric_properties (fun _ => None)
      (Array2D 2 (vertex_rows (vertices M)))
      (np_array (map spring_row (springs M))) = Ok P /\
    n_vertices P = 12 /\ n_springs P = 15 /\
    max_stiffness P = spring_stiffness p.
Proof.
  assert (H2 : 2 <= 4) by lia.
  split; [exact healthy_recognized|]. split; [exact H2|].
  destruct (stiffness_statistics_of_a_generated_model (fun _ => None) "healthy"
              4 1%R (literal 12 (-1)) healthy_recognized H2)
    as (M & p & P & Hgen & HP & Hnv & Hns & Hmax & _).
  exists M, p, P. split; [exact Hgen|]. split; [exact HP|].
  split; [exact Hnv|]. split; [exact Hns|exact Hmax].
Defined.

Lemma stiffness_increase_healthy_to_severe_witness :
  2 <= 4 /\
  exists Mh ph Ph Ms ps Ps,
    generate_aortic_valve 4 1%R 2%R "healthy" = Ok (Mh, ph) /\
    calculate_geometric_properties (fun _ => None)
      (Array2D 2 (vertex_rows (vertices Mh)))
      (np_array (map spring_row (springs Mh))) = Ok Ph /\
    generate_aortic_valve 4 3%R 4%R "severe" = Ok (Ms, ps) /\
    calculate_geometric_properties (fun _ => None)
      (Array2D 2 (vertex_rows (vertices Ms)))
      (np_array (map spring_row (springs Ms))) = Ok Ps /\
    stiffness_increase Ph Ps = 6%R.
Proof.
  assert (H2 : 2 <= 4) by lia. split; [exact H2|].
  exact (stiffness_increase_healthy_to_severe (fun _ => None) 4 1%R 2%R 3%R 4%R
           H2).
Defined.

Lemma properties_of_a_stored_model_witness :
  recognized "severe" /\ 2 <= 4 /\
  exists M p V S B P,
    generate_aortic_valve (PF := plain_b64) 4 (float_of_decimal false 1 0)
      (float_of_decimal false 12 (-1)) "severe" = Ok (M, p) /\
    read_vertex_file (write_vertex_file (vertices M)) = Ok V /\
    read_spring_file (PF := plain_b64) (write_spring_file (springs M)) = Ok S /\
    read_beam_file (PF := plain_b64) (write_beam_file (beams M)) = Ok B /\
    calculate_geometric_properties (PF := plain_b64) (fun _ => None) V S = Ok P /\
    n_vertices P = 12 /\ n_springs P = 15 /\
    max_stiffness P = spring_stiffness p.
Proof.
  assert (Hs : recognized "severe") by (right; right; right; left; reflexivity).
  assert (H2 : 2 <= 4) by lia.
  split; [exact Hs|]. split; [exact H2|].
  destruct (properties_of_a_stored_model (fun x _ => x) (fun x => x)
              (fun x => x) (fun _ => None) "severe" 4
              (float_of_decimal false 1 0) (float_of_decimal false 12 (-1))
              Hs H2)
    as (M & p & V & S & B & P & Hgen & HV & HS & HB & HP & Hnv & Hns & Hmax).
  exists M, p, V, S, B, P. split; [exact Hgen|]. split; [exact HV|].
  split; [exact HS|]. split; [exact HB|]. split; [exact HP|].
  split; [exact Hnv|].
  split; [exact Hns|exact Hmax].
Defined.

Lemma b64_endpoints_witness :
  SFmul prec emax (S754_zero false) (S754_zero false) = S754_zero false /\
  SFmul prec emax b64_one b64_one = b64_one /\
  2 <= 4 /\ 0 <= 1 < 3 /\ finite_or_zero (float_of_decimal false 12 (-1)) /\
  exists p,
    dict_get (severity_params
                (PF := b64 (fun x _ => SFmul prec emax x x) (fun x => x)
                         (fun x => x)))
      "healthy" = Ok p /\
    deflection (PF := b64 (fun x _ => SFmul prec emax x x) (fun x => x)
                        (fun x => x))
      p (int_truediv (PyFloat := b64 (fun x _ => SFmul prec emax x x)
                                   (fun x => x) (fun x => x)) 0 (4 - 1))
    = S754_zero false.
Proof.
  assert (Hp0 : SFmul prec emax (S754_zero false) (S754_zero false)
                = S754_zero false) by reflexivity.
  assert (Hp1 : SFmul prec emax b64_one b64_one = b64_one)
    by (vm_compute; reflexivity).
  assert (H2 : 2 <= 4) by lia. assert (Hk : 0 <= 1 < 3) by lia.
  assert (Hl : finite_or_zero (float_of_decimal false 12 (-1)))
    by (vm_compute; exact I).
  split; [exact Hp0|]. split; [exact Hp1|]. split; [exact H2|].
  split; [exact Hk|]. split; [exact Hl|].
  eexists. split; [reflexivity|].
  refine (proj1 (b64_endpoints (fun x _ => SFmul prec emax x x) (fun x => x)
                   (fun x => x) Hp0 Hp1 eq_refl _ "healthy" _ 4 1 false
                   4503599627370496 (-52) (float_of_decimal false 12 (-1))
                   eq_refl H2 Hk Hl)).
  vm_compute. eexists _, _, _. reflexivity.
Defined.
